(** * drvModbus: a Modbus TCP client driver (drvModbus.h / drvModbus.c)

    A shallow embedding of the driver and the properties of its five
    function operations.

    Conventions of the embedding.
    - C integers are [Z]; every conversion the source performs
      ([uint8_t], [uint16_t], [int], [size_t]) is written out.
    - Memory buffers are [list byte]; a pointer that may be [NULL] is an
      [option].  A request structure ([uint8_t], [uint16_t], [uint16_t],
      not packed) occupies 6 bytes: the code at offset 0, one padding byte
      at offset 1, the two 16-bit fields at offsets 2 and 4.  The MBAP
      header structure is packed and occupies 7 bytes.
    - The byte order of the host is a field of the [platform]; so are the
      other things the C text leaves to the machine (what [rand] returns,
      what fresh memory holds, the numeric value of two addresses the
      source uses as integers).
    - The socket is the abstract transport: [sendto] on an open socket
      appends to the [wire] and succeeds, [recvfrom] takes the next event of
      the [inbox], which is a failure or a message with its source address,
      cut to the size asked for.  The source calls [recvfrom] with the
      number [sizeof (struct sockaddr_in)] where the pointer to the length
      of the address belongs: the message is taken from the socket and
      lands in the buffer, but the call returns -1 and the address is not
      filled in.  An empty inbox means that nothing arrives any more and
      the receive fails.  On a socket that is not open both calls fail and
      nothing moves.
    - [memcpy (p, p + 7, n)] in [modbus_RecvPacket] is defined when both
      ranges lie inside the buffer and do not overlap.
    - Undefined behaviour (a copy or an index that leaves its buffer, the
      value of [return;] in an [int] function) is the outcome [Undefined]. *)

From Stdlib Require Import ZArith List Bool Lia.
Import ListNotations.
Open Scope Z_scope.

(** ** Machine integers and bytes *)

Definition byte := Z.

Definition uint8_t (x : Z) : Z := x mod 256.
Definition uint16_t (x : Z) : Z := x mod 65536.
Definition size_t (x : Z) : Z := x mod 2 ^ 64.
Definition int (x : Z) : Z := (x + 2 ^ 31) mod 2 ^ 32 - 2 ^ 31.
Definition RAND_MAX : Z := 2147483647.

(** The two byte swapping macros, on a value already promoted to [int]. *)
Definition BIG_TO_LITTLE_ENDIAN (s : Z) : Z :=
  Z.lor (Z.land (Z.shiftr s 8) 0x00FF) (Z.land (Z.shiftl s 8) 0xFF00).
Definition LITTLE_TO_BIG_ENDIAN (s : Z) : Z :=
  Z.lor (Z.land (Z.shiftl s 8) 0xFF00) (Z.land (Z.shiftr s 8) 0x00FF).

(** Constants of drvModbus.h *)
Definition MB_ERRCODE_OFFSET : Z := 0x80.
Definition MB_RD_COILS_CODE : Z := 0x01.
Definition MB_RD_DISC_INPUTS_CODE : Z := 0x02.
Definition MB_RD_HOL_REG_CODE : Z := 0x03.
Definition MB_RD_INP_REG_CODE : Z := 0x04.
Definition MB_WR_SIN_REG_CODE : Z := 0x06.
Definition MODBUS_ERR_ILLEGAL_ADDR : Z := 0x02.
Definition MODBUS_PORT : Z := 502.

Definition sizeof_mbap_header : Z := 7.
Definition sizeof_request : Z := 6.

(** ** Data model *)

Inductive endian : Type := LittleEndian | BigEndian.

Record sockaddr_in : Type := mk_sockaddr {
  sin_family : Z;
  sin_port : Z;
  sin_addr : Z;
  sin_zero : Z
}.

(** [memcmp (&a, &b, sizeof (struct sockaddr_in)) == 0] *)
Definition sockaddr_eqb (a b : sockaddr_in) : bool :=
  (sin_family a =? sin_family b) && (sin_port a =? sin_port b)
  && (sin_addr a =? sin_addr b) && (sin_zero a =? sin_zero b).

Definition epicsMutexId := nat.

Record modbus_device_t : Type := mk_device {
  mutex : epicsMutexId;
  addr : sockaddr_in
}.

Record modbus_mbap_header_t : Type := mk_header {
  trans_id : Z;
  protocol_id : Z;
  len : Z;
  unit_id : Z
}.

(** What one call of [recvfrom] meets. *)
Inductive recv_event : Type :=
| RecvError
| RecvFrom (src : sockaddr_in) (data : list byte).

(** What the C text leaves to the machine. *)
Record platform : Type := mk_platform {
  host : endian;
  rand_seq : nat -> Z;        (* the successive results of rand() *)
  fresh : nat -> byte;        (* byte i of memory that was never written *)
  addr_of_outLen : Z;         (* &outLen in modbus_SendPacket, as a number *)
  addr_of_malloc : Z          (* the pointer malloc returns, as a number *)
}.

Record world : Type := mk_world {
  g_ModbusSocket : Z;
  locked : epicsMutexId -> nat;             (* depth of each mutex *)
  wire : list (sockaddr_in * list byte);    (* sendto calls, oldest first *)
  inbox : list recv_event;                  (* what recvfrom will meet *)
  rand_calls : nat
}.

Inductive outcome (A : Type) : Type :=
| Returns (a : A) (w : world)
| Undefined (w : world).
Arguments Returns {A} a w.
Arguments Undefined {A} w.

Definition final_world {A : Type} (o : outcome A) : world :=
  match o with Returns _ w => w | Undefined w => w end.

Definition M (A : Type) : Type := world -> outcome A.

Definition ret {A : Type} (a : A) : M A := fun w => Returns a w.
Definition undefined {A : Type} : M A := fun w => Undefined w.
Definition bind {A B : Type} (m : M A) (f : A -> M B) : M B :=
  fun w => match m w with
           | Returns a w' => f a w'
           | Undefined w' => Undefined w'
           end.

Notation "x <- m ;; k" := (bind m (fun x => k))
  (at level 61, m at next level, right associativity).
Notation "' pat <- m ;; k" := (bind m (fun x => match x with pat => k end))
  (at level 61, pat pattern, m at next level, right associativity).
Notation "m ;;; k" := (bind m (fun _ => k))
  (at level 61, right associativity).

(** ** Memory *)

(** [malloc (n)]: n bytes nobody has written. *)
Definition malloc (P : platform) (n : Z) : list byte :=
  map (fresh P) (seq 0 (Z.to_nat n)).

(** [memset (p, 0, n)] on a fresh object of n bytes. *)
Definition zeroed (n : Z) : list byte := repeat 0 (Z.to_nat n).

(** A 16-bit object in memory. *)
Definition store16 (e : endian) (v : Z) : list byte :=
  match e with
  | LittleEndian => [v mod 256; v / 256]
  | BigEndian => [v / 256; v mod 256]
  end.
Definition load16 (e : endian) (b0 b1 : byte) : Z :=
  match e with
  | LittleEndian => b0 + 256 * b1
  | BigEndian => 256 * b0 + b1
  end.

(** The bytes of a request structure. *)
Definition request_bytes (e : endian) (code pad a v : Z) : list byte :=
  [code; pad] ++ store16 e a ++ store16 e v.

(** The bytes of the packed header structure. *)
Definition header_bytes (e : endian) (h : modbus_mbap_header_t) : list byte :=
  store16 e (trans_id h) ++ store16 e (protocol_id h) ++ store16 e (len h)
  ++ [unit_id h].

(** ** Primitives of the environment *)

Definition upd (f : epicsMutexId -> nat) (k : epicsMutexId) (v : nat)
  : epicsMutexId -> nat :=
  fun k' => if Nat.eqb k' k then v else f k'.

(** The epics mutex is recursive; with one thread a lock always succeeds. *)
Definition epicsMutexLock (id : epicsMutexId) : M unit := fun w =>
  Returns tt (mk_world (g_ModbusSocket w) (upd (locked w) id (S (locked w id)))
                       (wire w) (inbox w) (rand_calls w)).

Definition epicsMutexUnlock (id : epicsMutexId) : M unit := fun w =>
  Returns tt (mk_world (g_ModbusSocket w) (upd (locked w) id (pred (locked w id)))
                       (wire w) (inbox w) (rand_calls w)).

Definition rand (P : platform) : M Z := fun w =>
  Returns (rand_seq P (rand_calls w))
          (mk_world (g_ModbusSocket w) (locked w) (wire w) (inbox w)
                    (S (rand_calls w))).

(** [sendto (g_ModbusSocket, pBuf, nLen, 0, &dest, ...)] *)
Definition sendto (pBuf : list byte) (nLen : Z) (dest : sockaddr_in) : M Z :=
  fun w =>
    if g_ModbusSocket w <? 0 then Returns (-1) w
    else Returns nLen
           (mk_world (g_ModbusSocket w) (locked w)
                     (wire w ++ [(dest, firstn (Z.to_nat nLen) pBuf)])
                     (inbox w) (rand_calls w)).

(** [struct sockaddr_in addr] after [memset (&addr, 0, sizeof (addr))]. *)
Definition zeroed_addr : sockaddr_in := mk_sockaddr 0 0 0 0.

(** One [recvfrom (g_ModbusSocket, pBuf, nLen, MSG_WAITALL, &addr,
    sizeof (struct sockaddr_in))] on an open socket that meets a message.
    The last argument is where recvfrom takes a pointer to the length of
    [addr]; the source hands it the number 16.  The message is taken from
    the socket and at most nLen bytes of it land at the start of the
    buffer, but the address of the sender cannot be stored through that
    argument: the call returns -1 and [addr] stays as memset left it. *)
Definition received (pBuf : list byte) (nLen : Z) (data : list byte)
  : Z * list byte :=
  let got := firstn (Z.to_nat nLen) data in
  (-1, got ++ skipn (length got) pBuf).

(** [memcpy (dst + off, src, n)]: defined when the n bytes lie inside both
    objects. *)
Definition memcpy_at (dst : list byte) (off : Z) (src : list byte) (n : Z)
  : option (list byte) :=
  if (0 <=? off) && (0 <=? n) && (off + n <=? Z.of_nat (length dst))
     && (n <=? Z.of_nat (length src))
  then Some (firstn (Z.to_nat off) dst ++ firstn (Z.to_nat n) src
             ++ skipn (Z.to_nat (off + n)) dst)
  else None.

(** [memcpy (p + dst, p + src, n)] inside the one object [buf]: defined
    when both ranges lie inside the object and do not overlap. *)
Definition memcpy_within (buf : list byte) (dst src n : Z)
  : option (list byte) :=
  if (0 <=? dst) && (0 <=? src) && (0 <=? n)
     && (dst + n <=? Z.of_nat (length buf))
     && (src + n <=? Z.of_nat (length buf))
     && ((dst + n <=? src) || (src + n <=? dst))
  then Some (firstn (Z.to_nat dst) buf
             ++ firstn (Z.to_nat n) (skipn (Z.to_nat src) buf)
             ++ skipn (Z.to_nat (dst + n)) buf)
  else None.

(** Overwrite the bytes of [buf] from offset [off] on with [bs]. *)
Definition poke (buf : list byte) (off : nat) (bs : list byte) : list byte :=
  firstn off buf ++ bs ++ skipn (off + length bs) buf.

(** ** The internal functions of drvModbus.c *)

Module Modbus.
Section Driver.

Variable P : platform.

Definition modbus_ConnectDevice (device : option modbus_device_t) : M unit :=
  match device with
  | None => ret tt
  | Some d => fun w =>
      if g_ModbusSocket w <? 0 then Returns tt w
      else epicsMutexLock (mutex d) w
  end.

Definition modbus_DisconnectDevice (device : option modbus_device_t) : M unit :=
  match device with
  | None => undefined
  | Some d => epicsMutexUnlock (mutex d)
  end.

(** The do-while of modbus_RecvBlock: every turn clears [addr] and is one
    [recvfrom]; a negative result leaves with -1, otherwise the loop goes
    on until [addr] equals the address of the device.  Nothing arriving
    stands for a receive that gives up. *)
Fixpoint recv_loop (dev_addr : sockaddr_in) (pBuf : list byte) (nLen : Z)
  (events : list recv_event) : Z * list byte * list recv_event :=
  match events with
  | [] => (-1, pBuf, [])
  | RecvError :: rest => (-1, pBuf, rest)
  | RecvFrom _ data :: rest =>
      let '(len, pBuf') := received pBuf nLen data in
      if len <? 0 then (-1, pBuf', rest)
      else if sockaddr_eqb zeroed_addr dev_addr then (len, pBuf', rest)
      else recv_loop dev_addr pBuf' nLen rest
  end.

Definition modbus_RecvBlock (pDevice : option modbus_device_t)
  (pBuf : option (list byte)) (nLen : Z) : M (Z * list byte) :=
  match pDevice, pBuf with
  | None, Some buf => ret (-1, buf)
  | _, None => ret (-1, [])
  | Some d, Some buf => fun w =>
      if g_ModbusSocket w <? 0 then Returns (-1, buf) w
      else
        let '(n, buf', rest) := recv_loop (addr d) buf nLen (inbox w) in
        Returns (int n, buf')
                (mk_world (g_ModbusSocket w) (locked w) (wire w) rest
                          (rand_calls w))
  end.

Definition modbus_SendBlock (pBuf : option (list byte)) (nLen : Z)
  (dest : sockaddr_in) : M Z :=
  match pBuf with
  | None => ret (-1)
  | Some buf => sendto buf nLen dest
  end.

(** [pOutLen] is the pair of the pointer's numeric value and the [size_t] it
    points to; the result carries the output buffer, [*pOutLen] and
    [*transactionID] as the call leaves them. *)
Definition modbus_ConstructPacket (pBuf : option (list byte)) (nLen : Z)
  (pOutBuf : option (list byte)) (pOutLen : Z * Z) (transactionID : Z)
  : M (Z * (list byte * Z * Z)) :=
  match pOutBuf, pBuf with
  | Some out, Some buf =>
      if fst pOutLen <? sizeof_mbap_header + nLen
      then ret (-1, (out, snd pOutLen, transactionID))
      else
        r <- rand P ;;
        let header :=
          mk_header (uint16_t (Z.rem r 65535)) 0 (uint16_t (nLen + 1)) 255 in
        match memcpy_at out 0 (header_bytes (host P) header)
                        sizeof_mbap_header with
        | None => undefined
        | Some out1 =>
            match memcpy_at out1 sizeof_mbap_header buf nLen with
            | None => undefined
            | Some out2 =>
                ret (0, (out2, size_t (sizeof_mbap_header + nLen),
                         trans_id header))
            end
        end
  | None, _ => ret (-1, ([], snd pOutLen, transactionID))
  | Some out, None => ret (-1, (out, snd pOutLen, transactionID))
  end.

Definition modbus_SendPacket (device : option modbus_device_t)
  (pData : list byte) (nLen : Z) : M Z :=
  match device with
  | None => ret (-1)
  | Some d =>
      let outLen := size_t (sizeof_mbap_header + nLen + 1) in
      let tID := 0 in
      let pBuf := malloc P outLen in
      '(r, (pBuf, outLen, tID)) <-
        modbus_ConstructPacket (Some pData) nLen (Some pBuf)
                               (addr_of_outLen P, outLen) tID ;;
      if negb (r =? 0) then ret (-1)
      else modbus_SendBlock (Some pBuf) outLen (addr d) ;;; ret tID
  end.

(** [tID] arrives as an [int] and is converted to the [uint16_t] parameter.
    The header is read through the buffer: [header->trans_id] is the 16-bit
    object at its start.  The copy moves [len - 7] bytes, a [size_t], from
    offset 7 of the buffer to its start: on -1 (and below 7 bytes) the
    length wraps and the copy leaves the buffer. *)
Definition modbus_RecvPacket (pDevice : option modbus_device_t)
  (pOutData : list byte) (nLen : Z) (tID : Z) : M (Z * list byte) :=
  '(n, buf) <- modbus_RecvBlock pDevice (Some pOutData) nLen ;;
  match buf with
  | b0 :: b1 :: _ =>
      if load16 (host P) b0 b1 =? uint16_t tID then
        match memcpy_within buf 0 sizeof_mbap_header
                            (size_t (n - sizeof_mbap_header)) with
        | None => undefined
        | Some buf' => ret (int n, buf')
        end
      else ret (-1, buf)
  | _ => undefined
  end.

(** ** The function operations *)

(** The 16-bit field of a structure lying at byte offset [off] of [buf]. *)
Definition field16 (buf : list byte) (off : nat) : Z :=
  load16 (host P) (nth off buf 0) (nth (S off) buf 0).

(** modbus_ReadCoils from the test of what modbus_RecvPacket returned on
    (lines 542 to 562): [r] is that result, [pBuf] the reply buffer, [len]
    its size and [out] the caller's buffer. *)
Definition ReadCoils_reply (device : option modbus_device_t)
  (out : list byte) (len : Z) (r : Z) (pBuf : list byte)
  : M (Z * option (list byte)) :=
  if -1 <? r then
    if nth 0 pBuf 0 =? 0x81 then ret (nth 0 pBuf 0 + 1, Some out)
    else
      (* nOutCoils = ...: the pointer itself is assigned *)
      match memcpy_at out 0 (skipn 2 pBuf) (len - 2) with
      | None => undefined
      | Some out' => modbus_DisconnectDevice device ;;; ret (0, Some out')
      end
  else ret (-1, Some out).

(** The request of every operation: the macro assigns the swapped value
    back to its argument, so [a] and [v] here are the caller's values after
    the swap. The padding byte is whatever the stack held, except where the
    source clears the structure first. *)

Definition modbus_ReadCoils (device : option modbus_device_t)
  (addr ncoils : Z) (pOutBuf : option (list byte)) (nOutCoils : option byte)
  : M (Z * option (list byte)) :=
  match device with
  | None => ret (-1, pOutBuf)
  | Some _ =>
      match pOutBuf, nOutCoils with
      | Some out, Some _ =>
          if 0x7D0 <? ncoils then ret (-1, pOutBuf)
          else
            let ncoils := uint16_t (LITTLE_TO_BIG_ENDIAN ncoils) in
            let addr := uint16_t (LITTLE_TO_BIG_ENDIAN addr) in
            let packet :=
              request_bytes (host P) MB_RD_COILS_CODE (fresh P 1) addr ncoils in
            modbus_ConnectDevice device ;;;
            tID <- modbus_SendPacket device packet sizeof_request ;;
            let len := ncoils + 2 in
            let pBuf := malloc P len in
            '(r, pBuf) <- modbus_RecvPacket device pBuf len tID ;;
            ReadCoils_reply device out len r pBuf
      | _, _ => ret (-1, pOutBuf)
      end
  end.

Definition modbus_WriteSingleRegister (device : option modbus_device_t)
  (addr value : Z) : M Z :=
  match device with
  | None => undefined   (* return; in a function returning int *)
  | Some _ =>
      let addr := uint16_t (LITTLE_TO_BIG_ENDIAN addr) in
      let value := uint16_t (LITTLE_TO_BIG_ENDIAN value) in
      let packet := request_bytes (host P) MB_WR_SIN_REG_CODE 0 addr value in
      modbus_ConnectDevice device ;;;
      tID <- modbus_SendPacket device packet sizeof_request ;;
      let res_packet := zeroed sizeof_request in
      '(bytes, res_packet) <-
        modbus_RecvPacket device res_packet sizeof_request tID ;;
      if negb (field16 packet 4 =? field16 res_packet 4)
         || negb (field16 packet 2 =? field16 res_packet 2)
      then ret (-1)
      else modbus_DisconnectDevice device ;;; ret 0
  end.

Definition modbus_ReadDiscreteInputs (device : option modbus_device_t)
  (addr ncoils : Z) (pOutBuf : option (list byte)) (nOutCoils : option byte)
  : M (Z * option (list byte)) :=
  match device with
  | None => ret (-1, pOutBuf)
  | Some _ =>
      match pOutBuf, nOutCoils with
      | Some out, Some _ =>
          modbus_ConnectDevice device ;;;
          let addr := uint16_t (LITTLE_TO_BIG_ENDIAN addr) in
          let ncoils := uint16_t (LITTLE_TO_BIG_ENDIAN ncoils) in
          let packet :=
            request_bytes (host P) MB_RD_DISC_INPUTS_CODE (fresh P 1)
                          addr ncoils in
          tID <- modbus_SendPacket device packet sizeof_request ;;
          if tID <? 0 then ret (-1, pOutBuf)
          else
            let len := ncoils + 2 in
            let pBuf := malloc P len in
            '(r, pBuf) <- modbus_RecvPacket device pBuf len tID ;;
            let len := size_t r in
            (* len < 0 never holds of a size_t *)
            let code := uint8_t (addr_of_malloc P) in   (* the pointer, cast *)
            modbus_DisconnectDevice device ;;;
            if code =? 0x82 then ret (uint8_t (addr_of_malloc P + 1), pOutBuf)
            else
              match memcpy_at out 0 (skipn 2 pBuf) (size_t (len - 2)) with
              | None => undefined
              | Some out' => ret (0, Some out')
              end
      | _, _ => ret (-1, pOutBuf)
      end
  end.

(** [for (int i = 2; i < len; i += 2) ((uint16_t* )pBuf)[i] = swap]: the
    16-bit object of index i lies at bytes 2i and 2i+1.  The fuel is the size
    of the buffer: when it is used up, index i lies outside. *)
Fixpoint swap_words (fuel : nat) (i len : Z) (pBuf : list byte)
  : option (list byte) :=
  if i <? len then
    match fuel with
    | O => None
    | S k =>
        match nth_error pBuf (Z.to_nat (2 * i)),
              nth_error pBuf (Z.to_nat (2 * i + 1)) with
        | Some b0, Some b1 =>
            let v := uint16_t (BIG_TO_LITTLE_ENDIAN (load16 (host P) b0 b1)) in
            swap_words k (i + 2) len
                       (poke pBuf (Z.to_nat (2 * i)) (store16 (host P) v))
        | _, _ => None
        end
    end
  else Some pBuf.

(** [for (int i = 2; i < len; i += 2) ((uint8_t* )pBuf)[i] = swap]: here
    the macro is applied to one byte. *)
Fixpoint swap_bytes (fuel : nat) (i len : Z) (pBuf : list byte)
  : option (list byte) :=
  if i <? len then
    match fuel with
    | O => None
    | S k =>
        match nth_error pBuf (Z.to_nat i) with
        | Some b =>
            swap_bytes k (i + 2) len
                       (poke pBuf (Z.to_nat i)
                             [uint8_t (BIG_TO_LITTLE_ENDIAN b)])
        | None => None
        end
    end
  else Some pBuf.

Definition modbus_ReadHoldingRegisters (device : option modbus_device_t)
  (addr nregs : Z) (pOutBuf : option (list byte)) (nOutRegs : option Z)
  : M (Z * option (list byte) * option Z) :=
  match device with
  | None => ret (-1, pOutBuf, nOutRegs)
  | Some _ =>
      let addr := uint16_t (LITTLE_TO_BIG_ENDIAN addr) in
      let nregs := uint16_t (LITTLE_TO_BIG_ENDIAN nregs) in
      let packet :=
        request_bytes (host P) MB_RD_HOL_REG_CODE (fresh P 1) addr nregs in
      modbus_ConnectDevice device ;;;
      tID <- modbus_SendPacket device packet sizeof_request ;;
      if tID <? 0 then ret (-1, pOutBuf, nOutRegs)
      else
        let len := 2 * nregs + 2 in
        let pBuf := malloc P len in
        '(r, pBuf) <- modbus_RecvPacket device pBuf len tID ;;
        let len := size_t r in
        modbus_DisconnectDevice device ;;;
        (* len < 0 never holds of a size_t *)
        if nth 0 pBuf 0 =? 0x83 then ret (nth 0 pBuf 0 + 1, pOutBuf, nOutRegs)
        else
          match swap_words (length pBuf) 2 len pBuf with
          | None => undefined
          | Some pBuf =>
              match pOutBuf, nOutRegs with
              | Some out, Some _ =>
                  match memcpy_at out 0 (skipn 2 pBuf) (size_t (len - 2)) with
                  | None => undefined
                  | Some out' =>
                      ret (0, Some out', Some (nth 1 pBuf 0 / 2))
                  end
              | _, _ => undefined
              end
          end
  end.

Definition modbus_ReadInputRegisters (device : option modbus_device_t)
  (addr nregs : Z) (pOutBuf : option (list byte)) (pOutRegs : option byte)
  : M (Z * option (list byte)) :=
  match device with
  | None => ret (-1, pOutBuf)
  | Some _ =>
      let addr := uint16_t (LITTLE_TO_BIG_ENDIAN addr) in
      let nregs := uint16_t (LITTLE_TO_BIG_ENDIAN nregs) in
      let packet :=
        request_bytes (host P) MB_RD_INP_REG_CODE (fresh P 1) addr nregs in
      modbus_ConnectDevice device ;;;
      tID <- modbus_SendPacket device packet sizeof_request ;;
      if tID <? 0 then ret (-1, pOutBuf)
      else
        let len := nregs * 2 + 2 in
        let pBuf := malloc P len in
        '(r, pBuf) <- modbus_RecvPacket device pBuf len tID ;;
        let len := size_t r in
        (* len < 0 never holds of a size_t *)
        if nth 0 pBuf 0 =? 0x84 then ret (nth 1 pBuf 0, pOutBuf)
        else
          match swap_bytes (length pBuf) 2 len pBuf with
          | None => undefined
          | Some pBuf =>
              (* pOutRegs = ...: the pointer itself is assigned *)
              match pOutBuf with
              | Some out =>
                  match memcpy_at out 0 (skipn 2 pBuf) (size_t (len - 2)) with
                  | None => undefined
                  | Some out' => ret (0, Some out')
                  end
              | None => undefined
              end
          end
  end.

(** ** Devices *)

Definition AF_INET : Z := 2.

(** [htons (v)]: the 16-bit value whose two bytes in the memory of the host
    are those of [v], the most significant first. *)
Definition htons (v : Z) : Z := load16 (host P) (v / 256) (v mod 256).

(** [allocated] tells whether malloc gave memory, [created] is the mutex
    epicsMutexCreate returns.  The structure is written before the pointer
    is tested, so the test at the end never fires. *)
Definition modbus_CreateDevice (ip : option sockaddr_in) (allocated : bool)
  (created : epicsMutexId) : M (option modbus_device_t) :=
  match ip, allocated with
  | Some a, true =>
      ret (Some (mk_device created
                   (mk_sockaddr AF_INET (htons MODBUS_PORT) (sin_addr a)
                                (sin_zero a))))
  | _, _ => undefined
  end.

End Driver.
End Modbus.

Import Modbus.

(** ** Sample values: a little-endian and a big-endian host, one device and
    a second peer *)

Definition plc : sockaddr_in := mk_sockaddr 2 MODBUS_PORT 0x0A000001 0.
Definition plc_device : modbus_device_t := mk_device 0%nat plc.

Definition x86 : platform :=
  mk_platform LittleEndian (fun _ => 0x1234) (fun _ => 0xAA)
              0x7FFC00001000 0x55550000A2A0.
Definition m68k : platform :=
  mk_platform BigEndian (fun _ => 0x1234) (fun _ => 0xAA)
              0x7FFC00001000 0x55550000A2A0.


(** An open socket, no mutex held, nothing sent yet. *)
Definition idle (events : list recv_event) : world :=
  mk_world 3 (fun _ => O) [] events 0%nat.

(** ** Vocabulary of the statements *)

(** Same socket, same mutexes, same bytes on the wire. *)
Definition same_link (w w' : world) : Prop :=
  g_ModbusSocket w' = g_ModbusSocket w
  /\ locked w' = locked w
  /\ wire w' = wire w.

(** The world in which an operation finds itself after it has taken the
    mutex and sent its request. *)
Definition requested (P : platform) (d : modbus_device_t)
  (request : list byte) (w : world) : world :=
  let tid := uint16_t (Z.rem (rand_seq P (rand_calls w)) 65535) in
  mk_world (g_ModbusSocket w)
           (upd (locked w) (mutex d) (S (locked w (mutex d))))
           (wire w ++ [(addr d, header_bytes (host P) (mk_header tid 0 7 255)
                                ++ request)])
           (inbox w) (S (rand_calls w)).

Definition after_receive (w : world) (rest : list recv_event) : world :=
  mk_world (g_ModbusSocket w) (locked w) (wire w) rest (rand_calls w).

(** The transaction id a frame carries, as the host reads it. *)
Definition frame_tid (P : platform) (frame : list byte) : Z :=
  load16 (host P) (nth 0 frame 0) (nth 1 frame 0).

(** Two exception replies as the little-endian host of [x86] meets them:
    the first carries the id the host is waiting for, the second another. *)
Definition reply_pending : list byte := [0x34; 0x12; 0; 0; 0; 3; 255; 0x83; 2].
Definition reply_foreign : list byte := [0x99; 0x99; 0; 0; 0; 3; 255; 0x83; 2].


(** An exception reply to function [fn] with exception code [c], carrying
    the id the host of [x86] is waiting for. *)
Definition exception_reply (fn c : byte) : list byte :=
  [0x34; 0x12; 0; 0; 0; 3; 255; fn + MB_ERRCODE_OFFSET; c].

(** The reply a device gives to "write 1234 to register 10": the echo of
    address and value behind a header with the pending id. *)
Definition echo_reply : list byte :=
  [0x34; 0x12; 0; 0; 0; 6; 255; MB_WR_SIN_REG_CODE; 0; 10; 0x04; 0xD2].


(** The receive of the next call fails without a message: the socket is not
    open, nothing arrives any more, or recvfrom reports an error. *)
Definition receive_fails (w : world) : Prop :=
  g_ModbusSocket w < 0 \/ inbox w = [] \/ exists rest, inbox w = RecvError :: rest.

(** The frame modbus_SendPacket builds around [pdu] with transaction id
    [tid]. *)
Definition frame_of (P : platform) (tid : Z) (pdu : list byte) : list byte :=
  header_bytes (host P) (mk_header tid 0 (Z.of_nat (length pdu) + 1) 255)
  ++ pdu.

(** The transaction id the next modbus_SendPacket will draw. *)
Definition next_tid (P : platform) (w : world) : Z :=
  uint16_t (Z.rem (rand_seq P (rand_calls w)) 65535).

(** The world after modbus_ConnectDevice and modbus_SendPacket, whether the
    socket is open or not: on a closed socket neither the mutex is taken
    nor anything sent. *)
Definition attempted (P : platform) (d : modbus_device_t)
  (request : list byte) (w : world) : world :=
  if g_ModbusSocket w <? 0
  then mk_world (g_ModbusSocket w) (locked w) (wire w) (inbox w)
                (S (rand_calls w))
  else requested P d request w.

(** ** Proof tools *)

(** Case analysis on whatever the goal still branches on. *)
Ltac branch :=
  repeat match goal with
         | |- context [match ?x with _ => _ end] => destruct x eqn:?
         | |- context [if ?x then _ else _] => destruct x eqn:?
         end.

(** ** Arithmetic of the conversions *)

Lemma int_minus_one : int (-1) = -1.
Proof. reflexivity. Qed.

Lemma uint16_small (x : Z) : 0 <= x < 65536 -> uint16_t x = x.
Proof. intros Hx. unfold uint16_t. now apply Z.mod_small. Qed.

Lemma rand_mod_range (r : Z) :
  0 <= r -> 0 <= uint16_t (Z.rem r 65535) <= 65534.
Proof.
  intros Hr.
  assert (H : 0 <= Z.rem r 65535 < 65535) by (apply Z.rem_bound_pos; lia).
  rewrite uint16_small; lia.
Qed.

(** ** C9: the range of transaction ids *)

(** C9. With [rand] returning values between 0 and RAND_MAX, the
    transaction id that modbus_ConstructPacket writes lies between 0 and
    65534, and modbus_SendPacket returns either -1, having sent nothing, or
    such an id: 65535 is never used and a returned id is never -1. *)
Theorem transaction_id_range (P : platform)
  (Hrand : forall k, 0 <= rand_seq P k <= RAND_MAX) :
  (forall pBuf nLen pOutBuf pOutLen t0 w out n tid w',
      modbus_ConstructPacket P pBuf nLen pOutBuf pOutLen t0 w
      = Returns (0, (out, n, tid)) w' ->
      0 <= tid <= 65534)
  /\ (forall device pData nLen w r w',
         modbus_SendPacket P device pData nLen w = Returns r w' ->
         (r = -1 /\ wire w' = wire w) \/ 0 <= r <= 65534).
Proof.
  assert (Hcons : forall pBuf nLen pOutBuf pOutLen t0 w out n tid w',
             modbus_ConstructPacket P pBuf nLen pOutBuf pOutLen t0 w
             = Returns (0, (out, n, tid)) w' -> 0 <= tid <= 65534).
  { intros pBuf nLen pOutBuf pOutLen t0 w out n tid w'.
    unfold modbus_ConstructPacket.
    destruct pOutBuf as [o|], pBuf as [b|]; try (unfold ret; discriminate).
    destruct (fst pOutLen <? sizeof_mbap_header + nLen);
      [unfold ret; discriminate|].
    unfold bind, rand.
    destruct (memcpy_at o 0 _ sizeof_mbap_header) as [o1|];
      [|unfold undefined; discriminate].
    destruct (memcpy_at o1 sizeof_mbap_header b nLen) as [o2|];
      [|unfold undefined; discriminate].
    unfold ret. intros H. injection H as _ _ <- _. simpl.
    apply rand_mod_range, Hrand. }
  split; [exact Hcons|].
  intros device pData nLen w r w'.
  unfold modbus_SendPacket.
  destruct device as [d|]; [|unfold ret; intros H; injection H as <- <-; auto].
  unfold bind.
  destruct (modbus_ConstructPacket P (Some pData) nLen _ _ 0 w)
    as [[c [[o n] t]] w1|w1] eqn:E; [|discriminate].
  destruct (c =? 0) eqn:Ec; simpl.
  - apply Z.eqb_eq in Ec. subst c. apply Hcons in E.
    unfold modbus_SendBlock, sendto.
    destruct (g_ModbusSocket w1 <? 0); unfold ret;
      intros H; injection H as <- _; auto.
  - unfold ret. intros H. injection H as <- <-. left. split; [reflexivity|].
    revert E. unfold modbus_ConstructPacket. cbn [fst snd].
    destruct (addr_of_outLen P <? sizeof_mbap_header + nLen).
    + unfold ret. intros H. injection H as _ _ _ _ <-. reflexivity.
    + unfold bind, rand.
      destruct (memcpy_at _ 0 _ sizeof_mbap_header) as [o1|];
        [|unfold undefined; discriminate].
      destruct (memcpy_at o1 sizeof_mbap_header pData nLen) as [o2|];
        [|unfold undefined; discriminate].
      unfold ret. intros H. injection H as <- _ _ _ _. discriminate.
Qed.

Lemma transaction_id_range_witness :
  (forall k, 0 <= rand_seq x86 k <= RAND_MAX)
  /\ 0 <= 0x1234 <= 65534.
Proof.
  assert (Hrand : forall k, 0 <= rand_seq x86 k <= RAND_MAX)
    by (intros k; simpl; unfold RAND_MAX; lia).
  split; [exact Hrand|].
  destruct (transaction_id_range x86 Hrand) as [_ Hsend].
  destruct (Hsend (Some plc_device) [6; 0; 0; 10; 4; 210] 6 (idle [])
                  0x1234 _ eq_refl) as [[H _]|H].
  - discriminate H.
  - exact H.
Defined.

(** ** What the internal functions leave untouched *)

Lemma same_link_refl (w : world) : same_link w w.
Proof. repeat split. Qed.

Lemma RecvBlock_same_link pDevice pBuf nLen w :
  same_link w (final_world (modbus_RecvBlock pDevice pBuf nLen w)).
Proof.
  unfold modbus_RecvBlock.
  destruct pDevice as [d|], pBuf as [b|]; simpl; try apply same_link_refl.
  destruct (g_ModbusSocket w <? 0); simpl; [apply same_link_refl|].
  destruct (recv_loop (addr d) b nLen (inbox w)) as [[n b'] rest].
  repeat split.
Qed.

Lemma RecvPacket_same_link (P : platform) pDevice pOutData nLen tID w :
  same_link w (final_world (modbus_RecvPacket P pDevice pOutData nLen tID w)).
Proof.
  unfold modbus_RecvPacket, bind.
  pose proof (RecvBlock_same_link pDevice (Some pOutData) nLen w) as H.
  destruct (modbus_RecvBlock pDevice (Some pOutData) nLen w)
    as [[n buf] w1|w1]; simpl in *; [|exact H].
  destruct buf as [|b0 [|b1 buf]]; simpl; try exact H.
  destruct (load16 (host P) b0 b1 =? uint16_t tID); simpl; [|exact H].
  destruct (memcpy_within _ 0 _ _); simpl; exact H.
Qed.

(** The frame of a request: every operation hands modbus_SendPacket the six
    bytes of its request structure.  With the socket open the call sends
    the header and those six bytes to the device and returns the id. *)
Lemma SendPacket_request (P : platform) (d : modbus_device_t)
  (code pad a v : Z) (w : world) :
  0 <= g_ModbusSocket w ->
  13 <= addr_of_outLen P ->
  let tid := uint16_t (Z.rem (rand_seq P (rand_calls w)) 65535) in
  modbus_SendPacket P (Some d) (request_bytes (host P) code pad a v)
                    sizeof_request w
  = Returns tid
      (mk_world (g_ModbusSocket w) (locked w)
         (wire w ++ [(addr d,
                      header_bytes (host P) (mk_header tid 0 7 255)
                      ++ request_bytes (host P) code pad a v)])
         (inbox w) (S (rand_calls w))).
Proof.
  intros Hsock Hptr tid. subst tid.
  destruct w as [sock lk wr ib rc]; destruct P as [h rs fr ao am].
  cbn [g_ModbusSocket addr_of_outLen host rand_seq rand_calls locked wire
       inbox] in *.
  unfold modbus_SendPacket, bind, modbus_ConstructPacket.
  cbn [fst snd addr_of_outLen].
  replace (ao <? sizeof_mbap_header + sizeof_request)
    with false by (symmetry; apply Z.ltb_ge; unfold sizeof_mbap_header,
                   sizeof_request; lia).
  unfold bind, rand. cbn [rand_seq rand_calls].
  generalize (uint16_t (Z.rem (rs rc) 65535)). intros tid.
  destruct h; destruct sock as [|s|s]; try (exfalso; lia); reflexivity.
Qed.

Lemma uint16_nonneg (x : Z) : 0 <= uint16_t x < 65536.
Proof. unfold uint16_t. apply Z.mod_pos_bound. lia. Qed.

Lemma tid_not_negative (x : Z) : (uint16_t x <? 0) = false.
Proof. apply Z.ltb_ge. apply uint16_nonneg. Qed.

Lemma socket_open (w : world) :
  0 <= g_ModbusSocket w -> (g_ModbusSocket w <? 0) = false.
Proof. intros H. now apply Z.ltb_ge. Qed.

Lemma upd_same (f : epicsMutexId -> nat) (k : epicsMutexId) (v : nat) :
  upd f k v k = v.
Proof. unfold upd. now rewrite Nat.eqb_refl. Qed.

Lemma connect_and_send (P : platform) (d : modbus_device_t)
  (code pad a v : Z) (w : world) {A : Type} (k : Z -> M A) :
  0 <= g_ModbusSocket w ->
  13 <= addr_of_outLen P ->
  (modbus_ConnectDevice (Some d) ;;;
   tID <- modbus_SendPacket P (Some d) (request_bytes (host P) code pad a v)
                            sizeof_request ;;
   k tID) w
  = k (uint16_t (Z.rem (rand_seq P (rand_calls w)) 65535))
      (requested P d (request_bytes (host P) code pad a v) w).
Proof.
  intros Hsock Hptr.
  unfold bind at 1. unfold modbus_ConnectDevice.
  rewrite socket_open by assumption.
  unfold epicsMutexLock. unfold bind.
  rewrite SendPacket_request by assumption.
  reflexivity.
Qed.

(** ** C10: the validation of modbus_ReadCoils *)

(** C10. modbus_ReadCoils rejects a coil count exactly when it exceeds
    0x7D0, and then nothing has happened; every count up to 0x7D0, 0
    included, passes and the request frame goes to the device. *)
Theorem ReadCoils_validation (P : platform) (d : modbus_device_t)
  (a ncoils : Z) (out : list byte) (n : byte) (w : world)
  (Hsock : 0 <= g_ModbusSocket w) (Hptr : 13 <= addr_of_outLen P) :
  let o := modbus_ReadCoils P (Some d) a ncoils (Some out) (Some n) w in
  (0x7D0 < ncoils -> o = Returns (-1, Some out) w)
  /\ (ncoils <= 0x7D0 ->
      wire (final_world o)
      = wire (requested P d
                (request_bytes (host P) MB_RD_COILS_CODE (fresh P 1)
                   (uint16_t (LITTLE_TO_BIG_ENDIAN a))
                   (uint16_t (LITTLE_TO_BIG_ENDIAN ncoils))) w)).
Proof.
  intros o. subst o. unfold modbus_ReadCoils. split; intros Hn.
  - replace (0x7D0 <? ncoils) with true by (symmetry; apply Z.ltb_lt; lia).
    reflexivity.
  - replace (0x7D0 <? ncoils) with false by (symmetry; apply Z.ltb_ge; lia).
    rewrite connect_and_send by assumption.
    set (w1 := requested P d _ w).
    unfold bind.
    match goal with
    | |- context [modbus_RecvPacket P ?dv ?b ?l ?t w1] =>
        pose proof (RecvPacket_same_link P dv b l t w1) as (_ & _ & Hw);
        destruct (modbus_RecvPacket P dv b l t w1) as [[r buf] w2|w2]
    end; simpl in Hw; [|exact Hw].
    unfold ReadCoils_reply, bind, modbus_DisconnectDevice, epicsMutexUnlock,
      ret, undefined.
    branch; simpl; exact Hw.
Qed.

Lemma ReadCoils_validation_witness :
  0 <= g_ModbusSocket (idle []) /\ 13 <= addr_of_outLen x86
  /\ wire (final_world (modbus_ReadCoils x86 (Some plc_device) 0 0
                          (Some [0]) (Some 0) (idle [])))
     = [(plc, [0x34; 0x12; 0; 0; 7; 0; 255; 1; 0xAA; 0; 0; 0; 0])]
  /\ wire (final_world (modbus_ReadCoils x86 (Some plc_device) 0 2000
                          (Some [0]) (Some 0) (idle [])))
     = [(plc, [0x34; 0x12; 0; 0; 7; 0; 255; 1; 0xAA; 0; 0; 0x07; 0xD0])].
Proof.
  assert (Hs : 0 <= g_ModbusSocket (idle [])) by (simpl; lia).
  assert (Hp : 13 <= addr_of_outLen x86) by (simpl; lia).
  split; [exact Hs|]. split; [exact Hp|]. split.
  - destruct (ReadCoils_validation x86 plc_device 0 0 [0] 0 (idle []) Hs Hp)
      as [_ H].
    etransitivity; [apply H; lia|reflexivity].
  - destruct (ReadCoils_validation x86 plc_device 0 2000 [0] 0 (idle []) Hs Hp)
      as [_ H].
    etransitivity; [apply H; lia|reflexivity].
Defined.

(** ** C1: no range check in the register reads *)

(** C1 (fails on the code). modbus_ReadHoldingRegisters,
    modbus_ReadInputRegisters and modbus_ReadDiscreteInputs never look at
    the count: whatever [nregs] is, 126 and 0 included, the request frame
    carrying that count goes to the device. *)
Theorem register_reads_send_any_count (P : platform) (d : modbus_device_t)
  (a nregs : Z) (out : option (list byte)) (w : world)
  (Hsock : 0 <= g_ModbusSocket w) (Hptr : 13 <= addr_of_outLen P) :
  let frame code :=
    header_bytes (host P)
      (mk_header (uint16_t (Z.rem (rand_seq P (rand_calls w)) 65535)) 0 7 255)
    ++ request_bytes (host P) code (fresh P 1)
         (uint16_t (LITTLE_TO_BIG_ENDIAN a))
         (uint16_t (LITTLE_TO_BIG_ENDIAN nregs)) in
  (forall n,
      wire (final_world (modbus_ReadHoldingRegisters P (Some d) a nregs out n w))
      = wire w ++ [(addr d, frame MB_RD_HOL_REG_CODE)])
  /\ (forall n,
         wire (final_world (modbus_ReadInputRegisters P (Some d) a nregs out n w))
         = wire w ++ [(addr d, frame MB_RD_INP_REG_CODE)])
  /\ (forall buf n,
         wire (final_world
                 (modbus_ReadDiscreteInputs P (Some d) a nregs (Some buf)
                    (Some n) w))
         = wire w ++ [(addr d, frame MB_RD_DISC_INPUTS_CODE)]).
Proof.
  intros frame. subst frame. cbv beta. split; [|split]; intros n.
  - unfold modbus_ReadHoldingRegisters.
    rewrite connect_and_send by assumption.
    rewrite tid_not_negative.
    set (w1 := requested P d _ w).
    unfold bind.
    match goal with
    | |- context [modbus_RecvPacket P ?dv ?b ?l ?t w1] =>
        pose proof (RecvPacket_same_link P dv b l t w1) as (_ & _ & Hw);
        destruct (modbus_RecvPacket P dv b l t w1) as [[r buf] w2|w2]
    end; simpl in Hw; [|exact Hw].
    unfold modbus_DisconnectDevice, epicsMutexUnlock, ret, undefined.
    branch; simpl; exact Hw.
  - unfold modbus_ReadInputRegisters.
    rewrite connect_and_send by assumption.
    rewrite tid_not_negative.
    set (w1 := requested P d _ w).
    unfold bind.
    match goal with
    | |- context [modbus_RecvPacket P ?dv ?b ?l ?t w1] =>
        pose proof (RecvPacket_same_link P dv b l t w1) as (_ & _ & Hw);
        destruct (modbus_RecvPacket P dv b l t w1) as [[r buf] w2|w2]
    end; simpl in Hw; [|exact Hw].
    unfold ret, undefined.
    branch; simpl; exact Hw.
  - intros n0. unfold modbus_ReadDiscreteInputs.
    rewrite connect_and_send by assumption.
    rewrite tid_not_negative.
    set (w1 := requested P d _ w).
    unfold bind.
    match goal with
    | |- context [modbus_RecvPacket P ?dv ?b ?l ?t w1] =>
        pose proof (RecvPacket_same_link P dv b l t w1) as (_ & _ & Hw);
        destruct (modbus_RecvPacket P dv b l t w1) as [[r buf] w2|w2]
    end; simpl in Hw; [|exact Hw].
    unfold modbus_DisconnectDevice, epicsMutexUnlock, ret, undefined.
    branch; simpl; exact Hw.
Qed.

Lemma register_reads_send_any_count_witness :
  0 <= g_ModbusSocket (idle []) /\ 13 <= addr_of_outLen x86
  /\ wire (final_world
             (modbus_ReadHoldingRegisters x86 (Some plc_device) 0 0x7E
                (Some (repeat 0 252%nat)) (Some 0) (idle [])))
     = [(plc, [0x34; 0x12; 0; 0; 7; 0; 255; 3; 0xAA; 0; 0; 0; 0x7E])].
Proof.
  assert (Hs : 0 <= g_ModbusSocket (idle [])) by (simpl; lia).
  assert (Hp : 13 <= addr_of_outLen x86) by (simpl; lia).
  split; [exact Hs|]. split; [exact Hp|].
  destruct (register_reads_send_any_count x86 plc_device 0 0x7E
              (Some (repeat 0 252%nat)) (idle []) Hs Hp) as [H _].
  etransitivity; [apply H|reflexivity].
Defined.

(** ** C2: the device mutex on the exit paths *)

(** C2 (fails on the code). modbus_ReadInputRegisters takes the mutex and
    never gives it back, on any path, the successful one included;
    modbus_WriteSingleRegister keeps it whenever it returns -1; and
    modbus_ReadCoils keeps it whenever a request that passed the validation
    ends with an exception code or with -1. *)
Theorem mutex_left_locked (P : platform) (d : modbus_device_t) (w : world)
  (Hsock : 0 <= g_ModbusSocket w) (Hptr : 13 <= addr_of_outLen P) :
  (forall a nregs out n,
      locked (final_world
                (modbus_ReadInputRegisters P (Some d) a nregs out n w))
             (mutex d)
      = S (locked w (mutex d)))
  /\ (forall a v w',
         modbus_WriteSingleRegister P (Some d) a v w = Returns (-1) w' ->
         locked w' (mutex d) = S (locked w (mutex d)))
  /\ (forall a ncoils out n r o w',
         ncoils <= 0x7D0 ->
         modbus_ReadCoils P (Some d) a ncoils (Some out) (Some n) w
         = Returns (r, o) w' ->
         r <> 0 ->
         locked w' (mutex d) = S (locked w (mutex d))).
Proof.
  split; [|split].
  - intros a nregs out n.
    unfold modbus_ReadInputRegisters.
    rewrite connect_and_send by assumption.
    rewrite tid_not_negative.
    set (w1 := requested P d _ w).
    assert (Hl : locked w1 (mutex d) = S (locked w (mutex d)))
      by (unfold w1, requested; cbn [locked]; apply upd_same).
    unfold bind.
    match goal with
    | |- context [modbus_RecvPacket P ?dv ?b ?l ?t w1] =>
        pose proof (RecvPacket_same_link P dv b l t w1) as (_ & Hw & _);
        destruct (modbus_RecvPacket P dv b l t w1) as [[r buf] w2|w2]
    end; simpl in Hw; [|simpl; now rewrite Hw].
    unfold ret, undefined.
    branch; simpl; now rewrite Hw.
  - intros a v w'.
    unfold modbus_WriteSingleRegister.
    rewrite connect_and_send by assumption.
    set (w1 := requested P d _ w).
    assert (Hl : locked w1 (mutex d) = S (locked w (mutex d)))
      by (unfold w1, requested; cbn [locked]; apply upd_same).
    unfold bind.
    match goal with
    | |- context [modbus_RecvPacket P ?dv ?b ?l ?t w1] =>
        pose proof (RecvPacket_same_link P dv b l t w1) as (_ & Hw & _);
        destruct (modbus_RecvPacket P dv b l t w1) as [[r buf] w2|w2]
    end; simpl in Hw; [|discriminate].
    match goal with
    | |- context [if ?c then _ else _] => destruct c
    end.
    + unfold ret. intros H. injection H as <-. now rewrite Hw.
    + unfold modbus_DisconnectDevice, epicsMutexUnlock, ret.
      intros H. discriminate H.
  - intros a ncoils out n r o w' Hcount.
    unfold modbus_ReadCoils.
    replace (0x7D0 <? ncoils) with false by (symmetry; apply Z.ltb_ge; lia).
    rewrite connect_and_send by assumption.
    set (w1 := requested P d _ w).
    assert (Hl : locked w1 (mutex d) = S (locked w (mutex d)))
      by (unfold w1, requested; cbn [locked]; apply upd_same).
    unfold bind.
    match goal with
    | |- context [modbus_RecvPacket P ?dv ?b ?l ?t w1] =>
        pose proof (RecvPacket_same_link P dv b l t w1) as (_ & Hw & _);
        destruct (modbus_RecvPacket P dv b l t w1) as [[k buf] w2|w2]
    end; simpl in Hw; [|discriminate].
    unfold ReadCoils_reply, bind, modbus_DisconnectDevice, epicsMutexUnlock,
      ret, undefined.
    branch; intros H; try discriminate H; injection H as <- _ <-;
      intros Hr; try contradiction; now rewrite Hw.
Qed.

Lemma mutex_left_locked_witness :
  0 <= g_ModbusSocket (idle []) /\ 13 <= addr_of_outLen x86
  /\ locked (final_world
               (modbus_ReadInputRegisters x86 (Some plc_device) 0 1
                  (Some (repeat 0 9%nat)) (Some 0)
                  (idle [RecvFrom plc
                           [0x34; 0x12; 0; 0; 0; 5; 255; 4; 2; 0x12; 0x34]])))
            (mutex plc_device)
     = 1%nat
  /\ (exists w',
         modbus_WriteSingleRegister x86 (Some plc_device) 10 1234 (idle [])
         = Returns (-1) w'
         /\ locked w' (mutex plc_device) = 1%nat).
Proof.
  assert (Hs : 0 <= g_ModbusSocket (idle [])) by (simpl; lia).
  assert (Hp : 13 <= addr_of_outLen x86) by (simpl; lia).
  split; [exact Hs|]. split; [exact Hp|]. split.
  - destruct (mutex_left_locked x86 plc_device
                (idle [RecvFrom plc [0x34; 0x12; 0; 0; 0; 5; 255; 4; 2;
                                     0x12; 0x34]]) Hs Hp) as [H _].
    exact (H 0 1 (Some (repeat 0 9%nat)) (Some 0)).
  - destruct (mutex_left_locked x86 plc_device (idle []) Hs Hp) as (_ & H & _).
    eexists. split; [vm_compute; reflexivity|].
    apply (H 10 1234). vm_compute. reflexivity.
Defined.

(** ** The receive loop *)

Lemma received_length (buf : list byte) (nLen : Z) (data : list byte) :
  nLen = Z.of_nat (length buf) ->
  length (snd (received buf nLen data)) = length buf.
Proof.
  intros ->. unfold received. cbv zeta. cbn [snd].
  rewrite Nat2Z.id, length_app, length_skipn, length_firstn. lia.
Qed.

(** A message that fits the buffer lands whole. *)
Lemma received_whole (buf : list byte) (nLen : Z) (data : list byte) :
  Z.of_nat (length data) <= nLen ->
  received buf nLen data = (-1, data ++ skipn (length data) buf).
Proof.
  intros H. unfold received. cbv zeta.
  rewrite firstn_all2 by lia. reflexivity.
Qed.

(** The first two bytes of a message are the first two of the buffer
    afterwards. *)
Lemma received_tid (P : platform) (buf : list byte) (nLen : Z)
  (data : list byte) :
  2 <= nLen -> (2 <= length data)%nat ->
  frame_tid P (snd (received buf nLen data)) = frame_tid P data.
Proof.
  intros Hn Hd. unfold received, frame_tid. cbv zeta. cbn [snd].
  assert (Hg : (2 <= length (firstn (Z.to_nat nLen) data))%nat)
    by (rewrite length_firstn; lia).
  rewrite !app_nth1 by lia.
  rewrite !nth_firstn.
  destruct (Nat.ltb_spec 0 (Z.to_nat nLen)); [|lia].
  destruct (Nat.ltb_spec 1 (Z.to_nat nLen)); [|lia].
  reflexivity.
Qed.

(** Whatever arrives, the loop takes one turn: a message is consumed and
    lands in the buffer, and the result is -1. *)
Lemma recv_loop_on_message (a : sockaddr_in) (buf : list byte) (nLen : Z)
  (src : sockaddr_in) (data : list byte) (rest : list recv_event) :
  recv_loop a buf nLen (RecvFrom src data :: rest)
  = (-1, snd (received buf nLen data), rest).
Proof. reflexivity. Qed.

Lemma recv_loop_minus_one (a : sockaddr_in) (buf : list byte) (nLen : Z)
  (events : list recv_event) :
  fst (fst (recv_loop a buf nLen events)) = -1.
Proof. destruct events as [|[|src data] rest]; reflexivity. Qed.

Lemma recv_loop_length (a : sockaddr_in) (events : list recv_event) :
  forall buf nLen n buf' rest,
    nLen = Z.of_nat (length buf) ->
    recv_loop a buf nLen events = (n, buf', rest) ->
    length buf' = length buf.
Proof.
  destruct events as [|[|src data] events]; intros buf nLen n buf' rest Hn.
  - intros H. now injection H as _ <- _.
  - intros H. now injection H as _ <- _.
  - rewrite recv_loop_on_message. intros H. injection H as _ <- _.
    now apply received_length.
Qed.

(** ** Copies *)

Lemma malloc_length (P : platform) (n : Z) :
  length (malloc P n) = Z.to_nat n.
Proof. unfold malloc. now rewrite length_map, length_seq. Qed.

Lemma header_bytes_length (e : endian) (h : modbus_mbap_header_t) :
  length (header_bytes e h) = 7%nat.
Proof. destruct e; reflexivity. Qed.

Lemma memcpy_at_Some (dst : list byte) (off : Z) (src : list byte) (n : Z) :
  0 <= off -> 0 <= n ->
  off + n <= Z.of_nat (length dst) -> n <= Z.of_nat (length src) ->
  memcpy_at dst off src n
  = Some (firstn (Z.to_nat off) dst ++ firstn (Z.to_nat n) src
          ++ skipn (Z.to_nat (off + n)) dst).
Proof.
  intros H1 H2 H3 H4. unfold memcpy_at.
  apply Z.leb_le in H1, H2, H3, H4.
  now rewrite H1, H2, H3, H4.
Qed.

Lemma memcpy_at_inv (dst : list byte) (off : Z) (src : list byte) (n : Z)
  (r : list byte) :
  memcpy_at dst off src n = Some r ->
  0 <= off /\ 0 <= n /\ off + n <= Z.of_nat (length dst)
  /\ n <= Z.of_nat (length src).
Proof.
  unfold memcpy_at.
  destruct (0 <=? off) eqn:H1; [|discriminate].
  destruct (0 <=? n) eqn:H2; [|discriminate].
  destruct (off + n <=? Z.of_nat (length dst)) eqn:H3; [|discriminate].
  destruct (n <=? Z.of_nat (length src)) eqn:H4; [|discriminate].
  intros _. apply Z.leb_le in H1, H2, H3, H4. auto.
Qed.

Lemma memcpy_within_too_long (buf : list byte) (dst src n : Z) :
  Z.of_nat (length buf) < dst + n -> memcpy_within buf dst src n = None.
Proof.
  intros H. unfold memcpy_within.
  replace (dst + n <=? Z.of_nat (length buf)) with false
    by (symmetry; apply Z.leb_gt; exact H).
  now rewrite !andb_false_r.
Qed.

(** The length modbus_RecvPacket hands to memcpy after a receive that
    returned -1 is beyond every buffer of the driver. *)
Lemma wrapped_copy (buf : list byte) :
  Z.of_nat (length buf) < 2 ^ 31 ->
  memcpy_within buf 0 sizeof_mbap_header (size_t (-1 - sizeof_mbap_header))
  = None.
Proof.
  intros H. apply memcpy_within_too_long.
  unfold sizeof_mbap_header, size_t.
  replace (-1 - 7) with ((2 ^ 64 - 8) + (-1) * 2 ^ 64) by ring.
  rewrite Z.mod_add by lia.
  rewrite Z.mod_small by lia. lia.
Qed.

(** ** modbus_RecvBlock and modbus_RecvPacket, whatever arrives *)

(** modbus_RecvBlock never returns a length. *)
Lemma RecvBlock_result (d : modbus_device_t) (buf : list byte) (nLen : Z)
  (w : world) :
  exists b w1,
    modbus_RecvBlock (Some d) (Some buf) nLen w = Returns (-1, b) w1
    /\ same_link w w1
    /\ (nLen = Z.of_nat (length buf) -> length b = length buf).
Proof.
  unfold modbus_RecvBlock.
  destruct (g_ModbusSocket w <? 0).
  { exists buf, w. repeat split. }
  pose proof (recv_loop_minus_one (addr d) buf nLen (inbox w)) as Hm.
  pose proof (recv_loop_length (addr d) (inbox w) buf nLen) as Hl.
  destruct (recv_loop (addr d) buf nLen (inbox w)) as [[n b] rest].
  cbn [fst] in Hm. subst n. rewrite int_minus_one.
  exists b. eexists. split; [reflexivity|].
  split; [repeat split|].
  intros Hn. eapply Hl; [exact Hn|reflexivity].
Qed.

Lemma RecvBlock_on_message (d : modbus_device_t) (buf : list byte)
  (nLen : Z) (src : sockaddr_in) (data : list byte)
  (rest : list recv_event) (w : world) :
  0 <= g_ModbusSocket w ->
  inbox w = RecvFrom src data :: rest ->
  modbus_RecvBlock (Some d) (Some buf) nLen w
  = Returns (-1, snd (received buf nLen data)) (after_receive w rest).
Proof.
  intros Hsock Hin.
  unfold modbus_RecvBlock. rewrite socket_open by assumption.
  rewrite Hin, recv_loop_on_message, int_minus_one. reflexivity.
Qed.

Lemma RecvBlock_on_failure (d : modbus_device_t) (buf : list byte)
  (nLen : Z) (w : world) :
  receive_fails w ->
  exists w',
    modbus_RecvBlock (Some d) (Some buf) nLen w = Returns (-1, buf) w'
    /\ same_link w w'.
Proof.
  intros Hf. unfold modbus_RecvBlock.
  destruct (g_ModbusSocket w <? 0) eqn:Hs.
  - exists w. split; [reflexivity|apply same_link_refl].
  - destruct Hf as [Hf|[Hf|[rest Hf]]].
    + apply Z.ltb_ge in Hs. lia.
    + rewrite Hf. cbn [recv_loop]. eexists. split; [reflexivity|].
      repeat split.
    + rewrite Hf. cbn [recv_loop]. eexists. split; [reflexivity|].
      repeat split.
Qed.

(** What modbus_RecvPacket makes of the -1: the two bytes at the start of
    the buffer decide between -1 and the copy of wrapped length. *)
Lemma RecvPacket_after_block (P : platform) (d : modbus_device_t)
  (buf : list byte) (nLen tID : Z) (w : world) (b : list byte)
  (w1 : world) :
  modbus_RecvBlock (Some d) (Some buf) nLen w = Returns (-1, b) w1 ->
  2 <= Z.of_nat (length b) < 2 ^ 31 ->
  modbus_RecvPacket P (Some d) buf nLen tID w
  = if frame_tid P b =? uint16_t tID then Undefined w1
    else Returns (-1, b) w1.
Proof.
  intros Hb Hl. unfold modbus_RecvPacket, bind. rewrite Hb.
  unfold frame_tid.
  pose proof (wrapped_copy b ltac:(lia)) as Hc.
  destruct b as [|b0 [|b1 b]]; cbn [length] in Hl; try lia.
  cbn [nth].
  destruct (load16 (host P) b0 b1 =? uint16_t tID); [|reflexivity].
  rewrite Hc. reflexivity.
Qed.

(** modbus_RecvPacket on the next message, when it fits the buffer. *)
Lemma RecvPacket_on_frame (P : platform) (d : modbus_device_t)
  (buf : list byte) (nLen tID : Z) (src : sockaddr_in) (frame : list byte)
  (rest : list recv_event) (w : world) :
  0 <= g_ModbusSocket w ->
  inbox w = RecvFrom src frame :: rest ->
  nLen = Z.of_nat (length buf) -> nLen < 2 ^ 31 ->
  2 <= Z.of_nat (length frame) <= nLen ->
  let landed := frame ++ skipn (length frame) buf in
  (frame_tid P frame <> uint16_t tID ->
   modbus_RecvPacket P (Some d) buf nLen tID w
   = Returns (-1, landed) (after_receive w rest))
  /\ (frame_tid P frame = uint16_t tID ->
      modbus_RecvPacket P (Some d) buf nLen tID w
      = Undefined (after_receive w rest)).
Proof.
  intros Hsock Hin Hn Hsmall Hlen landed.
  pose proof (RecvBlock_on_message d buf nLen src frame rest w Hsock Hin)
    as Hb.
  pose proof (received_tid P buf nLen frame ltac:(lia) ltac:(lia)) as Ht.
  pose proof (received_length buf nLen frame Hn) as Hl.
  rewrite received_whole in Hb, Ht, Hl by lia. cbn [snd] in Hb, Ht, Hl.
  fold landed in Hb, Ht, Hl.
  rewrite (RecvPacket_after_block P d buf nLen tID w landed _ Hb) by lia.
  rewrite Ht. split; intros H.
  - apply Z.eqb_neq in H. now rewrite H.
  - apply Z.eqb_eq in H. now rewrite H.
Qed.

(** Whenever modbus_RecvPacket returns, it returns -1. *)
Lemma RecvPacket_cases (P : platform) (d : modbus_device_t)
  (buf : list byte) (nLen tID : Z) (w : world) (n : Z) (buf' : list byte)
  (w' : world) :
  nLen = Z.of_nat (length buf) -> nLen < 2 ^ 31 ->
  modbus_RecvPacket P (Some d) buf nLen tID w = Returns (n, buf') w' ->
  n = -1 /\ length buf' = length buf /\ same_link w w'.
Proof.
  intros Hn Hsmall.
  destruct (RecvBlock_result d buf nLen w) as (b & w1 & Hb & Hl & Hlen).
  specialize (Hlen Hn).
  unfold modbus_RecvPacket, bind. rewrite Hb.
  pose proof (wrapped_copy b ltac:(lia)) as Hc.
  destruct b as [|b0 [|b1 b]]; try discriminate.
  destruct (load16 (host P) b0 b1 =? uint16_t tID).
  - rewrite Hc. discriminate.
  - intros H. injection H as <- <- <-. auto.
Qed.

(** After a receive that met nothing, modbus_RecvPacket hands back -1 and
    the buffer as it was, or is undefined. *)
Lemma RecvPacket_failed (P : platform) (d : modbus_device_t)
  (buf : list byte) (nLen tID : Z) (w : world) :
  receive_fails w ->
  2 <= Z.of_nat (length buf) < 2 ^ 31 ->
  (exists w', modbus_RecvPacket P (Some d) buf nLen tID w
              = Returns (-1, buf) w'
              /\ same_link w w')
  \/ (exists w', modbus_RecvPacket P (Some d) buf nLen tID w = Undefined w').
Proof.
  intros Hfail Hbuf.
  destruct (RecvBlock_on_failure d buf nLen w Hfail) as (w' & Hb & Hl).
  rewrite (RecvPacket_after_block P d buf nLen tID w buf w' Hb Hbuf).
  destruct (frame_tid P buf =? uint16_t tID).
  - right. exists w'. reflexivity.
  - left. exists w'. split; [reflexivity|exact Hl].
Qed.

(** ** C3: which frames modbus_RecvPacket hands out *)

(** C3 (amended). modbus_RecvPacket hands out no frame whose transaction id
    differs from the pending one, and it does not wait on for the right
    one: a frame of the device with another transaction id ends the wait,
    -1 is returned, the frame lies in the buffer and the messages behind it
    stay unread. *)
Theorem RecvPacket_matching (P : platform) (d : modbus_device_t)
  (buf : list byte) (nLen tID : Z) (frame : list byte)
  (rest : list recv_event) (w : world)
  (Hsock : 0 <= g_ModbusSocket w)
  (Hin : inbox w = RecvFrom (addr d) frame :: rest)
  (Hn : nLen = Z.of_nat (length buf)) (Hsmall : nLen < 2 ^ 31)
  (Hlen : 2 <= Z.of_nat (length frame) <= nLen)
  (Hid : frame_tid P frame <> uint16_t tID) :
  modbus_RecvPacket P (Some d) buf nLen tID w
  = Returns (-1, frame ++ skipn (length frame) buf) (after_receive w rest).
Proof.
  destruct (RecvPacket_on_frame P d buf nLen tID (addr d) frame rest w Hsock
              Hin Hn Hsmall Hlen) as [H _].
  apply H. exact Hid.
Qed.

(** C3, as stated, fails: the device answers with a frame of another
    transaction id and then with the awaited one; modbus_RecvPacket returns
    -1 at the first and the awaited frame is left unread. *)
Lemma RecvPacket_wrong_id_is_an_error :
  modbus_RecvPacket x86 (Some plc_device) (repeat 0 20%nat) 20 0x1234
    (idle [RecvFrom plc reply_foreign; RecvFrom plc reply_pending])
  = Returns (-1, reply_foreign ++ repeat 0 11%nat)
            (idle [RecvFrom plc reply_pending]).
Proof. reflexivity. Qed.

Lemma RecvPacket_matching_witness :
  0 <= g_ModbusSocket
         (idle [RecvFrom plc reply_foreign; RecvFrom plc reply_pending])
  /\ 20 = Z.of_nat (length (repeat 0 20%nat)) /\ 20 < 2 ^ 31
  /\ 2 <= Z.of_nat (length reply_foreign) <= 20
  /\ frame_tid x86 reply_foreign <> uint16_t 0x1234
  /\ modbus_RecvPacket x86 (Some plc_device) (repeat 0 20%nat) 20 0x1234
       (idle [RecvFrom plc reply_foreign; RecvFrom plc reply_pending])
     = Returns (-1, reply_foreign ++ skipn (length reply_foreign)
                                        (repeat 0 20%nat))
         (after_receive
            (idle [RecvFrom plc reply_foreign; RecvFrom plc reply_pending])
            [RecvFrom plc reply_pending]).
Proof.
  assert (Hs : 0 <= g_ModbusSocket
                      (idle [RecvFrom plc reply_foreign;
                             RecvFrom plc reply_pending]))
    by (simpl; lia).
  assert (Hn : 20 = Z.of_nat (length (repeat 0 20%nat))) by reflexivity.
  assert (Hb : 20 < 2 ^ 31) by reflexivity.
  assert (Hl : 2 <= Z.of_nat (length reply_foreign) <= 20) by (simpl; lia).
  assert (Ht : frame_tid x86 reply_foreign <> uint16_t 0x1234)
    by (vm_compute; discriminate).
  split; [exact Hs|]. split; [exact Hn|]. split; [exact Hb|].
  split; [exact Hl|]. split; [exact Ht|].
  exact (RecvPacket_matching x86 plc_device (repeat 0 20%nat) 20 0x1234
           reply_foreign [RecvFrom plc reply_pending] _ Hs eq_refl Hn Hb
           Hl Ht).
Defined.

(** ** C8: no check of the declared length *)







(** ** C6: the value returned on an exception reply *)

(** C6 (fails on the code). The branch of modbus_ReadCoils that is to
    report an exception returns the first byte of the reply plus one: with
    a reply buffer that starts with the exception function code 0x81 it
    returns 0x82, whatever exception code stands in the second byte.  And
    the operation never gets there: an exception reply of the device that
    carries the pending id ends in the copy of wrapped length inside
    modbus_RecvPacket. *)
Theorem exception_code_not_returned (P : platform) (d : modbus_device_t)
  (a ncoils : Z) (out : list byte) (n c : byte) (rest : list recv_event)
  (w : world)
  (Hsock : 0 <= g_ModbusSocket w) (Hptr : 13 <= addr_of_outLen P)
  (Hcount : ncoils <= 0x7D0)
  (Hroom : 9 <= uint16_t (LITTLE_TO_BIG_ENDIAN ncoils) + 2)
  (Hreply : inbox w
            = RecvFrom (addr d)
                (store16 (host P)
                   (uint16_t (Z.rem (rand_seq P (rand_calls w)) 65535))
                 ++ [0; 0; 0; 3; 255; MB_RD_COILS_CODE + MB_ERRCODE_OFFSET; c])
              :: rest) :
  (forall (len r : Z) (pBuf : list byte) (w1 : world),
      -1 < r ->
      nth 0 pBuf 0 = MB_RD_COILS_CODE + MB_ERRCODE_OFFSET ->
      nth 1 pBuf 0 = c ->
      ReadCoils_reply (Some d) out len r pBuf w1
      = Returns (0x82, Some out) w1)
  /\ exists w',
      modbus_ReadCoils P (Some d) a ncoils (Some out) (Some n) w
      = Undefined w'.
Proof.
  split.
  - intros len r pBuf w1 Hr H0 _. unfold ReadCoils_reply.
    replace (-1 <? r) with true by (symmetry; apply Z.ltb_lt; exact Hr).
    unfold byte in *. rewrite H0. reflexivity.
  - unfold modbus_ReadCoils.
    replace (0x7D0 <? ncoils) with false by (symmetry; apply Z.ltb_ge; lia).
    rewrite connect_and_send by assumption.
    set (tid := uint16_t (Z.rem (rand_seq P (rand_calls w)) 65535)) in *.
    set (k := uint16_t (LITTLE_TO_BIG_ENDIAN ncoils)) in *.
    set (w1 := requested P d _ w).
    set (frame := store16 (host P) tid
                  ++ [0; 0; 0; 3; 255; MB_RD_COILS_CODE + MB_ERRCODE_OFFSET;
                      c]) in *.
    assert (Hk : 0 <= k < 65536) by apply uint16_nonneg.
    assert (Ht : 0 <= tid < 65536) by apply uint16_nonneg.
    assert (Hf : length frame = 9%nat)
      by (subst frame; destruct (host P); reflexivity).
    destruct (RecvPacket_on_frame P d (malloc P (k + 2)) (k + 2) tid (addr d)
                frame rest w1) as [_ H].
    + exact Hsock.
    + exact Hreply.
    + rewrite malloc_length. lia.
    + lia.
    + rewrite Hf. lia.
    + unfold bind. rewrite H; [eexists; reflexivity|].
      rewrite (uint16_small tid) by lia.
      subst frame. unfold frame_tid.
      destruct (host P); cbn [store16 app nth load16];
        pose proof (Z.div_mod tid 256 ltac:(lia)); lia.
Qed.

Lemma exception_code_not_returned_witness :
  0 <= g_ModbusSocket
         (idle [RecvFrom plc (exception_reply MB_RD_COILS_CODE
                                MODBUS_ERR_ILLEGAL_ADDR)])
  /\ 13 <= addr_of_outLen x86
  /\ 8 <= 0x7D0
  /\ 9 <= uint16_t (LITTLE_TO_BIG_ENDIAN 8) + 2
  /\ ReadCoils_reply (Some plc_device) [0] 2050 9
       [0x81; MODBUS_ERR_ILLEGAL_ADDR] (idle [])
     = Returns (0x82, Some [0]) (idle [])
  /\ exists w',
      modbus_ReadCoils x86 (Some plc_device) 0 8 (Some [0]) (Some 0)
        (idle [RecvFrom plc (exception_reply MB_RD_COILS_CODE
                               MODBUS_ERR_ILLEGAL_ADDR)])
      = Undefined w'.
Proof.
  assert (Hs : 0 <= g_ModbusSocket
                      (idle [RecvFrom plc (exception_reply MB_RD_COILS_CODE
                                             MODBUS_ERR_ILLEGAL_ADDR)]))
    by (simpl; lia).
  assert (Hp : 13 <= addr_of_outLen x86) by (simpl; lia).
  assert (Hc : 8 <= 0x7D0) by lia.
  assert (Hr : 9 <= uint16_t (LITTLE_TO_BIG_ENDIAN 8) + 2)
    by (vm_compute; discriminate).
  split; [exact Hs|]. split; [exact Hp|]. split; [exact Hc|].
  split; [exact Hr|].
  destruct (exception_code_not_returned x86 plc_device 0 8 [0] 0
              MODBUS_ERR_ILLEGAL_ADDR [] _ Hs Hp Hc Hr eq_refl) as [Ha Hb].
  split; [|exact Hb].
  apply Ha; [lia|reflexivity|reflexivity].
Defined.

(** ** The two swapping loops *)

(** The macro applied to a byte object clears it. *)
Lemma swap_of_a_byte (b : byte) :
  0 <= b < 256 -> uint8_t (BIG_TO_LITTLE_ENDIAN b) = 0.
Proof.
  intros Hb. unfold uint8_t, BIG_TO_LITTLE_ENDIAN.
  rewrite Z.shiftr_div_pow2 by lia.
  rewrite Z.div_small by lia.
  rewrite Z.land_0_l, Z.lor_0_l.
  change 0xFF00 with (Z.shiftl 255 8).
  rewrite <- Z.shiftl_land, Z.shiftl_mul_pow2 by lia.
  apply Z.mod_mul. lia.
Qed.

Lemma nth_poke_before (buf : list byte) (off : nat) (bs : list byte)
  (k : nat) :
  (k < off <= length buf)%nat -> nth k (poke buf off bs) 0 = nth k buf 0.
Proof.
  intros Hk. unfold poke.
  rewrite app_nth1 by (rewrite length_firstn; lia).
  rewrite nth_firstn.
  destruct (Nat.ltb_spec k off); [reflexivity|lia].
Qed.

Lemma nth_poke_at (buf : list byte) (off : nat) (b : byte) (bs : list byte) :
  (off <= length buf)%nat -> nth off (poke buf off (b :: bs)) 0 = b.
Proof.
  intros Hk. unfold poke.
  rewrite app_nth2 by (rewrite length_firstn; lia).
  rewrite length_firstn.
  replace (off - Nat.min off (length buf))%nat with 0%nat by lia.
  reflexivity.
Qed.

Lemma poke_length (buf : list byte) (off : nat) (bs : list byte) :
  (off + length bs <= length buf)%nat ->
  length (poke buf off bs) = length buf.
Proof.
  intros H. unfold poke.
  rewrite !length_app, length_firstn, length_skipn. lia.
Qed.

(** The fuel of the two loops is enough: from the size of the buffer on,
    more fuel does not change what the loop yields. *)
Lemma swap_words_fuel (P : platform) (fuel extra : nat) :
  forall (i len : Z) (buf : list byte),
    0 <= i ->
    (length buf <= fuel + Z.to_nat (2 * i))%nat ->
    swap_words P (fuel + extra) i len buf = swap_words P fuel i len buf.
Proof.
  induction fuel as [|fuel IH]; intros i len buf Hi Hl;
    cbn [swap_words Nat.add].
  - destruct extra as [|extra]; cbn [swap_words]; [reflexivity|].
    destruct (i <? len); [|reflexivity].
    replace (nth_error buf (Z.to_nat (2 * i))) with (@None byte)
      by (symmetry; apply nth_error_None; lia).
    reflexivity.
  - destruct (i <? len); [|reflexivity].
    destruct (nth_error buf (Z.to_nat (2 * i))) as [b0|]; [|reflexivity].
    destruct (nth_error buf (Z.to_nat (2 * i + 1))) as [b1|] eqn:E1;
      [|reflexivity].
    assert (H1 : (Z.to_nat (2 * i + 1) < length buf)%nat)
      by (apply nth_error_Some; congruence).
    apply IH; [lia|].
    rewrite poke_length; [lia|].
    destruct (host P); cbn [store16 length]; lia.
Qed.

Lemma swap_bytes_fuel (fuel extra : nat) :
  forall (i len : Z) (buf : list byte),
    0 <= i ->
    (length buf <= fuel + Z.to_nat i)%nat ->
    swap_bytes (fuel + extra) i len buf = swap_bytes fuel i len buf.
Proof.
  induction fuel as [|fuel IH]; intros i len buf Hi Hl;
    cbn [swap_bytes Nat.add].
  - destruct extra as [|extra]; cbn [swap_bytes]; [reflexivity|].
    destruct (i <? len); [|reflexivity].
    replace (nth_error buf (Z.to_nat i)) with (@None byte)
      by (symmetry; apply nth_error_None; lia).
    reflexivity.
  - destruct (i <? len); [|reflexivity].
    destruct (nth_error buf (Z.to_nat i)) as [b|] eqn:E; [|reflexivity].
    assert (H1 : (Z.to_nat i < length buf)%nat)
      by (apply nth_error_Some; congruence).
    apply IH; [lia|].
    rewrite poke_length; [lia|cbn [length]; lia].
Qed.

(** The loop of modbus_ReadHoldingRegisters starts at the 16-bit object of
    index 2, which lies at byte 4: bytes 2 and 3, the first register of the
    reply, are never swapped. *)
Lemma swap_words_leaves_first_register (P : platform) (fuel : nat) :
  forall i len buf buf',
    2 <= i ->
    swap_words P fuel i len buf = Some buf' ->
    nth 2 buf' 0 = nth 2 buf 0 /\ nth 3 buf' 0 = nth 3 buf 0.
Proof.
  induction fuel as [|fuel IH]; intros i len buf buf' Hi; cbn [swap_words].
  - destruct (i <? len); [discriminate|].
    intros H. injection H as <-. auto.
  - destruct (i <? len); [|intros H; injection H as <-; auto].
    destruct (nth_error buf (Z.to_nat (2 * i))) as [b0|] eqn:E0;
      [|discriminate].
    destruct (nth_error buf (Z.to_nat (2 * i + 1))) as [b1|] eqn:E1;
      [|discriminate].
    intros H. apply IH in H; [|lia].
    assert (Hl : (Z.to_nat (2 * i + 1) < length buf)%nat)
      by (apply nth_error_Some; congruence).
    destruct H as [H2 H3].
    rewrite H2, H3.
    split; apply nth_poke_before; lia.
Qed.

(** The loop of modbus_ReadInputRegisters clears the byte it visits, and no
    later turn touches that byte again. *)
Lemma swap_bytes_clears (fuel : nat) :
  forall (i len : Z) (buf buf' : list byte),
    0 <= i < len ->
    Forall (fun b : byte => 0 <= b < 256) buf ->
    swap_bytes fuel i len buf = Some buf' ->
    nth (Z.to_nat i) buf' 0 = 0.
Proof.
  assert (Hkeep : forall fuel i len buf buf' k,
             0 <= i -> (k < Z.to_nat i)%nat ->
             swap_bytes fuel i len buf = Some buf' ->
             nth k buf' 0 = nth k buf 0).
  { clear fuel. induction fuel as [|fuel IH]; intros i len buf buf' k Hi Hk;
      cbn [swap_bytes].
    - destruct (i <? len); [discriminate|].
      intros H. now injection H as <-.
    - destruct (i <? len); [|intros H; now injection H as <-].
      destruct (nth_error buf (Z.to_nat i)) as [b|] eqn:E; [|discriminate].
      assert (Hl : (Z.to_nat i < length buf)%nat)
        by (apply nth_error_Some; congruence).
      intros H. apply IH with (k := k) in H; [|lia|lia].
      rewrite H. apply nth_poke_before. lia. }
  destruct fuel as [|fuel]; intros i len buf buf' Hi Hb; cbn [swap_bytes];
    (destruct (i <? len) eqn:Hlt; [|apply Z.ltb_ge in Hlt; lia]);
    [discriminate|].
  match goal with
  | |- context [match ?x with _ => _ end] => destruct x as [b|] eqn:E
  end; [|discriminate].
  assert (Hl : (Z.to_nat i < length buf)%nat)
    by (apply nth_error_Some; congruence).
  intros H. apply Hkeep with (k := Z.to_nat i) in H; [|lia|lia].
  rewrite H, nth_poke_at by lia.
  apply swap_of_a_byte.
  apply nth_error_In in E.
  rewrite Forall_forall in Hb. now apply Hb.
Qed.

(** ** C4: the verdict of modbus_WriteSingleRegister *)

(** C4 (fails on the code). The reply buffer of modbus_WriteSingleRegister
    has room for 6 bytes, fewer than a header, and the result of
    modbus_RecvPacket is not looked at: whenever the operation returns, with
    0 or with -1, modbus_RecvPacket had returned -1, so the verdict never
    rests on the echo of a reply that carried the pending id. *)
Theorem write_verdict_without_echo (P : platform) (d : modbus_device_t)
  (a v : Z) (w : world) (r : Z) (w' : world)
  (Hsock : 0 <= g_ModbusSocket w) (Hptr : 13 <= addr_of_outLen P)
  (Hret : modbus_WriteSingleRegister P (Some d) a v w = Returns r w') :
  exists res w2,
    modbus_RecvPacket P (Some d) (zeroed sizeof_request) sizeof_request
      (uint16_t (Z.rem (rand_seq P (rand_calls w)) 65535))
      (requested P d
         (request_bytes (host P) MB_WR_SIN_REG_CODE 0
            (uint16_t (LITTLE_TO_BIG_ENDIAN a))
            (uint16_t (LITTLE_TO_BIG_ENDIAN v))) w)
    = Returns (-1, res) w2.
Proof.
  revert Hret. unfold modbus_WriteSingleRegister.
  rewrite connect_and_send by assumption.
  unfold bind.
  match goal with
  | |- context [modbus_RecvPacket P ?dv ?b ?l ?t ?w1] =>
      destruct (modbus_RecvPacket P dv b l t w1) as [[n res] w2|w2] eqn:E
  end; [|discriminate].
  intros _.
  apply RecvPacket_cases in E; [|reflexivity|reflexivity].
  destruct E as [-> _].
  exists res, w2. reflexivity.
Qed.

Lemma write_verdict_without_echo_witness :
  0 <= g_ModbusSocket (idle []) /\ 13 <= addr_of_outLen x86
  /\ exists w',
      modbus_WriteSingleRegister x86 (Some plc_device) 0 0 (idle [])
      = Returns 0 w'
      /\ exists res w2,
          modbus_RecvPacket x86 (Some plc_device) (zeroed sizeof_request)
            sizeof_request 0x1234
            (requested x86 plc_device
               (request_bytes LittleEndian MB_WR_SIN_REG_CODE 0 0 0) (idle []))
          = Returns (-1, res) w2.
Proof.
  assert (Hs : 0 <= g_ModbusSocket (idle [])) by (simpl; lia).
  assert (Hp : 13 <= addr_of_outLen x86) by (simpl; lia).
  split; [exact Hs|]. split; [exact Hp|].
  eexists. split.
  - vm_compute. reflexivity.
  - eapply (write_verdict_without_echo x86 plc_device 0 0 (idle []) 0 _ Hs Hp).
    vm_compute. reflexivity.
Defined.

(** Three runs on the little-endian host: writing 0 to register 0 returns
    success although nothing was received, or the receive failed; the
    correct echo of "write 1234 to register 10" does not lead to success but
    into the copy of wrapped length. *)
Lemma write_verdicts_observed :
  (exists w',
      modbus_WriteSingleRegister x86 (Some plc_device) 0 0 (idle [])
      = Returns 0 w')
  /\ (exists w',
         modbus_WriteSingleRegister x86 (Some plc_device) 0 0
           (idle [RecvError])
         = Returns 0 w')
  /\ (exists w',
         modbus_WriteSingleRegister x86 (Some plc_device) 10 1234
           (idle [RecvFrom plc echo_reply])
         = Undefined w').
Proof.
  repeat split; eexists; vm_compute; reflexivity.
Qed.

(** ** C7: the layout of the header *)

(** C7 (fails on the code). modbus_ConstructPacket copies the header
    structure as it lies in memory: 7 bytes, protocol id 0, length
    [nLen + 1], unit id 255, the PDU behind them, but the three 16-bit
    fields are in the byte order of the host, not big-endian. *)
Theorem ConstructPacket_header_in_host_order (P : platform)
  (pdu : list byte) (w : world)
  (Hlen : Z.of_nat (length pdu) < 65535)
  (Hptr : sizeof_mbap_header + Z.of_nat (length pdu) <= addr_of_outLen P) :
  let nLen := Z.of_nat (length pdu) in
  let tid := uint16_t (Z.rem (rand_seq P (rand_calls w)) 65535) in
  exists out w',
    modbus_ConstructPacket P (Some pdu) nLen
      (Some (malloc P (sizeof_mbap_header + nLen + 1)))
      (addr_of_outLen P, sizeof_mbap_header + nLen + 1) 0 w
    = Returns (0, (out, sizeof_mbap_header + nLen, tid)) w'
    /\ firstn 7 out
       = store16 (host P) tid ++ store16 (host P) 0
         ++ store16 (host P) (nLen + 1) ++ [255]
    /\ firstn (length pdu) (skipn 7 out) = pdu.
Proof.
  intros nLen tid. unfold modbus_ConstructPacket. cbn [fst snd].
  replace (addr_of_outLen P <? sizeof_mbap_header + nLen)
    with false by (symmetry; apply Z.ltb_ge; exact Hptr).
  unfold bind, rand. fold tid.
  rewrite (uint16_small (nLen + 1)) by (subst nLen; lia).
  set (h := mk_header tid 0 (nLen + 1) 255).
  set (m := malloc P (sizeof_mbap_header + nLen + 1)).
  assert (Hm : length m = (8 + length pdu)%nat)
    by (subst m nLen; rewrite malloc_length; unfold sizeof_mbap_header; lia).
  pose proof (header_bytes_length (host P) h) as Hh.
  unfold sizeof_mbap_header in *.
  rewrite memcpy_at_Some by lia.
  change (Z.to_nat 0) with 0%nat. change (Z.to_nat 7) with 7%nat.
  change (Z.to_nat (0 + 7)) with 7%nat.
  rewrite firstn_O, app_nil_l.
  rewrite (firstn_all2 (n := 7) (header_bytes (host P) h)) by lia.
  set (out1 := header_bytes (host P) h ++ skipn 7 m).
  assert (Ho : length out1 = (8 + length pdu)%nat)
    by (subst out1; rewrite length_app, length_skipn; lia).
  assert (H7 : firstn 7 out1 = header_bytes (host P) h).
  { subst out1. rewrite firstn_app, Hh, Nat.sub_diag, firstn_O, app_nil_r.
    apply firstn_all2. lia. }
  rewrite memcpy_at_Some by lia.
  unfold ret, size_t. rewrite Z.mod_small by (subst nLen; lia).
  do 2 eexists. split; [reflexivity|].
  change (Z.to_nat 7) with 7%nat.
  replace (Z.to_nat nLen) with (length pdu) by (subst nLen; lia).
  rewrite H7, (firstn_all pdu).
  split.
  - rewrite firstn_app, Hh, Nat.sub_diag, firstn_O, app_nil_r.
    rewrite firstn_all2 by lia. reflexivity.
  - rewrite skipn_app, Hh, Nat.sub_diag, skipn_O.
    rewrite skipn_all2 by lia. rewrite app_nil_l.
    rewrite firstn_app, Nat.sub_diag, firstn_O, app_nil_r.
    apply firstn_all.
Qed.

Lemma ConstructPacket_header_in_host_order_witness :
  Z.of_nat (length [MB_WR_SIN_REG_CODE; 0; 0; 10; 0x04; 0xD2]) < 65535
  /\ sizeof_mbap_header
     + Z.of_nat (length [MB_WR_SIN_REG_CODE; 0; 0; 10; 0x04; 0xD2])
     <= addr_of_outLen x86
  /\ exists out w',
      modbus_ConstructPacket x86 (Some [MB_WR_SIN_REG_CODE; 0; 0; 10; 0x04; 0xD2])
        6 (Some (malloc x86 14)) (addr_of_outLen x86, 14) 0 (idle [])
      = Returns (0, (out, 13, 0x1234)) w'
      /\ firstn 7 out = [0x34; 0x12; 0; 0; 7; 0; 255]
      /\ firstn 6 (skipn 7 out) = [MB_WR_SIN_REG_CODE; 0; 0; 10; 0x04; 0xD2].
Proof.
  assert (Hl : Z.of_nat (length [MB_WR_SIN_REG_CODE; 0; 0; 10; 0x04; 0xD2])
               < 65535) by (simpl; lia).
  assert (Hp : sizeof_mbap_header
               + Z.of_nat (length [MB_WR_SIN_REG_CODE; 0; 0; 10; 0x04; 0xD2])
               <= addr_of_outLen x86) by (simpl; lia).
  split; [exact Hl|]. split; [exact Hp|].
  exact (ConstructPacket_header_in_host_order x86
           [MB_WR_SIN_REG_CODE; 0; 0; 10; 0x04; 0xD2] (idle []) Hl Hp).
Defined.

(** * Further properties of the driver *)

(** ** The byte swapping macros *)

Lemma land_shiftl_low (l h : Z) :
  0 <= h < 256 -> Z.land (Z.shiftl l 8) h = 0.
Proof.
  intros Hh. apply Z.bits_inj'. intros n Hn.
  rewrite Z.land_spec, Z.bits_0.
  destruct (Z_lt_le_dec n 8) as [Hlt|Hge].
  - rewrite Z.shiftl_spec_low by lia. reflexivity.
  - replace h with (h mod 2 ^ 8) by (apply Z.mod_small; lia).
    rewrite Z.mod_pow2_bits_high by lia. apply andb_false_r.
Qed.

Lemma lor_shiftl_low (l h : Z) :
  0 <= h < 256 -> Z.lor (Z.shiftl l 8) h = 256 * l + h.
Proof.
  intros Hh.
  rewrite <- Z.lxor_lor by (now apply land_shiftl_low).
  rewrite <- Z.add_nocarry_lxor by (now apply land_shiftl_low).
  rewrite Z.shiftl_mul_pow2 by lia. lia.
Qed.

Lemma swap16_value (a : Z) :
  0 <= a < 65536 -> LITTLE_TO_BIG_ENDIAN a = 256 * (a mod 256) + a / 256.
Proof.
  intros Ha. unfold LITTLE_TO_BIG_ENDIAN.
  change 0xFF00 with (Z.shiftl 255 8).
  rewrite <- Z.shiftl_land.
  change 255 with (Z.ones 8). change 0x00FF with (Z.ones 8).
  rewrite !Z.land_ones by lia.
  rewrite Z.shiftr_div_pow2 by lia.
  change (2 ^ 8) with 256.
  assert (H : 0 <= a / 256 < 256)
    by (split; [apply Z.div_pos; lia|apply Z.div_lt_upper_bound; lia]).
  rewrite (Z.mod_small (a / 256)) by lia.
  apply lor_shiftl_low. exact H.
Qed.

Lemma swap16_range (a : Z) :
  0 <= a < 65536 -> 0 <= 256 * (a mod 256) + a / 256 < 65536.
Proof.
  intros Ha.
  assert (H : 0 <= a / 256 < 256)
    by (split; [apply Z.div_pos; lia|apply Z.div_lt_upper_bound; lia]).
  pose proof (Z.mod_pos_bound a 256 ltac:(lia)). lia.
Qed.

(** X1. On a 16-bit value both macros compute the same thing: the value
    with its two bytes exchanged, which is again a 16-bit value. *)
Theorem swap_macros_exchange_bytes (a : Z) (Ha : 0 <= a < 65536) :
  LITTLE_TO_BIG_ENDIAN a = 256 * (a mod 256) + a / 256
  /\ BIG_TO_LITTLE_ENDIAN a = LITTLE_TO_BIG_ENDIAN a
  /\ 0 <= LITTLE_TO_BIG_ENDIAN a < 65536.
Proof.
  split; [now apply swap16_value|]. split.
  - unfold BIG_TO_LITTLE_ENDIAN, LITTLE_TO_BIG_ENDIAN. apply Z.lor_comm.
  - rewrite swap16_value by assumption. now apply swap16_range.
Qed.

Lemma swap_macros_exchange_bytes_witness :
  0 <= 0x1234 < 65536
  /\ LITTLE_TO_BIG_ENDIAN 0x1234 = 0x3412
  /\ BIG_TO_LITTLE_ENDIAN 0x1234 = LITTLE_TO_BIG_ENDIAN 0x1234
  /\ 0 <= LITTLE_TO_BIG_ENDIAN 0x1234 < 65536.
Proof.
  assert (H : 0 <= 0x1234 < 65536) by lia.
  split; [exact H|].
  exact (swap_macros_exchange_bytes 0x1234 H).
Defined.

Lemma swap16_twice (a : Z) :
  0 <= a < 65536 ->
  LITTLE_TO_BIG_ENDIAN (LITTLE_TO_BIG_ENDIAN a) = a.
Proof.
  intros Ha.
  rewrite (swap16_value a) by assumption.
  rewrite swap16_value by (now apply swap16_range).
  assert (H : 0 <= a / 256 < 256)
    by (split; [apply Z.div_pos; lia|apply Z.div_lt_upper_bound; lia]).
  pose proof (Z.mod_pos_bound a 256 ltac:(lia)) as Hm.
  replace ((256 * (a mod 256) + a / 256) mod 256) with (a / 256).
  2:{ rewrite Z.add_comm, Z.mul_comm, Z.mod_add by lia.
      symmetry. apply Z.mod_small. lia. }
  replace ((256 * (a mod 256) + a / 256) / 256) with (a mod 256).
  2:{ rewrite Z.add_comm, Z.mul_comm, Z.div_add by lia.
      rewrite Z.div_small by lia. lia. }
  pose proof (Z.div_mod a 256 ltac:(lia)). lia.
Qed.

(** X2. Converting a 16-bit value to the wire order and back gives the
    value again, whichever of the two macros is used for either way. *)
Theorem swap_round_trip (a : Z) (Ha : 0 <= a < 65536) :
  BIG_TO_LITTLE_ENDIAN (LITTLE_TO_BIG_ENDIAN a) = a
  /\ LITTLE_TO_BIG_ENDIAN (BIG_TO_LITTLE_ENDIAN a) = a.
Proof.
  assert (Hs : forall x, BIG_TO_LITTLE_ENDIAN x = LITTLE_TO_BIG_ENDIAN x)
    by (intros x; unfold BIG_TO_LITTLE_ENDIAN, LITTLE_TO_BIG_ENDIAN;
        apply Z.lor_comm).
  rewrite !Hs. split; now apply swap16_twice.
Qed.

Lemma swap_round_trip_witness :
  0 <= 1234 < 65536
  /\ BIG_TO_LITTLE_ENDIAN (LITTLE_TO_BIG_ENDIAN 1234) = 1234
  /\ LITTLE_TO_BIG_ENDIAN (BIG_TO_LITTLE_ENDIAN 1234) = 1234.
Proof.
  assert (H : 0 <= 1234 < 65536) by lia.
  split; [exact H|].
  exact (swap_round_trip 1234 H).
Defined.

(** ** Sending a frame *)

Lemma next_tid_range (P : platform) (w : world) :
  0 <= next_tid P w < 65536.
Proof. apply uint16_nonneg. Qed.

Lemma frame_of_length (P : platform) (tid : Z) (pdu : list byte) :
  length (frame_of P tid pdu) = (7 + length pdu)%nat.
Proof.
  unfold frame_of. now rewrite length_app, header_bytes_length.
Qed.

(** What modbus_ConstructPacket leaves in the buffer modbus_SendPacket
    hands it: the frame and the one spare byte of the allocation. *)
Lemma ConstructPacket_frame (P : platform) (pdu : list byte) (w : world) :
  Z.of_nat (length pdu) < 65535 ->
  7 + Z.of_nat (length pdu) <= addr_of_outLen P ->
  let n := Z.of_nat (length pdu) in
  let outLen := size_t (sizeof_mbap_header + n + 1) in
  exists tail,
    modbus_ConstructPacket P (Some pdu) n (Some (malloc P outLen))
      (addr_of_outLen P, outLen) 0 w
    = Returns (0, (frame_of P (next_tid P w) pdu ++ tail, 7 + n,
                   next_tid P w))
        (mk_world (g_ModbusSocket w) (locked w) (wire w) (inbox w)
                  (S (rand_calls w))).
Proof.
  intros Hlen Hptr n outLen.
  unfold modbus_ConstructPacket. cbn [fst snd].
  replace (addr_of_outLen P <? sizeof_mbap_header + n)
    with false by (symmetry; apply Z.ltb_ge; exact Hptr).
  unfold bind, rand. fold (next_tid P w).
  rewrite (uint16_small (n + 1)) by (subst n; lia).
  set (h := mk_header (next_tid P w) 0 (n + 1) 255).
  set (m := malloc P outLen).
  assert (Hm : length m = (8 + length pdu)%nat).
  { subst m outLen n. rewrite malloc_length. unfold sizeof_mbap_header, size_t.
    rewrite Z.mod_small by lia. lia. }
  pose proof (header_bytes_length (host P) h) as Hh.
  unfold sizeof_mbap_header in *.
  rewrite memcpy_at_Some by lia.
  change (Z.to_nat 0) with 0%nat. change (Z.to_nat 7) with 7%nat.
  change (Z.to_nat (0 + 7)) with 7%nat.
  rewrite firstn_O, app_nil_l.
  rewrite (firstn_all2 (n := 7) (header_bytes (host P) h)) by lia.
  set (out1 := header_bytes (host P) h ++ skipn 7 m).
  assert (Ho : length out1 = (8 + length pdu)%nat)
    by (subst out1; rewrite length_app, length_skipn; lia).
  assert (H7 : firstn 7 out1 = header_bytes (host P) h).
  { subst out1. rewrite firstn_app, Hh, Nat.sub_diag, firstn_O, app_nil_r.
    apply firstn_all2. lia. }
  rewrite memcpy_at_Some by lia.
  unfold ret, size_t. rewrite Z.mod_small by (subst n; lia).
  change (Z.to_nat 7) with 7%nat.
  replace (Z.to_nat n) with (length pdu) by (subst n; lia).
  rewrite H7, (firstn_all pdu).
  exists (skipn (Z.to_nat (7 + n)) out1).
  unfold frame_of. fold n. fold h. rewrite <- app_assoc. reflexivity.
Qed.

Lemma SendPacket_effect (P : platform) (d : modbus_device_t)
  (pdu : list byte) (w : world) :
  Z.of_nat (length pdu) < 65535 ->
  7 + Z.of_nat (length pdu) <= addr_of_outLen P ->
  modbus_SendPacket P (Some d) pdu (Z.of_nat (length pdu)) w
  = Returns (next_tid P w)
      (mk_world (g_ModbusSocket w) (locked w)
         (if g_ModbusSocket w <? 0 then wire w
          else wire w ++ [(addr d, frame_of P (next_tid P w) pdu)])
         (inbox w) (S (rand_calls w))).
Proof.
  intros Hlen Hptr.
  destruct (ConstructPacket_frame P pdu w Hlen Hptr) as [tail Hc].
  unfold modbus_SendPacket, bind. cbv zeta in Hc. rewrite Hc.
  cbn [negb Z.eqb]. unfold modbus_SendBlock, sendto, ret.
  cbn [g_ModbusSocket locked wire inbox rand_calls].
  destruct (g_ModbusSocket w <? 0); [reflexivity|].
  replace (Z.to_nat (7 + Z.of_nat (length pdu)))
    with (length (frame_of P (next_tid P w) pdu))
    by (rewrite frame_of_length; lia).
  rewrite firstn_app, Nat.sub_diag, firstn_O, app_nil_r, firstn_all.
  reflexivity.
Qed.

(** X3. With the socket open, modbus_SendPacket sends exactly one frame
    to the address of the device: the 7-byte header followed by the PDU,
    not the spare byte it allocates behind them.  It returns the id written
    into the header, draws one random number and touches neither the
    mutexes nor the messages waiting. *)
Theorem SendPacket_sends_one_frame (P : platform) (d : modbus_device_t)
  (pdu : list byte) (w : world)
  (Hsock : 0 <= g_ModbusSocket w)
  (Hlen : Z.of_nat (length pdu) < 65535)
  (Hptr : 7 + Z.of_nat (length pdu) <= addr_of_outLen P) :
  modbus_SendPacket P (Some d) pdu (Z.of_nat (length pdu)) w
  = Returns (next_tid P w)
      (mk_world (g_ModbusSocket w) (locked w)
         (wire w ++ [(addr d, frame_of P (next_tid P w) pdu)])
         (inbox w) (S (rand_calls w)))
  /\ length (frame_of P (next_tid P w) pdu) = (7 + length pdu)%nat.
Proof.
  split; [|apply frame_of_length].
  rewrite SendPacket_effect by assumption.
  now rewrite socket_open.
Qed.

Lemma SendPacket_sends_one_frame_witness :
  0 <= g_ModbusSocket (idle [])
  /\ Z.of_nat (length [0x2B; 0x0E; 0x01; 0x00]) < 65535
  /\ 7 + Z.of_nat (length [0x2B; 0x0E; 0x01; 0x00]) <= addr_of_outLen x86
  /\ modbus_SendPacket x86 (Some plc_device) [0x2B; 0x0E; 0x01; 0x00] 4
       (idle [])
     = Returns 0x1234
         (mk_world 3 (fun _ => O)
            [(plc, [0x34; 0x12; 0; 0; 5; 0; 255; 0x2B; 0x0E; 0x01; 0x00])]
            [] 1%nat)
  /\ length (frame_of x86 0x1234 [0x2B; 0x0E; 0x01; 0x00]) = 11%nat.
Proof.
  assert (Hs : 0 <= g_ModbusSocket (idle [])) by (simpl; lia).
  assert (Hl : Z.of_nat (length [0x2B; 0x0E; 0x01; 0x00]) < 65535)
    by (simpl; lia).
  assert (Hp : 7 + Z.of_nat (length [0x2B; 0x0E; 0x01; 0x00])
               <= addr_of_outLen x86) by (simpl; lia).
  split; [exact Hs|]. split; [exact Hl|]. split; [exact Hp|].
  exact (SendPacket_sends_one_frame x86 plc_device [0x2B; 0x0E; 0x01; 0x00]
           (idle []) Hs Hl Hp).
Defined.

(** X4. A send that fails is not reported: with the socket not open,
    modbus_SendPacket puts nothing on the wire and still returns a
    transaction id, never -1. *)
Theorem SendPacket_hides_failed_send (P : platform) (d : modbus_device_t)
  (pdu : list byte) (w : world)
  (Hsock : g_ModbusSocket w < 0)
  (Hlen : Z.of_nat (length pdu) < 65535)
  (Hptr : 7 + Z.of_nat (length pdu) <= addr_of_outLen P) :
  exists tid w',
    modbus_SendPacket P (Some d) pdu (Z.of_nat (length pdu)) w
    = Returns tid w'
    /\ 0 <= tid < 65536
    /\ wire w' = wire w.
Proof.
  exists (next_tid P w). eexists. split.
  - apply SendPacket_effect; assumption.
  - split; [apply next_tid_range|].
    cbn [wire].
    now replace (g_ModbusSocket w <? 0) with true
      by (symmetry; apply Z.ltb_lt; exact Hsock).
Qed.

Lemma SendPacket_hides_failed_send_witness :
  g_ModbusSocket (mk_world (-1) (fun _ => O) [] [] 0%nat) < 0
  /\ Z.of_nat (length [MB_RD_COILS_CODE; 0; 0; 0; 8]) < 65535
  /\ 7 + Z.of_nat (length [MB_RD_COILS_CODE; 0; 0; 0; 8])
     <= addr_of_outLen x86
  /\ exists tid w',
      modbus_SendPacket x86 (Some plc_device) [MB_RD_COILS_CODE; 0; 0; 0; 8]
        5 (mk_world (-1) (fun _ => O) [] [] 0%nat)
      = Returns tid w'
      /\ 0 <= tid < 65536
      /\ wire w' = [].
Proof.
  assert (Hs : g_ModbusSocket (mk_world (-1) (fun _ => O) [] [] 0%nat) < 0)
    by (simpl; lia).
  assert (Hl : Z.of_nat (length [MB_RD_COILS_CODE; 0; 0; 0; 8]) < 65535)
    by (simpl; lia).
  assert (Hp : 7 + Z.of_nat (length [MB_RD_COILS_CODE; 0; 0; 0; 8])
               <= addr_of_outLen x86) by (simpl; lia).
  split; [exact Hs|]. split; [exact Hl|]. split; [exact Hp|].
  exact (SendPacket_hides_failed_send x86 plc_device
           [MB_RD_COILS_CODE; 0; 0; 0; 8] _ Hs Hl Hp).
Defined.

(** ** A frame sent and echoed *)

Lemma frame_tid_frame_of (P : platform) (tid : Z) (pdu : list byte) :
  0 <= tid < 65536 -> frame_tid P (frame_of P tid pdu) = tid.
Proof.
  intros Ht. unfold frame_tid, frame_of, header_bytes.
  pose proof (Z.div_mod tid 256 ltac:(lia)) as Hd.
  destruct (host P); cbn [store16 trans_id app nth load16]; lia.
Qed.

(** X5. There is no round trip.  When the device sends back the very frame
    modbus_SendPacket sent, modbus_RecvPacket, called with the id
    modbus_SendPacket returned and a buffer with room for the frame, does
    not hand out the PDU: the receive consumes the frame and answers -1,
    the id in the buffer is the pending one, and the copy of [-1 - 7]
    bytes leaves the buffer.  This is so on every host. *)
Theorem echoed_frame_is_not_received (P : platform) (d : modbus_device_t)
  (pdu buf : list byte) (rest : list recv_event) (w : world)
  (Hsock : 0 <= g_ModbusSocket w)
  (Hlen : Z.of_nat (length pdu) < 65535)
  (Hptr : 7 + Z.of_nat (length pdu) <= addr_of_outLen P)
  (Hroom : 7 + Z.of_nat (length pdu) <= Z.of_nat (length buf) < 2 ^ 31)
  (Hecho : inbox w
           = RecvFrom (addr d) (frame_of P (next_tid P w) pdu) :: rest) :
  exists w',
    (tID <- modbus_SendPacket P (Some d) pdu (Z.of_nat (length pdu)) ;;
     modbus_RecvPacket P (Some d) buf (Z.of_nat (length buf)) tID) w
    = Undefined w'
    /\ inbox w' = rest
    /\ wire w' = wire w ++ [(addr d, frame_of P (next_tid P w) pdu)].
Proof.
  unfold bind. rewrite SendPacket_effect by assumption.
  rewrite socket_open by assumption.
  set (tid := next_tid P w) in *.
  set (w1 := mk_world _ _ _ _ _).
  pose proof (next_tid_range P w) as Ht. fold tid in Ht.
  pose proof (frame_of_length P tid pdu) as Hf.
  destruct (RecvPacket_on_frame P d buf (Z.of_nat (length buf)) tid (addr d)
              (frame_of P tid pdu) rest w1) as [_ H];
    [exact Hsock|exact Hecho|reflexivity|lia|rewrite Hf; lia|].
  rewrite H.
  - eexists. split; [reflexivity|]. split; reflexivity.
  - rewrite frame_tid_frame_of by lia. symmetry. apply uint16_small. lia.
Qed.

Lemma echoed_frame_is_not_received_witness :
  0 <= g_ModbusSocket
         (idle [RecvFrom plc (frame_of m68k 0x1234 [3; 2; 0xBE; 0xEF])])
  /\ Z.of_nat (length [3; 2; 0xBE; 0xEF]) < 65535
  /\ 7 + Z.of_nat (length [3; 2; 0xBE; 0xEF]) <= addr_of_outLen m68k
  /\ 7 + Z.of_nat (length [3; 2; 0xBE; 0xEF])
     <= Z.of_nat (length (repeat 0 16%nat)) < 2 ^ 31
  /\ exists w',
      (tID <- modbus_SendPacket m68k (Some plc_device) [3; 2; 0xBE; 0xEF] 4 ;;
       modbus_RecvPacket m68k (Some plc_device) (repeat 0 16%nat) 16 tID)
        (idle [RecvFrom plc (frame_of m68k 0x1234 [3; 2; 0xBE; 0xEF])])
      = Undefined w'
      /\ inbox w' = []
      /\ wire w' = [(plc, frame_of m68k 0x1234 [3; 2; 0xBE; 0xEF])].
Proof.
  assert (Hs : 0 <= g_ModbusSocket
                      (idle [RecvFrom plc
                               (frame_of m68k 0x1234 [3; 2; 0xBE; 0xEF])]))
    by (simpl; lia).
  assert (Hl : Z.of_nat (length [3; 2; 0xBE; 0xEF]) < 65535) by (simpl; lia).
  assert (Hp : 7 + Z.of_nat (length [3; 2; 0xBE; 0xEF])
               <= addr_of_outLen m68k) by (simpl; lia).
  assert (Hr : 7 + Z.of_nat (length [3; 2; 0xBE; 0xEF])
               <= Z.of_nat (length (repeat 0 16%nat)) < 2 ^ 31)
    by (simpl; lia).
  split; [exact Hs|]. split; [exact Hl|]. split; [exact Hp|].
  split; [exact Hr|].
  exact (echoed_frame_is_not_received m68k plc_device [3; 2; 0xBE; 0xEF]
           (repeat 0 16%nat) [] _ Hs Hl Hp Hr eq_refl).
Defined.

(** ** Edges of modbus_RecvBlock and modbus_RecvPacket *)

Lemma memcpy_at_too_long (dst : list byte) (off : Z) (src : list byte)
  (n : Z) :
  Z.of_nat (length dst) < off + n -> memcpy_at dst off src n = None.
Proof.
  intros H. unfold memcpy_at.
  replace (off + n <=? Z.of_nat (length dst)) with false
    by (symmetry; apply Z.leb_gt; exact H).
  now rewrite andb_false_r.
Qed.

Lemma memcpy_at_length (dst : list byte) (off : Z) (src : list byte) (n : Z)
  (r : list byte) :
  memcpy_at dst off src n = Some r -> length r = length dst.
Proof.
  intros H. pose proof (memcpy_at_inv _ _ _ _ _ H) as (H1 & H2 & H3 & H4).
  rewrite memcpy_at_Some in H by assumption. injection H as <-.
  rewrite !length_app, !length_firstn, length_skipn. lia.
Qed.

(** X6. A frame of the device that is shorter than a header (2 to 6 bytes)
    and starts with the pending transaction id is not rejected:
    modbus_RecvPacket goes on to copy [len - 7] bytes, a length that wraps
    as a [size_t], and the copy leaves the buffer. *)
Theorem RecvPacket_short_frame_overruns (P : platform) (d : modbus_device_t)
  (buf : list byte) (nLen tID : Z) (frame : list byte)
  (rest : list recv_event) (w : world)
  (Hsock : 0 <= g_ModbusSocket w)
  (Hin : inbox w = RecvFrom (addr d) frame :: rest)
  (Hn : nLen = Z.of_nat (length buf)) (Hsmall : nLen < 2 ^ 31)
  (Hshort : 2 <= Z.of_nat (length frame) < 7)
  (Hfits : Z.of_nat (length frame) <= nLen)
  (Hid : frame_tid P frame = uint16_t tID) :
  modbus_RecvPacket P (Some d) buf nLen tID w
  = Undefined (after_receive w rest).
Proof.
  destruct (RecvPacket_on_frame P d buf nLen tID (addr d) frame rest w Hsock
              Hin Hn Hsmall ltac:(lia)) as [_ H].
  apply H. exact Hid.
Qed.

Lemma RecvPacket_short_frame_overruns_witness :
  0 <= g_ModbusSocket (idle [RecvFrom plc [0x34; 0x12; 0; 0]])
  /\ 20 = Z.of_nat (length (repeat 0 20%nat)) /\ 20 < 2 ^ 31
  /\ 2 <= Z.of_nat (length [0x34; 0x12; 0; 0]) < 7
  /\ Z.of_nat (length [0x34; 0x12; 0; 0]) <= 20
  /\ frame_tid x86 [0x34; 0x12; 0; 0] = uint16_t 0x1234
  /\ modbus_RecvPacket x86 (Some plc_device) (repeat 0 20%nat) 20 0x1234
       (idle [RecvFrom plc [0x34; 0x12; 0; 0]])
     = Undefined (idle []).
Proof.
  assert (Hs : 0 <= g_ModbusSocket (idle [RecvFrom plc [0x34; 0x12; 0; 0]]))
    by (simpl; lia).
  assert (Hn : 20 = Z.of_nat (length (repeat 0 20%nat))) by reflexivity.
  assert (Hb : 20 < 2 ^ 31) by reflexivity.
  assert (Hl : 2 <= Z.of_nat (length [0x34; 0x12; 0; 0]) < 7)
    by (simpl; lia).
  assert (Hf : Z.of_nat (length [0x34; 0x12; 0; 0]) <= 20) by (simpl; lia).
  assert (Ht : frame_tid x86 [0x34; 0x12; 0; 0] = uint16_t 0x1234)
    by reflexivity.
  split; [exact Hs|]. split; [exact Hn|]. split; [exact Hb|].
  split; [exact Hl|]. split; [exact Hf|]. split; [exact Ht|].
  exact (RecvPacket_short_frame_overruns x86 plc_device (repeat 0 20%nat) 20
           0x1234 [0x34; 0x12; 0; 0] [] _ Hs eq_refl Hn Hb Hl Hf Ht).
Defined.

(** X7. When the receive fails, modbus_RecvPacket still reads a transaction
    id out of the buffer, which holds whatever it held before the call: it
    returns -1 when that stale id differs from the pending one, and runs
    into the copy of wrapped length when it happens to be equal.  The
    buffer is left as it was. *)
Theorem RecvPacket_after_failed_receive (P : platform) (d : modbus_device_t)
  (buf : list byte) (nLen tID : Z) (w : world)
  (Hfail : receive_fails w)
  (Hbuf : 2 <= Z.of_nat (length buf) < 2 ^ 31) :
  (frame_tid P buf <> uint16_t tID ->
   exists w',
     modbus_RecvPacket P (Some d) buf nLen tID w = Returns (-1, buf) w'
     /\ same_link w w')
  /\ (frame_tid P buf = uint16_t tID ->
      exists w', modbus_RecvPacket P (Some d) buf nLen tID w = Undefined w').
Proof.
  destruct (RecvBlock_on_failure d buf nLen w Hfail) as (w' & Hb & Hl).
  rewrite (RecvPacket_after_block P d buf nLen tID w buf w' Hb Hbuf).
  split; intros Hid.
  - apply Z.eqb_neq in Hid. rewrite Hid.
    exists w'. split; [reflexivity|exact Hl].
  - apply Z.eqb_eq in Hid. rewrite Hid.
    exists w'. reflexivity.
Qed.

Lemma RecvPacket_after_failed_receive_witness :
  receive_fails (idle [RecvError])
  /\ 2 <= Z.of_nat (length (malloc x86 10)) < 2 ^ 31
  /\ (exists w',
         modbus_RecvPacket x86 (Some plc_device) (malloc x86 10) 10 0x1234
           (idle [RecvError])
         = Returns (-1, malloc x86 10) w'
         /\ same_link (idle [RecvError]) w')
  /\ (exists w',
         modbus_RecvPacket x86 (Some plc_device) (malloc x86 10) 10 0xAAAA
           (idle [RecvError])
         = Undefined w').
Proof.
  assert (Hf : receive_fails (idle [RecvError]))
    by (right; right; now exists []).
  assert (Hb : 2 <= Z.of_nat (length (malloc x86 10)) < 2 ^ 31)
    by (simpl; lia).
  split; [exact Hf|]. split; [exact Hb|]. split.
  - destruct (RecvPacket_after_failed_receive x86 plc_device (malloc x86 10)
                10 0x1234 (idle [RecvError]) Hf Hb) as [H _].
    apply H. vm_compute. discriminate.
  - destruct (RecvPacket_after_failed_receive x86 plc_device (malloc x86 10)
                10 0xAAAA (idle [RecvError]) Hf Hb) as [_ H].
    apply H. reflexivity.
Defined.

(** X8. modbus_RecvPacket stays inside the buffer it is given: whenever it
    returns, the buffer has the size it had, the result is -1 or a length
    between 7 and [nLen], and socket, mutexes and wire are as before. *)
Theorem RecvPacket_stays_in_buffer (P : platform) (d : modbus_device_t)
  (buf : list byte) (nLen tID : Z) (w : world) (n : Z) (buf' : list byte)
  (w' : world)
  (Hn : nLen = Z.of_nat (length buf)) (Hsmall : nLen < 2 ^ 31)
  (Hret : modbus_RecvPacket P (Some d) buf nLen tID w = Returns (n, buf') w') :
  length buf' = length buf
  /\ (n = -1 \/ 7 <= n <= nLen)
  /\ same_link w w'.
Proof.
  destruct (RecvPacket_cases P d buf nLen tID w n buf' w' Hn Hsmall Hret)
    as (H1 & H2 & H3).
  split; [exact H2|]. split; [left; exact H1|exact H3].
Qed.

Lemma RecvPacket_stays_in_buffer_witness :
  20 = Z.of_nat (length (repeat 0 20%nat)) /\ 20 < 2 ^ 31
  /\ length (reply_foreign ++ repeat 0 11%nat) = length (repeat 0 20%nat)
  /\ (-1 = -1 \/ 7 <= -1 <= 20)
  /\ same_link (idle [RecvFrom plc reply_foreign]) (idle []).
Proof.
  assert (Hn : 20 = Z.of_nat (length (repeat 0 20%nat))) by reflexivity.
  assert (Hb : 20 < 2 ^ 31) by reflexivity.
  split; [exact Hn|]. split; [exact Hb|].
  exact (RecvPacket_stays_in_buffer x86 plc_device (repeat 0 20%nat) 20
           0x1234 (idle [RecvFrom plc reply_foreign]) (-1)
           (reply_foreign ++ repeat 0 11%nat) (idle [])
           Hn Hb eq_refl).
Defined.

(** ** Two devices on the one socket *)



(** ** The operations, from request to result *)

Lemma request_bytes_length (e : endian) (code pad a v : Z) :
  length (request_bytes e code pad a v) = 6%nat.
Proof. destruct e; reflexivity. Qed.

(** Taking the mutex and sending the request, on an open or a closed
    socket: the operation goes on with the id drawn, in any case. *)
Lemma connect_and_send_any (P : platform) (d : modbus_device_t)
  (code pad a v : Z) (w : world) {A : Type} (k : Z -> M A) :
  13 <= addr_of_outLen P ->
  (modbus_ConnectDevice (Some d) ;;;
   tID <- modbus_SendPacket P (Some d) (request_bytes (host P) code pad a v)
                            sizeof_request ;;
   k tID) w
  = k (next_tid P w) (attempted P d (request_bytes (host P) code pad a v) w).
Proof.
  intros Hptr. unfold attempted.
  destruct (g_ModbusSocket w <? 0) eqn:Hs.
  - unfold bind at 1. unfold modbus_ConnectDevice. rewrite Hs.
    unfold bind.
    change sizeof_request with (Z.of_nat 6).
    rewrite <- (request_bytes_length (host P) code pad a v).
    rewrite SendPacket_effect
      by (rewrite request_bytes_length; lia).
    rewrite Hs. reflexivity.
  - apply Z.ltb_ge in Hs.
    rewrite connect_and_send by assumption. reflexivity.
Qed.

Lemma swap16_small_count (n : Z) :
  0 <= n <= 1024 -> n mod 256 = 0 ->
  0 <= uint16_t (LITTLE_TO_BIG_ENDIAN n) <= 4.
Proof.
  intros Hn Hm.
  rewrite swap16_value by lia.
  rewrite Hm, uint16_small by (pose proof (Z.div_pos n 256); 
    assert (n / 256 < 5) by (apply Z.div_lt_upper_bound; lia); lia).
  assert (n / 256 < 5) by (apply Z.div_lt_upper_bound; lia).
  pose proof (Z.div_pos n 256). lia.
Qed.

(** X10. A coil read of 0, 256, 512, 768 or 1024 coils cannot succeed:
    the count is byte-swapped before the reply buffer is sized, which
    leaves fewer bytes than a header has, so whenever modbus_ReadCoils
    returns for such a count it returns -1 and the caller's buffer is as it
    was. *)
Theorem ReadCoils_small_counts_fail (P : platform) (d : modbus_device_t)
  (a ncoils : Z) (out : list byte) (n : byte) (w : world)
  (r : Z) (o : option (list byte)) (w' : world)
  (Hptr : 13 <= addr_of_outLen P)
  (Hcount : 0 <= ncoils <= 1024) (Hmult : ncoils mod 256 = 0)
  (Hret : modbus_ReadCoils P (Some d) a ncoils (Some out) (Some n) w
          = Returns (r, o) w') :
  r = -1 /\ o = Some out.
Proof.
  revert Hret. unfold modbus_ReadCoils.
  replace (0x7D0 <? ncoils) with false by (symmetry; apply Z.ltb_ge; lia).
  rewrite connect_and_send_any by assumption.
  pose proof (swap16_small_count ncoils Hcount Hmult) as Hk.
  set (k := uint16_t (LITTLE_TO_BIG_ENDIAN ncoils)) in *.
  unfold bind.
  match goal with
  | |- context [modbus_RecvPacket P ?dv ?b ?l ?t ?w1] =>
      destruct (modbus_RecvPacket P dv b l t w1) as [[n0 buf] w2|w2] eqn:E
  end; [|discriminate].
  apply RecvPacket_cases in E; [|rewrite malloc_length; lia|lia].
  destruct E as [-> _].
  unfold ReadCoils_reply. cbn [Z.ltb Z.compare].
  intros H. injection H as <- <- _. auto.
Qed.

Lemma ReadCoils_small_counts_fail_witness :
  13 <= addr_of_outLen x86 /\ 0 <= 256 <= 1024 /\ 256 mod 256 = 0
  /\ -1 = -1 /\ Some [7; 7] = Some [7; 7].
Proof.
  assert (Hp : 13 <= addr_of_outLen x86) by (simpl; lia).
  assert (Hc : 0 <= 256 <= 1024) by lia.
  assert (Hm : 256 mod 256 = 0) by reflexivity.
  split; [exact Hp|]. split; [exact Hc|]. split; [exact Hm|].
  exact (ReadCoils_small_counts_fail x86 plc_device 0 256 [7; 7] 0
           (idle [RecvFrom plc reply_foreign]) (-1) (Some [7; 7]) _
           Hp Hc Hm eq_refl).
Defined.

(** X11. modbus_ReadCoils never succeeds.  Whatever the arguments, the
    state of the socket and the messages that arrive, whenever the
    operation returns it returns -1 and the caller's buffer is as it was:
    modbus_RecvPacket never returns more than -1, so the branch that
    copies the coils out is never taken. *)
Theorem ReadCoils_never_succeeds (P : platform)
  (device : option modbus_device_t) (a ncoils : Z)
  (pOutBuf : option (list byte)) (nOutCoils : option byte) (w : world)
  (r : Z) (o : option (list byte)) (w' : world)
  (Hret : modbus_ReadCoils P device a ncoils pOutBuf nOutCoils w
          = Returns (r, o) w') :
  r = -1 /\ o = pOutBuf.
Proof.
  revert Hret. unfold modbus_ReadCoils.
  assert (Hdone : forall x : option (list byte),
             ret (-1, x) w = Returns (r, o) w' -> r = -1 /\ o = x).
  { intros x H. injection H as <- <- _. auto. }
  destruct device as [d|]; [|apply Hdone].
  destruct pOutBuf as [out|]; [|apply Hdone].
  destruct nOutCoils as [n0|]; [|apply Hdone].
  destruct (0x7D0 <? ncoils); [apply Hdone|].
  set (k := uint16_t (LITTLE_TO_BIG_ENDIAN ncoils)).
  assert (Hk : 0 <= k < 65536) by apply uint16_nonneg.
  unfold bind.
  destruct (modbus_ConnectDevice (Some d) w) as [[] w0|w0]; [|discriminate].
  destruct (modbus_SendPacket P (Some d) _ sizeof_request w0) as [tid w1|w1];
    [|discriminate].
  destruct (modbus_RecvPacket P (Some d) (malloc P (k + 2)) (k + 2) tid w1)
    as [[n buf] w2|w2] eqn:E; [|discriminate].
  apply RecvPacket_cases in E; [|rewrite malloc_length; lia|lia].
  destruct E as [-> _].
  unfold ReadCoils_reply. cbn [Z.ltb Z.compare].
  intros H. injection H as <- <- _. auto.
Qed.

Lemma ReadCoils_never_succeeds_witness :
  modbus_ReadCoils x86 (Some plc_device) 0 8 (Some [7; 7]) (Some 0)
    (idle [RecvFrom plc [0x99; 0x99; 0; 0; 0; 4; 255; 1; 1; 0xA5]])
  = Returns (-1, Some [7; 7])
      (requested x86 plc_device
         (request_bytes LittleEndian MB_RD_COILS_CODE 0xAA 0 0x0800)
         (idle []))
  /\ -1 = -1 /\ Some [7; 7] = Some [7; 7].
Proof.
  assert (Hrun : modbus_ReadCoils x86 (Some plc_device) 0 8 (Some [7; 7])
                   (Some 0)
                   (idle [RecvFrom plc
                            [0x99; 0x99; 0; 0; 0; 4; 255; 1; 1; 0xA5]])
                 = Returns (-1, Some [7; 7])
                     (requested x86 plc_device
                        (request_bytes LittleEndian MB_RD_COILS_CODE 0xAA 0
                           0x0800)
                        (idle [])))
    by (vm_compute; reflexivity).
  split; [exact Hrun|].
  exact (ReadCoils_never_succeeds x86 (Some plc_device) 0 8 (Some [7; 7])
           (Some 0) _ (-1) (Some [7; 7]) _ Hrun).
Defined.

(** ** A receive that fails *)

Lemma attempted_receive_fails (P : platform) (d : modbus_device_t)
  (request : list byte) (w : world) :
  receive_fails w -> receive_fails (attempted P d request w).
Proof.
  unfold receive_fails, attempted.
  destruct (g_ModbusSocket w <? 0); cbn [g_ModbusSocket inbox requested];
    auto.
Qed.

(** A loop bound beyond the buffer: the loops run out of it. *)
Lemma swap_words_overrun (P : platform) (fuel : nat) :
  forall (i len : Z) (buf : list byte),
    i + 2 * Z.of_nat fuel < len ->
    swap_words P fuel i len buf = None.
Proof.
  induction fuel as [|fuel IH]; intros i len buf H; cbn [swap_words];
    (replace (i <? len) with true by (symmetry; apply Z.ltb_lt; lia));
    [reflexivity|].
  destruct (nth_error buf (Z.to_nat (2 * i))); [|reflexivity].
  destruct (nth_error buf (Z.to_nat (2 * i + 1))); [|reflexivity].
  apply IH. lia.
Qed.

Lemma swap_bytes_overrun (fuel : nat) :
  forall (i len : Z) (buf : list byte),
    i + 2 * Z.of_nat fuel < len ->
    swap_bytes fuel i len buf = None.
Proof.
  induction fuel as [|fuel IH]; intros i len buf H; cbn [swap_bytes];
    (replace (i <? len) with true by (symmetry; apply Z.ltb_lt; lia));
    [reflexivity|].
  destruct (nth_error buf (Z.to_nat i)); [|reflexivity].
  apply IH. lia.
Qed.

Lemma size_t_minus_one : size_t (-1) = 2 ^ 64 - 1.
Proof. reflexivity. Qed.

Lemma nth_malloc (P : platform) (n : Z) (i : nat) :
  Z.of_nat i < n -> nth i (malloc P n) 0 = fresh P i.
Proof.
  intros H. unfold malloc.
  rewrite (nth_indep _ 0 (fresh P 0)) by (rewrite length_map, length_seq; lia).
  rewrite map_nth, seq_nth by lia. reflexivity.
Qed.

(** X12. A failed receive is never reported by the two register reads:
    the test [len < 0] is made on a [size_t].  When nothing could be
    received, modbus_ReadHoldingRegisters and modbus_ReadInputRegisters
    go on with the reply buffer as malloc gave it; they return only if
    that memory happens to start with their exception code, and then with
    0x84, or with the second byte of that memory; in every other case the
    swapping loop runs over the end of the buffer. *)
Theorem register_reads_hide_failed_receive (P : platform)
  (d : modbus_device_t) (a nregs : Z) (out : option (list byte))
  (n : option Z) (n' : option byte) (w : world)
  (Hptr : 13 <= addr_of_outLen P) (Hfail : receive_fails w) :
  (forall r o c w',
      modbus_ReadHoldingRegisters P (Some d) a nregs out n w
      = Returns (r, o, c) w' ->
      r = 0x84 /\ fresh P 0 = 0x83)
  /\ (fresh P 0 <> 0x83 ->
      exists w',
        modbus_ReadHoldingRegisters P (Some d) a nregs out n w = Undefined w')
  /\ (forall r o w',
         modbus_ReadInputRegisters P (Some d) a nregs out n' w
         = Returns (r, o) w' ->
         r = fresh P 1 /\ fresh P 0 = 0x84)
  /\ (fresh P 0 <> 0x84 ->
      exists w',
        modbus_ReadInputRegisters P (Some d) a nregs out n' w = Undefined w').
Proof.
  set (k := uint16_t (LITTLE_TO_BIG_ENDIAN nregs)).
  assert (Hk : 0 <= k < 65536) by apply uint16_nonneg.
  assert (Hhold : forall r o c w',
             modbus_ReadHoldingRegisters P (Some d) a nregs out n w
             = Returns (r, o, c) w' ->
             r = 0x84 /\ fresh P 0 = 0x83).
  { intros r o c w'. unfold modbus_ReadHoldingRegisters.
    rewrite connect_and_send_any by assumption.
    unfold next_tid at 1. rewrite tid_not_negative.
    fold k. unfold bind.
    match goal with
    | |- context [modbus_RecvPacket P _ ?b ?l ?t ?w1] =>
        destruct (RecvPacket_failed P d b l t w1)
          as [(w2 & -> & _)|(w2 & ->)]
    end.
    - apply attempted_receive_fails, Hfail.
    - rewrite malloc_length. lia.
    - unfold modbus_DisconnectDevice, epicsMutexUnlock.
      rewrite nth_malloc by lia.
      destruct (fresh P 0 =? 0x83) eqn:E.
      + apply Z.eqb_eq in E. unfold ret. intros H. injection H as <- _ _ _.
        split; [rewrite E; reflexivity|exact E].
      + rewrite swap_words_overrun; [discriminate|].
        rewrite size_t_minus_one, malloc_length. lia.
    - discriminate. }
  assert (Hinp : forall r o w',
             modbus_ReadInputRegisters P (Some d) a nregs out n' w
             = Returns (r, o) w' ->
             r = fresh P 1 /\ fresh P 0 = 0x84).
  { intros r o w'. unfold modbus_ReadInputRegisters.
    rewrite connect_and_send_any by assumption.
    unfold next_tid at 1. rewrite tid_not_negative.
    fold k. unfold bind.
    match goal with
    | |- context [modbus_RecvPacket P _ ?b ?l ?t ?w1] =>
        destruct (RecvPacket_failed P d b l t w1)
          as [(w2 & -> & _)|(w2 & ->)]
    end.
    - apply attempted_receive_fails, Hfail.
    - rewrite malloc_length. lia.
    - rewrite !nth_malloc by lia.
      destruct (fresh P 0 =? 0x84) eqn:E.
      + apply Z.eqb_eq in E. unfold ret. intros H. injection H as <- _ _.
        split; [reflexivity|exact E].
      + rewrite swap_bytes_overrun; [discriminate|].
        rewrite size_t_minus_one, malloc_length. lia.
    - discriminate. }
  split; [exact Hhold|]. split; [|split; [exact Hinp|]].
  - intros Hne.
    destruct (modbus_ReadHoldingRegisters P (Some d) a nregs out n w)
      as [[[r o] c] w'|w'] eqn:E; [|exists w'; reflexivity].
    destruct (Hhold _ _ _ _ eq_refl) as [_ H]. contradiction.
  - intros Hne.
    destruct (modbus_ReadInputRegisters P (Some d) a nregs out n' w)
      as [[r o] w'|w'] eqn:E; [|exists w'; reflexivity].
    destruct (Hinp _ _ _ eq_refl) as [_ H]. contradiction.
Qed.

Lemma register_reads_hide_failed_receive_witness :
  13 <= addr_of_outLen x86 /\ receive_fails (idle [RecvError])
  /\ (exists w',
         modbus_ReadHoldingRegisters x86 (Some plc_device) 0 2
           (Some (repeat 0 4%nat)) (Some 0) (idle [RecvError])
         = Undefined w')
  /\ (exists w',
         modbus_ReadInputRegisters x86 (Some plc_device) 0 2
           (Some (repeat 0 4%nat)) (Some 0) (idle [RecvError])
         = Undefined w').
Proof.
  assert (Hp : 13 <= addr_of_outLen x86) by (simpl; lia).
  assert (Hf : receive_fails (idle [RecvError]))
    by (right; right; exists []; reflexivity).
  split; [exact Hp|]. split; [exact Hf|].
  destruct (register_reads_hide_failed_receive x86 plc_device 0 2
              (Some (repeat 0 4%nat)) (Some 0) (Some 0) (idle [RecvError])
              Hp Hf) as (_ & H1 & _ & H2).
  split; [apply H1|apply H2]; simpl; lia.
Defined.

(** ** The operations that give the mutex back *)

Lemma lock_then_unlock (f : epicsMutexId -> nat) (k m : epicsMutexId) :
  upd (upd f k (S (f k))) k (pred (upd f k (S (f k)) k)) m = f m.
Proof.
  unfold upd. rewrite Nat.eqb_refl.
  destruct (Nat.eqb m k) eqn:E; [|reflexivity].
  apply Nat.eqb_eq in E. now subst m.
Qed.

Lemma next_pointer_byte (p : Z) :
  uint8_t p = 0x82 -> uint8_t (p + 1) = 0x83.
Proof.
  unfold uint8_t. intros H.
  rewrite Z.add_mod, H by lia. reflexivity.
Qed.



(** X14. modbus_ReadHoldingRegisters never reports an error with -1 once
    it has a device: the id returned by modbus_SendPacket is never
    negative and the length test is made on a [size_t].  Whenever the
    operation returns, it returns 0, or 0x84 with the caller's objects
    untouched, and every mutex is as deep as before the call. *)
Theorem ReadHoldingRegisters_results (P : platform) (d : modbus_device_t)
  (a nregs : Z) (out : option (list byte)) (n : option Z) (w : world)
  (r : Z) (o : option (list byte)) (c : option Z) (w' : world)
  (Hsock : 0 <= g_ModbusSocket w) (Hptr : 13 <= addr_of_outLen P)
  (Hret : modbus_ReadHoldingRegisters P (Some d) a nregs out n w
          = Returns (r, o, c) w') :
  (r = 0 \/ (r = 0x84 /\ o = out /\ c = n))
  /\ (forall m, locked w' m = locked w m).
Proof.
  revert Hret. unfold modbus_ReadHoldingRegisters.
  rewrite connect_and_send by assumption.
  rewrite tid_not_negative.
  set (w1 := requested P d _ w).
  unfold bind.
  match goal with
  | |- context [modbus_RecvPacket P ?dv ?b ?l ?t w1] =>
      pose proof (RecvPacket_same_link P dv b l t w1) as (_ & Hw & _);
      destruct (modbus_RecvPacket P dv b l t w1) as [[r0 buf] w2|w2]
  end; [|discriminate].
  cbn [final_world] in Hw.
  unfold modbus_DisconnectDevice, epicsMutexUnlock.
  assert (Hl : forall m,
             upd (locked w2) (mutex d) (pred (locked w2 (mutex d))) m
             = locked w m).
  { intros m. rewrite Hw. unfold w1, requested. cbn [locked].
    apply lock_then_unlock. }
  destruct (nth 0 buf 0 =? 0x83) eqn:E.
  - apply Z.eqb_eq in E. unfold ret. intros H. injection H as <- <- <- <-.
    split; [right|exact Hl]. rewrite E. auto.
  - destruct (swap_words P _ _ _ _) as [buf'|]; [|discriminate].
    destruct out as [out|]; [|discriminate].
    destruct n as [n|]; [|discriminate].
    destruct (memcpy_at out 0 _ _) as [out'|]; [|discriminate].
    unfold ret. intros H. injection H as <- _ _ <-.
    split; [now left|exact Hl].
Qed.

Lemma ReadHoldingRegisters_results_witness :
  0 <= g_ModbusSocket
         (idle [RecvFrom plc [0x83; 0x99; 0; 0; 0; 3; 255; 0x83; 2]])
  /\ 13 <= addr_of_outLen x86
  /\ (0x84 = 0 \/ (0x84 = 0x84 /\ Some [0] = Some [0] /\ Some 0 = Some 0))
  /\ (forall m,
         locked (final_world
                   (modbus_ReadHoldingRegisters x86 (Some plc_device) 0 1
                      (Some [0]) (Some 0)
                      (idle [RecvFrom plc
                               [0x83; 0x99; 0; 0; 0; 3; 255; 0x83; 2]])))
                m
         = 0%nat).
Proof.
  assert (Hs : 0 <= g_ModbusSocket
                      (idle [RecvFrom plc
                               [0x83; 0x99; 0; 0; 0; 3; 255; 0x83; 2]]))
    by (simpl; lia).
  assert (Hp : 13 <= addr_of_outLen x86) by (simpl; lia).
  split; [exact Hs|]. split; [exact Hp|].
  exact (ReadHoldingRegisters_results x86 plc_device 0 1 (Some [0]) (Some 0)
           (idle [RecvFrom plc [0x83; 0x99; 0; 0; 0; 3; 255; 0x83; 2]])
           0x84 (Some [0]) (Some 0) _ Hs Hp eq_refl).
Defined.

Lemma memcpy_at_short_source (dst : list byte) (off : Z) (src : list byte)
  (n : Z) :
  Z.of_nat (length src) < n -> memcpy_at dst off src n = None.
Proof.
  intros H. unfold memcpy_at.
  replace (n <=? Z.of_nat (length src)) with false
    by (symmetry; apply Z.leb_gt; exact H).
  now rewrite andb_false_r.
Qed.

(** X15. modbus_ReadDiscreteInputs does not report a failed receive
    either: with nothing received it goes on to copy [(size_t)-1 - 2]
    bytes out of the reply buffer, which is undefined; it returns only
    when the address of the allocation ends in 0x82, and then 0x83. *)
Theorem ReadDiscreteInputs_hides_failed_receive (P : platform)
  (d : modbus_device_t) (a ncoils : Z) (out : list byte) (n : byte)
  (w : world)
  (Hptr : 13 <= addr_of_outLen P) (Hfail : receive_fails w) :
  (forall r o w',
      modbus_ReadDiscreteInputs P (Some d) a ncoils (Some out) (Some n) w
      = Returns (r, o) w' ->
      r = 0x83 /\ uint8_t (addr_of_malloc P) = 0x82)
  /\ (uint8_t (addr_of_malloc P) <> 0x82 ->
      exists w',
        modbus_ReadDiscreteInputs P (Some d) a ncoils (Some out) (Some n) w
        = Undefined w').
Proof.
  set (k := uint16_t (LITTLE_TO_BIG_ENDIAN ncoils)).
  assert (Hk : 0 <= k < 65536) by apply uint16_nonneg.
  assert (Hdisc : forall r o w',
             modbus_ReadDiscreteInputs P (Some d) a ncoils (Some out)
               (Some n) w
             = Returns (r, o) w' ->
             r = 0x83 /\ uint8_t (addr_of_malloc P) = 0x82).
  { intros r o w'. unfold modbus_ReadDiscreteInputs.
    rewrite connect_and_send_any by assumption.
    unfold next_tid at 1. rewrite tid_not_negative.
    fold k. unfold bind.
    match goal with
    | |- context [modbus_RecvPacket P _ ?b ?l ?t ?w1] =>
        destruct (RecvPacket_failed P d b l t w1)
          as [(w2 & -> & _)|(w2 & ->)]
    end.
    - apply attempted_receive_fails, Hfail.
    - rewrite malloc_length. lia.
    - unfold modbus_DisconnectDevice, epicsMutexUnlock.
      destruct (uint8_t (addr_of_malloc P) =? 0x82) eqn:E.
      + apply Z.eqb_eq in E. unfold ret. intros H. injection H as <- _ _.
        split; [apply next_pointer_byte; exact E|exact E].
      + rewrite memcpy_at_short_source; [discriminate|].
        rewrite size_t_minus_one, length_skipn, malloc_length.
        unfold size_t. rewrite Z.mod_small by lia. lia.
    - discriminate. }
  split; [exact Hdisc|].
  intros Hne.
  destruct (modbus_ReadDiscreteInputs P (Some d) a ncoils (Some out)
              (Some n) w) as [[r o] w'|w'] eqn:E; [|exists w'; reflexivity].
  destruct (Hdisc _ _ _ eq_refl) as [_ H]. contradiction.
Qed.

Lemma ReadDiscreteInputs_hides_failed_receive_witness :
  13 <= addr_of_outLen x86 /\ receive_fails (idle [])
  /\ exists w',
      modbus_ReadDiscreteInputs x86 (Some plc_device) 0 8
        (Some (repeat 0 7%nat)) (Some 0) (idle [])
      = Undefined w'.
Proof.
  assert (Hp : 13 <= addr_of_outLen x86) by (simpl; lia).
  assert (Hf : receive_fails (idle [])) by (right; left; reflexivity).
  split; [exact Hp|]. split; [exact Hf|].
  destruct (ReadDiscreteInputs_hides_failed_receive x86 plc_device 0 8
              (repeat 0 7%nat) 0 (idle []) Hp Hf) as [_ H].
  apply H. vm_compute. discriminate.
Defined.

(** ** The write and its reply buffer of six bytes *)

(** In a buffer smaller than a header, a message that starts with the
    pending id sends modbus_RecvPacket into the copy of wrapped length,
    however long the message is. *)
Lemma RecvPacket_small_buffer (P : platform) (d : modbus_device_t)
  (buf : list byte) (nLen tID : Z) (frame : list byte)
  (rest : list recv_event) (w : world) :
  0 <= g_ModbusSocket w ->
  inbox w = RecvFrom (addr d) frame :: rest ->
  nLen = Z.of_nat (length buf) -> 2 <= nLen < 7 ->
  (2 <= length frame)%nat ->
  frame_tid P frame = uint16_t tID ->
  modbus_RecvPacket P (Some d) buf nLen tID w
  = Undefined (after_receive w rest).
Proof.
  intros Hsock Hin Hn Hsmall Hlen Hid.
  pose proof (RecvBlock_on_message d buf nLen (addr d) frame rest w Hsock Hin)
    as Hb.
  pose proof (received_tid P buf nLen frame ltac:(lia) Hlen) as Ht.
  pose proof (received_length buf nLen frame Hn) as Hl.
  rewrite (RecvPacket_after_block P d buf nLen tID w _ _ Hb) by lia.
  rewrite Ht. apply Z.eqb_eq in Hid. now rewrite Hid.
Qed.

(** X16. modbus_WriteSingleRegister cannot take a reply: its reply buffer
    has 6 bytes, fewer than a header.  Whenever the next message of the
    device carries the pending transaction id, the echo of the write
    included, the operation is undefined. *)
Theorem WriteSingleRegister_undefined_on_reply (P : platform)
  (d : modbus_device_t) (a v : Z) (frame : list byte)
  (rest : list recv_event) (w : world)
  (Hsock : 0 <= g_ModbusSocket w) (Hptr : 13 <= addr_of_outLen P)
  (Hin : inbox w = RecvFrom (addr d) frame :: rest)
  (Hlen : (2 <= length frame)%nat)
  (Hid : frame_tid P frame = next_tid P w) :
  exists w', modbus_WriteSingleRegister P (Some d) a v w = Undefined w'.
Proof.
  unfold modbus_WriteSingleRegister.
  rewrite connect_and_send by assumption.
  unfold bind.
  rewrite (RecvPacket_small_buffer P d (zeroed sizeof_request) sizeof_request
             _ frame rest).
  - eexists. reflexivity.
  - exact Hsock.
  - exact Hin.
  - reflexivity.
  - unfold sizeof_request. lia.
  - exact Hlen.
  - fold (next_tid P w).
    rewrite uint16_small by apply next_tid_range. exact Hid.
Qed.

Lemma WriteSingleRegister_undefined_on_reply_witness :
  0 <= g_ModbusSocket (idle [RecvFrom plc echo_reply])
  /\ 13 <= addr_of_outLen x86
  /\ (2 <= length echo_reply)%nat
  /\ frame_tid x86 echo_reply = next_tid x86 (idle [RecvFrom plc echo_reply])
  /\ exists w',
      modbus_WriteSingleRegister x86 (Some plc_device) 10 1234
        (idle [RecvFrom plc echo_reply])
      = Undefined w'.
Proof.
  assert (Hs : 0 <= g_ModbusSocket (idle [RecvFrom plc echo_reply]))
    by (simpl; lia).
  assert (Hp : 13 <= addr_of_outLen x86) by (simpl; lia).
  assert (Hl : (2 <= length echo_reply)%nat) by (simpl; lia).
  assert (Ht : frame_tid x86 echo_reply
               = next_tid x86 (idle [RecvFrom plc echo_reply]))
    by reflexivity.
  split; [exact Hs|]. split; [exact Hp|]. split; [exact Hl|].
  split; [exact Ht|].
  exact (WriteSingleRegister_undefined_on_reply x86 plc_device 10 1234
           echo_reply [] _ Hs Hp eq_refl Hl Ht).
Defined.

Lemma field16_request_addr (P : platform) (code pad a v : Z) :
  0 <= a < 65536 ->
  field16 P (request_bytes (host P) code pad a v) 2 = a.
Proof.
  intros Ha. pose proof (Z.div_mod a 256 ltac:(lia)).
  unfold field16, request_bytes.
  destruct (host P); cbn [store16 load16 app nth]; lia.
Qed.

Lemma field16_request_value (P : platform) (code pad a v : Z) :
  0 <= v < 65536 ->
  field16 P (request_bytes (host P) code pad a v) 4 = v.
Proof.
  intros Hv. pose proof (Z.div_mod v 256 ltac:(lia)).
  unfold field16, request_bytes.
  destruct (host P); cbn [store16 load16 app nth]; lia.
Qed.

Lemma field16_zeros (P : platform) (off : nat) :
  field16 P [0; 0; 0; 0; 0; 0] off = 0.
Proof.
  unfold field16.
  destruct off as [|[|[|[|[|[|off]]]]]]; destruct (host P);
    try reflexivity; cbn [nth load16];
    destruct off; reflexivity.
Qed.

Lemma swap16_is_zero (x : Z) :
  0 <= x < 65536 ->
  (uint16_t (LITTLE_TO_BIG_ENDIAN x) =? 0) = (x =? 0).
Proof.
  intros Hx. pose proof (swap16_range x Hx) as Hr.
  rewrite swap16_value by exact Hx.
  rewrite uint16_small by exact Hr.
  pose proof (Z.div_mod x 256 ltac:(lia)) as Hd.
  pose proof (Z.mod_pos_bound x 256 ltac:(lia)) as Hm.
  assert (Hq : 0 <= x / 256) by (apply Z.div_pos; lia).
  destruct (Z.eqb_spec x 0) as [->|Hne].
  - reflexivity.
  - apply Z.eqb_neq. lia.
Qed.

(** X17. What modbus_WriteSingleRegister reports when no reply comes: the
    request is compared with a reply structure that still holds the zeros
    of its memset, so the write of 0 to register 0 reports success and
    every other write reports -1, whatever the device did. *)
Theorem WriteSingleRegister_without_reply (P : platform)
  (d : modbus_device_t) (a v : Z) (w : world)
  (Hptr : 13 <= addr_of_outLen P) (Hfail : receive_fails w)
  (Ha : 0 <= a < 65536) (Hv : 0 <= v < 65536)
  (Htid : next_tid P w <> 0) :
  exists w',
    modbus_WriteSingleRegister P (Some d) a v w
    = Returns (if (a =? 0) && (v =? 0) then 0 else -1) w'.
Proof.
  unfold modbus_WriteSingleRegister.
  rewrite connect_and_send_any by assumption.
  unfold bind, modbus_RecvPacket, bind.
  destruct (RecvBlock_on_failure d (zeroed sizeof_request) sizeof_request
              (attempted P d
                 (request_bytes (host P) MB_WR_SIN_REG_CODE 0
                    (uint16_t (LITTLE_TO_BIG_ENDIAN a))
                    (uint16_t (LITTLE_TO_BIG_ENDIAN v))) w))
    as (w2 & -> & _).
  { apply attempted_receive_fails, Hfail. }
  change (zeroed sizeof_request) with [0; 0; 0; 0; 0; 0].
  cbv beta iota.
  replace (load16 (host P) 0 0) with 0 by (destruct (host P); reflexivity).
  rewrite uint16_small by apply next_tid_range.
  replace (0 =? next_tid P w) with false
    by (symmetry; apply Z.eqb_neq; lia).
  unfold ret.
  rewrite field16_request_addr, field16_request_value
    by apply uint16_nonneg.
  rewrite !field16_zeros.
  rewrite (swap16_is_zero a Ha), (swap16_is_zero v Hv).
  destruct (a =? 0), (v =? 0); cbn [negb orb andb];
    unfold modbus_DisconnectDevice, epicsMutexUnlock;
    eexists; reflexivity.
Qed.

Lemma WriteSingleRegister_without_reply_witness :
  13 <= addr_of_outLen x86 /\ receive_fails (idle [RecvError])
  /\ next_tid x86 (idle [RecvError]) <> 0
  /\ (exists w',
         modbus_WriteSingleRegister x86 (Some plc_device) 0 0
           (idle [RecvError])
         = Returns 0 w')
  /\ (exists w',
         modbus_WriteSingleRegister x86 (Some plc_device) 10 1234
           (idle [RecvError])
         = Returns (-1) w').
Proof.
  assert (Hp : 13 <= addr_of_outLen x86) by (simpl; lia).
  assert (Hf : receive_fails (idle [RecvError]))
    by (right; right; exists []; reflexivity).
  assert (Ht : next_tid x86 (idle [RecvError]) <> 0)
    by (vm_compute; discriminate).
  split; [exact Hp|]. split; [exact Hf|]. split; [exact Ht|]. split.
  - exact (WriteSingleRegister_without_reply x86 plc_device 0 0
             (idle [RecvError]) Hp Hf ltac:(lia) ltac:(lia) Ht).
  - exact (WriteSingleRegister_without_reply x86 plc_device 10 1234
             (idle [RecvError]) Hp Hf ltac:(lia) ltac:(lia) Ht).
Defined.

(** ** The request on the wire *)

Lemma store16_swapped (e : endian) (a : Z) :
  0 <= a < 65536 ->
  store16 e (uint16_t (LITTLE_TO_BIG_ENDIAN a))
  = match e with
    | LittleEndian => [a / 256; a mod 256]
    | BigEndian => [a mod 256; a / 256]
    end.
Proof.
  intros Ha. pose proof (swap16_range a Ha) as Hr.
  rewrite swap16_value in * by exact Ha.
  rewrite uint16_small by exact Hr.
  pose proof (Z.mod_pos_bound a 256 ltac:(lia)) as Hm.
  assert (Hq : 0 <= a / 256 < 256)
    by (split; [apply Z.div_pos; lia|apply Z.div_lt_upper_bound; lia]).
  assert (H1 : (256 * (a mod 256) + a / 256) mod 256 = a / 256).
  { rewrite Z.add_comm, Z.mul_comm, Z.mod_add by lia.
    apply Z.mod_small. exact Hq. }
  assert (H2 : (256 * (a mod 256) + a / 256) / 256 = a mod 256).
  { rewrite Z.add_comm, Z.mul_comm, Z.div_add by lia.
    rewrite Z.div_small by exact Hq. reflexivity. }
  destruct e; cbn [store16]; now rewrite H1, H2.
Qed.

(** X18. The request of a write as it leaves the host: behind the header
    come six bytes, not the five of a Modbus request, since the padding
    byte of the structure travels behind the function code.  Address and
    value are big-endian on a little-endian host; on a big-endian host the
    unconditional swap puts them on the wire low byte first. *)
Theorem write_request_on_the_wire (P : platform) (d : modbus_device_t)
  (a v : Z) (w : world)
  (Hsock : 0 <= g_ModbusSocket w) (Hptr : 13 <= addr_of_outLen P)
  (Ha : 0 <= a < 65536) (Hv : 0 <= v < 65536) :
  wire (final_world (modbus_WriteSingleRegister P (Some d) a v w))
  = wire w
    ++ [(addr d,
         header_bytes (host P) (mk_header (next_tid P w) 0 7 255)
         ++ [MB_WR_SIN_REG_CODE; 0]
         ++ match host P with
            | LittleEndian => [a / 256; a mod 256; v / 256; v mod 256]
            | BigEndian => [a mod 256; a / 256; v mod 256; v / 256]
            end)].
Proof.
  unfold modbus_WriteSingleRegister.
  rewrite connect_and_send by assumption.
  set (w1 := requested P d _ w).
  assert (Hw1 : wire w1
                = wire w
                  ++ [(addr d,
                       header_bytes (host P)
                         (mk_header (next_tid P w) 0 7 255)
                       ++ [MB_WR_SIN_REG_CODE; 0]
                       ++ match host P with
                          | LittleEndian =>
                              [a / 256; a mod 256; v / 256; v mod 256]
                          | BigEndian =>
                              [a mod 256; a / 256; v mod 256; v / 256]
                          end)]).
  { unfold w1, requested, request_bytes. cbn [wire].
    rewrite !store16_swapped by assumption.
    destruct (host P); reflexivity. }
  rewrite <- Hw1.
  unfold bind.
  match goal with
  | |- context [modbus_RecvPacket P ?dv ?b ?l ?t w1] =>
      pose proof (RecvPacket_same_link P dv b l t w1) as (_ & _ & Hw);
      destruct (modbus_RecvPacket P dv b l t w1) as [[r buf] w2|w2]
  end; cbn [final_world] in Hw; [|exact Hw].
  unfold modbus_DisconnectDevice, epicsMutexUnlock, ret.
  branch; cbn [final_world wire]; exact Hw.
Qed.

Lemma write_request_on_the_wire_witness :
  0 <= g_ModbusSocket (idle []) /\ 13 <= addr_of_outLen x86
  /\ 0 <= 10 < 65536 /\ 0 <= 1234 < 65536
  /\ wire (final_world
             (modbus_WriteSingleRegister x86 (Some plc_device) 10 1234
                (idle [])))
     = [(plc, [0x34; 0x12; 0; 0; 7; 0; 255; 6; 0; 0; 10; 0x04; 0xD2])]
  /\ wire (final_world
             (modbus_WriteSingleRegister m68k (Some plc_device) 10 1234
                (idle [])))
     = [(plc, [0x12; 0x34; 0; 0; 0; 7; 255; 6; 0; 10; 0; 0xD2; 0x04])].
Proof.
  assert (Hs : 0 <= g_ModbusSocket (idle [])) by (simpl; lia).
  assert (Hp : 13 <= addr_of_outLen x86) by (simpl; lia).
  assert (Ha : 0 <= 10 < 65536) by lia.
  assert (Hv : 0 <= 1234 < 65536) by lia.
  split; [exact Hs|]. split; [exact Hp|]. split; [exact Ha|].
  split; [exact Hv|]. split.
  - etransitivity;
      [exact (write_request_on_the_wire x86 plc_device 10 1234 (idle [])
                Hs Hp Ha Hv)|reflexivity].
  - etransitivity;
      [exact (write_request_on_the_wire m68k plc_device 10 1234 (idle [])
                Hs Hp Ha Hv)|reflexivity].
Defined.

(** ** The creation of devices *)

Lemma htons_MODBUS_PORT (P : platform) :
  htons P MODBUS_PORT
  = match host P with LittleEndian => 0xF601 | BigEndian => 502 end.
Proof. unfold htons. destruct (host P); reflexivity. Qed.

(** X20. modbus_CreateDevice keeps of the address it is given the IP
    address and the padding only: family and port become AF_INET and 502
    in network order, whatever the caller had set, and the requests for
    the device so created go to that address.  The function never returns
    NULL: the structure is written before the pointer is tested. *)
Theorem created_device_is_addressed_at_port_502 (P : platform)
  (ip : sockaddr_in) (m : epicsMutexId) (pdu : list byte) (w : world)
  (Hsock : 0 <= g_ModbusSocket w)
  (Hlen : Z.of_nat (length pdu) < 65535)
  (Hptr : 7 + Z.of_nat (length pdu) <= addr_of_outLen P) :
  let expected :=
    mk_sockaddr AF_INET
      (match host P with LittleEndian => 0xF601 | BigEndian => 502 end)
      (sin_addr ip) (sin_zero ip) in
  (exists d w',
      modbus_CreateDevice P (Some ip) true m w = Returns (Some d) w
      /\ mutex d = m /\ addr d = expected
      /\ modbus_SendPacket P (Some d) pdu (Z.of_nat (length pdu)) w
         = Returns (next_tid P w) w'
      /\ wire w' = wire w ++ [(expected, frame_of P (next_tid P w) pdu)])
  /\ (forall ip' allocated r w',
         modbus_CreateDevice P ip' allocated m w = Returns r w' ->
         r <> None).
Proof.
  intros expected. split.
  - eexists. eexists. split; [reflexivity|].
    cbn [mutex addr]. rewrite htons_MODBUS_PORT. fold expected.
    split; [reflexivity|]. split; [reflexivity|].
    rewrite SendPacket_effect by assumption.
    rewrite socket_open by assumption.
    split; reflexivity.
  - intros ip' allocated r w'. unfold modbus_CreateDevice.
    destruct ip' as [a|]; [|discriminate].
    destruct allocated; [|discriminate].
    intros H. injection H as <- _. discriminate.
Qed.

Lemma created_device_is_addressed_at_port_502_witness :
  0 <= g_ModbusSocket (idle [])
  /\ Z.of_nat (length [6; 0; 0; 10; 4; 210]) < 65535
  /\ 7 + Z.of_nat (length [6; 0; 0; 10; 4; 210]) <= addr_of_outLen x86
  /\ exists d w',
      modbus_CreateDevice x86 (Some (mk_sockaddr 0 8080 0x0A000001 0)) true
        0%nat (idle [])
      = Returns (Some d) (idle [])
      /\ mutex d = 0%nat
      /\ addr d = mk_sockaddr 2 0xF601 0x0A000001 0
      /\ modbus_SendPacket x86 (Some d) [6; 0; 0; 10; 4; 210] 6 (idle [])
         = Returns 0x1234 w'
      /\ wire w'
         = [(mk_sockaddr 2 0xF601 0x0A000001 0,
             [0x34; 0x12; 0; 0; 7; 0; 255; 6; 0; 0; 10; 4; 210])].
Proof.
  assert (Hs : 0 <= g_ModbusSocket (idle [])) by (simpl; lia).
  assert (Hl : Z.of_nat (length [6; 0; 0; 10; 4; 210]) < 65535)
    by (simpl; lia).
  assert (Hp : 7 + Z.of_nat (length [6; 0; 0; 10; 4; 210])
               <= addr_of_outLen x86) by (simpl; lia).
  split; [exact Hs|]. split; [exact Hl|]. split; [exact Hp|].
  destruct (created_device_is_addressed_at_port_502 x86
              (mk_sockaddr 0 8080 0x0A000001 0) 0%nat [6; 0; 0; 10; 4; 210]
              (idle []) Hs Hl Hp) as [H _].
  exact H.
Defined.

(** ** What the two swapping loops do to the reply *)

Lemma nth_poke_outside (buf : list byte) (off : nat) (bs : list byte)
  (k : nat) :
  (off + length bs <= length buf)%nat ->
  (k < off \/ off + length bs <= k)%nat ->
  nth k (poke buf off bs) 0 = nth k buf 0.
Proof.
  intros Hl [Hk|Hk].
  - apply nth_poke_before. lia.
  - unfold poke.
    rewrite app_nth2 by (rewrite length_firstn; lia).
    rewrite length_firstn.
    rewrite app_nth2 by lia.
    rewrite nth_skipn. f_equal. lia.
Qed.

Lemma nth_poke_inside (buf : list byte) (off : nat) (bs : list byte)
  (j : nat) :
  (off <= length buf)%nat -> (j < length bs)%nat ->
  nth (off + j) (poke buf off bs) 0 = nth j bs 0.
Proof.
  intros Hl Hj. unfold poke.
  rewrite app_nth2 by (rewrite length_firstn; lia).
  rewrite length_firstn.
  rewrite app_nth1 by lia.
  f_equal. lia.
Qed.

(** The loop of modbus_ReadInputRegisters, run to its end inside the
    buffer: the bytes at the even offsets from 2 up to the bound are
    cleared and every other byte is kept. *)
Lemma swap_bytes_spec (fuel : nat) :
  forall (i len : Z) (buf : list byte),
    0 <= i -> len <= Z.of_nat (length buf) ->
    len - i <= 2 * Z.of_nat fuel ->
    (forall j, i <= Z.of_nat j < len -> 0 <= nth j buf 0 < 256) ->
    exists buf',
      swap_bytes fuel i len buf = Some buf'
      /\ length buf' = length buf
      /\ forall j,
          nth j buf' 0
          = if (i <=? Z.of_nat j) && (Z.of_nat j <? len)
               && Z.even (Z.of_nat j - i)
            then 0 else nth j buf 0.
Proof.
  assert (Hdone : forall (i len : Z) (buf : list byte) (j : nat),
             len <= i ->
             nth j buf 0
             = if (i <=? Z.of_nat j) && (Z.of_nat j <? len)
                  && Z.even (Z.of_nat j - i)
               then 0 else nth j buf 0).
  { intros i len buf j H.
    destruct (Z.leb_spec i (Z.of_nat j)); [|reflexivity].
    destruct (Z.ltb_spec (Z.of_nat j) len); [lia|reflexivity]. }
  induction fuel as [|fuel IH]; intros i len buf Hi Hlen Hfuel Hb;
    cbn [swap_bytes]; destruct (Z.ltb_spec i len) as [Hlt|Hge];
    try (exists buf; split; [reflexivity|]; split; [reflexivity|];
         intros j; apply Hdone; exact Hge).
  - lia.
  - assert (Hin : (Z.to_nat i < length buf)%nat) by lia.
    rewrite (nth_error_nth' buf 0 Hin).
    rewrite swap_of_a_byte by (apply Hb; lia).
    assert (Hp : length (poke buf (Z.to_nat i) [0]) = length buf)
      by (apply poke_length; cbn [length]; lia).
    destruct (IH (i + 2) len (poke buf (Z.to_nat i) [0]))
      as (buf' & Hs & Hl & Hn).
    + lia.
    + rewrite Hp. exact Hlen.
    + lia.
    + intros j Hj. rewrite nth_poke_outside; [apply Hb; lia| |];
        cbn [length]; lia.
    + exists buf'. split; [exact Hs|]. split; [congruence|].
      intros j. rewrite Hn.
      destruct (Z.eq_dec (Z.of_nat j) i) as [He|Hne].
      * subst i. rewrite Nat2Z.id.
        replace (Z.of_nat j + 2 <=? Z.of_nat j) with false
          by (symmetry; apply Z.leb_gt; lia).
        rewrite Z.leb_refl, Z.sub_diag.
        replace (Z.of_nat j <? len) with true
          by (symmetry; apply Z.ltb_lt; lia).
        cbn [andb Z.even].
        apply nth_poke_at. lia.
      * rewrite nth_poke_outside by (cbn [length]; lia).
        replace (Z.of_nat j - (i + 2)) with (Z.of_nat j - i - 2) by ring.
        rewrite Z.even_sub. cbn [Z.even].
        replace (Bool.eqb (Z.even (Z.of_nat j - i)) true)
          with (Z.even (Z.of_nat j - i))
          by (destruct (Z.even (Z.of_nat j - i)); reflexivity).
        destruct (Z.leb_spec (i + 2) (Z.of_nat j)),
                 (Z.leb_spec i (Z.of_nat j)); try lia; try reflexivity.
        replace (Z.of_nat j - i) with 1 by lia.
        destruct (Z.of_nat j <? len); reflexivity.
Qed.

Lemma swap_pair (e : endian) (b0 b1 : byte) :
  0 <= b0 < 256 -> 0 <= b1 < 256 ->
  store16 e (uint16_t (BIG_TO_LITTLE_ENDIAN (load16 e b0 b1))) = [b1; b0].
Proof.
  intros H0 H1.
  assert (Hv : 0 <= load16 e b0 b1 < 65536) by (destruct e; cbn [load16]; lia).
  replace (BIG_TO_LITTLE_ENDIAN (load16 e b0 b1))
    with (LITTLE_TO_BIG_ENDIAN (load16 e b0 b1))
    by (unfold BIG_TO_LITTLE_ENDIAN, LITTLE_TO_BIG_ENDIAN; apply Z.lor_comm).
  rewrite store16_swapped by exact Hv.
  destruct e; cbn [load16].
  - replace (b0 + 256 * b1) with (b0 + b1 * 256) by ring.
    rewrite Z.div_add, Z.mod_add by lia.
    rewrite Z.div_small, Z.mod_small by lia. reflexivity.
  - replace (256 * b0 + b1) with (b1 + b0 * 256) by ring.
    rewrite Z.div_add, Z.mod_add by lia.
    rewrite Z.div_small, Z.mod_small by lia. reflexivity.
Qed.

(** The loop of modbus_ReadHoldingRegisters, run to its end inside the
    buffer: it exchanges the two bytes of every second 16-bit object from
    index [i] on and keeps the rest.  Byte j belongs to the object of index
    j / 2; its partner in that object is byte 4 * (j / 2) + 1 - j. *)
Lemma swap_words_spec (P : platform) (fuel : nat) :
  forall (i len : Z) (buf : list byte),
    0 <= i -> 2 * len <= Z.of_nat (length buf) ->
    len - i <= 2 * Z.of_nat fuel ->
    (forall j, 2 * i <= Z.of_nat j < 2 * len -> 0 <= nth j buf 0 < 256) ->
    exists buf',
      swap_words P fuel i len buf = Some buf'
      /\ length buf' = length buf
      /\ forall j,
          nth j buf' 0
          = if (i <=? Z.of_nat j / 2) && (Z.of_nat j / 2 <? len)
               && Z.even (Z.of_nat j / 2 - i)
            then nth (Z.to_nat (4 * (Z.of_nat j / 2) + 1 - Z.of_nat j)) buf 0
            else nth j buf 0.
Proof.
  assert (Hdone : forall (i len : Z) (buf : list byte) (j : nat),
             len <= i ->
             nth j buf 0
             = if (i <=? Z.of_nat j / 2) && (Z.of_nat j / 2 <? len)
                  && Z.even (Z.of_nat j / 2 - i)
               then nth (Z.to_nat (4 * (Z.of_nat j / 2) + 1 - Z.of_nat j))
                        buf 0
               else nth j buf 0).
  { intros i len buf j H.
    destruct (Z.leb_spec i (Z.of_nat j / 2)); [|reflexivity].
    destruct (Z.ltb_spec (Z.of_nat j / 2) len); [lia|reflexivity]. }
  induction fuel as [|fuel IH]; intros i len buf Hi Hlen Hfuel Hb;
    cbn [swap_words]; destruct (Z.ltb_spec i len) as [Hlt|Hge];
    try (exists buf; split; [reflexivity|]; split; [reflexivity|];
         intros j; apply Hdone; exact Hge).
  - lia.
  - assert (Hin0 : (Z.to_nat (2 * i) < length buf)%nat) by lia.
    assert (Hin1 : (Z.to_nat (2 * i + 1) < length buf)%nat) by lia.
    rewrite (nth_error_nth' buf 0 Hin0), (nth_error_nth' buf 0 Hin1).
    rewrite swap_pair by (apply Hb; lia).
    set (b0 := nth (Z.to_nat (2 * i)) buf 0).
    set (b1 := nth (Z.to_nat (2 * i + 1)) buf 0).
    assert (Hp : length (poke buf (Z.to_nat (2 * i)) [b1; b0]) = length buf)
      by (apply poke_length; cbn [length]; lia).
    destruct (IH (i + 2) len (poke buf (Z.to_nat (2 * i)) [b1; b0]))
      as (buf' & Hs & Hl & Hn).
    + lia.
    + rewrite Hp. exact Hlen.
    + lia.
    + intros j Hj. rewrite nth_poke_outside; [apply Hb; lia| |];
        cbn [length]; lia.
    + exists buf'. split; [exact Hs|]. split; [congruence|].
      intros j. rewrite Hn.
      pose proof (Z.div_mod (Z.of_nat j) 2 ltac:(lia)) as Hd.
      pose proof (Z.mod_pos_bound (Z.of_nat j) 2 ltac:(lia)) as Hr.
      set (q := Z.of_nat j / 2) in *.
      set (r := Z.of_nat j mod 2) in *.
      destruct (Z.eq_dec q i) as [He|Hne].
      * replace (i + 2 <=? q) with false by (symmetry; apply Z.leb_gt; lia).
        replace (i <=? q) with true by (symmetry; apply Z.leb_le; lia).
        replace (q <? len) with true by (symmetry; apply Z.ltb_lt; lia).
        replace (q - i) with 0 by lia.
        cbn [andb Z.even].
        assert (Hj : r = 0 \/ r = 1) by lia.
        destruct Hj as [Hj|Hj].
        -- replace j with (Z.to_nat (2 * i) + 0)%nat by lia.
           rewrite nth_poke_inside by (cbn [length]; lia).
           cbn [nth]. subst b1. f_equal. lia.
        -- replace j with (Z.to_nat (2 * i) + 1)%nat at 1 by lia.
           rewrite nth_poke_inside by (cbn [length]; lia).
           cbn [nth]. subst b0. f_equal. lia.
      * rewrite !nth_poke_outside by (cbn [length]; lia).
        replace (q - (i + 2)) with (q - i - 2) by ring.
        rewrite Z.even_sub. cbn [Z.even].
        replace (Bool.eqb (Z.even (q - i)) true) with (Z.even (q - i))
          by (destruct (Z.even (q - i)); reflexivity).
        destruct (Z.leb_spec (i + 2) q), (Z.leb_spec i q);
          try lia; try reflexivity.
        replace (q - i) with 1 by lia.
        destruct (q <? len); reflexivity.
Qed.

(** ** The bounds test of modbus_ConstructPacket *)

(** X23. The bounds test of modbus_ConstructPacket compares the pointer
    [pOutLen], not the capacity it points to.  With the address of that
    object above the length of the frame, the capacity the caller declares
    has no influence on the call, and an output buffer too small for
    header and PDU is not refused with -1: the copy runs over its end. *)
Theorem ConstructPacket_ignores_capacity (P : platform)
  (pdu out : list byte) (cap t0 : Z) (w : world)
  (Hptr : 7 + Z.of_nat (length pdu) <= addr_of_outLen P) :
  (forall cap',
      modbus_ConstructPacket P (Some pdu) (Z.of_nat (length pdu)) (Some out)
        (addr_of_outLen P, cap) t0 w
      = modbus_ConstructPacket P (Some pdu) (Z.of_nat (length pdu))
          (Some out) (addr_of_outLen P, cap') t0 w)
  /\ (Z.of_nat (length out) < 7 + Z.of_nat (length pdu) ->
      exists w',
        modbus_ConstructPacket P (Some pdu) (Z.of_nat (length pdu))
          (Some out) (addr_of_outLen P, cap) t0 w
        = Undefined w').
Proof.
  split.
  - intros cap'. unfold modbus_ConstructPacket. cbn [fst snd].
    replace (addr_of_outLen P <? sizeof_mbap_header + Z.of_nat (length pdu))
      with false by (symmetry; apply Z.ltb_ge; exact Hptr).
    reflexivity.
  - intros Hshort. unfold modbus_ConstructPacket. cbn [fst snd].
    replace (addr_of_outLen P <? sizeof_mbap_header + Z.of_nat (length pdu))
      with false by (symmetry; apply Z.ltb_ge; exact Hptr).
    unfold bind, rand.
    destruct (memcpy_at out 0 _ sizeof_mbap_header) as [out1|] eqn:E.
    + apply memcpy_at_length in E.
      rewrite memcpy_at_too_long
        by (rewrite E; unfold sizeof_mbap_header; lia).
      eexists. reflexivity.
    + eexists. reflexivity.
Qed.

Lemma ConstructPacket_ignores_capacity_witness :
  7 + Z.of_nat (length [6; 0; 0; 10; 4; 210]) <= addr_of_outLen x86
  /\ modbus_ConstructPacket x86 (Some [6; 0; 0; 10; 4; 210]) 6
       (Some (repeat 0 8%nat)) (addr_of_outLen x86, 8) 0 (idle [])
     = modbus_ConstructPacket x86 (Some [6; 0; 0; 10; 4; 210]) 6
         (Some (repeat 0 8%nat)) (addr_of_outLen x86, 100) 0 (idle [])
  /\ exists w',
      modbus_ConstructPacket x86 (Some [6; 0; 0; 10; 4; 210]) 6
        (Some (repeat 0 8%nat)) (addr_of_outLen x86, 8) 0 (idle [])
      = Undefined w'.
Proof.
  assert (Hp : 7 + Z.of_nat (length [6; 0; 0; 10; 4; 210])
               <= addr_of_outLen x86) by (simpl; lia).
  split; [exact Hp|].
  destruct (ConstructPacket_ignores_capacity x86 [6; 0; 0; 10; 4; 210]
              (repeat 0 8%nat) 8 0 (idle []) Hp) as [H1 H2].
  split; [exact (H1 100)|].
  apply H2. simpl. lia.
Defined.

(** ** The receive that fails in a coil read *)

(** X24. modbus_ReadCoils is the one read that tells a failed receive:
    when nothing can be received, every return of it is -1 with the
    caller's buffer untouched, and it does return so whenever the two
    bytes malloc left at the start of the reply buffer differ from the
    pending id. *)
Theorem ReadCoils_reports_failed_receive (P : platform)
  (d : modbus_device_t) (a ncoils : Z) (out : list byte) (n : byte)
  (w : world)
  (Hptr : 13 <= addr_of_outLen P) (Hfail : receive_fails w)
  (Hcount : ncoils <= 0x7D0) :
  (forall r o w',
      modbus_ReadCoils P (Some d) a ncoils (Some out) (Some n) w
      = Returns (r, o) w' ->
      r = -1 /\ o = Some out)
  /\ (load16 (host P) (fresh P 0) (fresh P 1) <> next_tid P w ->
      exists w',
        modbus_ReadCoils P (Some d) a ncoils (Some out) (Some n) w
        = Returns (-1, Some out) w').
Proof.
  set (k := uint16_t (LITTLE_TO_BIG_ENDIAN ncoils)).
  assert (Hk : 0 <= k < 65536) by apply uint16_nonneg.
  assert (Hstep : modbus_ReadCoils P (Some d) a ncoils (Some out) (Some n) w
                  = ('(r, pBuf) <-
                       modbus_RecvPacket P (Some d) (malloc P (k + 2))
                         (k + 2) (next_tid P w) ;;
                     if -1 <? r then
                       if nth 0 pBuf 0 =? 0x81
                       then ret (nth 0 pBuf 0 + 1, Some out)
                       else
                         match memcpy_at out 0 (skipn 2 pBuf) (k + 2 - 2) with
                         | None => undefined
                         | Some out' =>
                             modbus_DisconnectDevice (Some d) ;;;
                             ret (0, Some out')
                         end
                     else ret (-1, Some out))
                      (attempted P d
                         (request_bytes (host P) MB_RD_COILS_CODE (fresh P 1)
                            (uint16_t (LITTLE_TO_BIG_ENDIAN a)) k) w)).
  { unfold modbus_ReadCoils.
    replace (0x7D0 <? ncoils) with false by (symmetry; apply Z.ltb_ge; lia).
    rewrite connect_and_send_any by assumption. reflexivity. }
  rewrite Hstep. clear Hstep.
  set (w1 := attempted P d _ w).
  assert (Hf1 : receive_fails w1) by (apply attempted_receive_fails, Hfail).
  assert (Hlen : 2 <= Z.of_nat (length (malloc P (k + 2))) < 2 ^ 31)
    by (rewrite malloc_length; lia).
  split.
  - intros r o w'. unfold bind.
    destruct (RecvPacket_failed P d (malloc P (k + 2)) (k + 2) (next_tid P w)
                w1 Hf1 Hlen) as [(w2 & -> & _)|(w2 & ->)]; [|discriminate].
    cbn [Z.ltb Z.compare]. unfold ret.
    intros H. injection H as <- <- _. auto.
  - intros Hstale. unfold bind.
    destruct (RecvBlock_on_failure d (malloc P (k + 2)) (k + 2) w1 Hf1)
      as (w2 & Hb & _).
    unfold modbus_RecvPacket, bind. rewrite Hb.
    pose proof (nth_malloc P (k + 2) 0 ltac:(lia)) as H0.
    pose proof (nth_malloc P (k + 2) 1 ltac:(lia)) as H1.
    destruct (malloc P (k + 2)) as [|b0 [|b1 m]] eqn:Em;
      cbn [length] in Hlen; try lia.
    cbn [nth] in H0, H1. subst b0 b1.
    rewrite uint16_small by apply next_tid_range.
    replace (load16 (host P) (fresh P 0) (fresh P 1) =? next_tid P w)
      with false by (symmetry; apply Z.eqb_neq; exact Hstale).
    exists w2. reflexivity.
Qed.

Lemma ReadCoils_reports_failed_receive_witness :
  13 <= addr_of_outLen x86 /\ receive_fails (idle [RecvError])
  /\ 8 <= 0x7D0
  /\ exists w',
      modbus_ReadCoils x86 (Some plc_device) 0 8 (Some [7; 7]) (Some 0)
        (idle [RecvError])
      = Returns (-1, Some [7; 7]) w'.
Proof.
  assert (Hp : 13 <= addr_of_outLen x86) by (simpl; lia).
  assert (Hf : receive_fails (idle [RecvError]))
    by (right; right; exists []; reflexivity).
  assert (Hc : 8 <= 0x7D0) by lia.
  split; [exact Hp|]. split; [exact Hf|]. split; [exact Hc|].
  destruct (ReadCoils_reports_failed_receive x86 plc_device 0 8 [7; 7] 0
              (idle [RecvError]) Hp Hf Hc) as [_ H].
  apply H. vm_compute. discriminate.
Defined.

(** X27. A late reply, a frame of the device with another transaction id
    than the pending one, is neither passed over nor reported by the
    register reads and the read of discrete inputs: modbus_RecvPacket
    returns -1, the operation takes it for a length and runs out of the
    reply buffer.  Only a first byte of the frame that equals the
    exception code of the operation, or an allocation whose address ends
    in 0x82, makes the operation return. *)
Theorem late_reply_is_not_skipped (P : platform) (d : modbus_device_t)
  (a count : Z) (out : list byte) (n : Z) (n' : byte) (frame : list byte)
  (rest : list recv_event) (w : world)
  (Hsock : 0 <= g_ModbusSocket w) (Hptr : 13 <= addr_of_outLen P)
  (Hin : inbox w = RecvFrom (addr d) frame :: rest)
  (Hid : frame_tid P frame <> next_tid P w)
  (Hlen : 2 <= Z.of_nat (length frame)
          <= uint16_t (LITTLE_TO_BIG_ENDIAN count) + 2) :
  (nth 0 frame 0 <> 0x83 ->
   exists w',
     modbus_ReadHoldingRegisters P (Some d) a count (Some out) (Some n) w
     = Undefined w')
  /\ (nth 0 frame 0 <> 0x84 ->
      exists w',
        modbus_ReadInputRegisters P (Some d) a count (Some out) (Some n') w
        = Undefined w')
  /\ (uint8_t (addr_of_malloc P) <> 0x82 ->
      exists w',
        modbus_ReadDiscreteInputs P (Some d) a count (Some out) (Some n') w
        = Undefined w').
Proof.
  set (k := uint16_t (LITTLE_TO_BIG_ENDIAN count)) in *.
  assert (Hk : 0 <= k < 65536) by apply uint16_nonneg.
  assert (Hrecv : forall request L,
             k + 2 <= L < 2 ^ 31 ->
             modbus_RecvPacket P (Some d) (malloc P L) L (next_tid P w)
               (requested P d request w)
             = Returns (-1, frame ++ skipn (length frame) (malloc P L))
                 (after_receive (requested P d request w) rest)).
  { intros request L HL.
    destruct (RecvPacket_on_frame P d (malloc P L) L (next_tid P w) (addr d)
                frame rest (requested P d request w)) as [H _].
    - exact Hsock.
    - exact Hin.
    - rewrite malloc_length. lia.
    - lia.
    - lia.
    - apply H. rewrite uint16_small by apply next_tid_range. exact Hid. }
  assert (H0 : forall tail, nth 0 (frame ++ tail) 0 = nth 0 frame 0)
    by (intros tail; apply app_nth1; lia).
  split; [|split]; intros Hcode.
  - unfold modbus_ReadHoldingRegisters.
    rewrite connect_and_send by assumption.
    rewrite tid_not_negative. fold (next_tid P w). fold k.
    unfold bind. rewrite Hrecv by lia.
    unfold modbus_DisconnectDevice, epicsMutexUnlock.
    rewrite H0.
    replace (nth 0 frame 0 =? 0x83) with false
      by (symmetry; apply Z.eqb_neq; exact Hcode).
    rewrite swap_words_overrun; [eexists; reflexivity|].
    rewrite size_t_minus_one, length_app, length_skipn, malloc_length. lia.
  - unfold modbus_ReadInputRegisters.
    rewrite connect_and_send by assumption.
    rewrite tid_not_negative. fold (next_tid P w). fold k.
    unfold bind. rewrite Hrecv by lia.
    rewrite H0.
    replace (nth 0 frame 0 =? 0x84) with false
      by (symmetry; apply Z.eqb_neq; exact Hcode).
    rewrite swap_bytes_overrun; [eexists; reflexivity|].
    rewrite size_t_minus_one, length_app, length_skipn, malloc_length. lia.
  - unfold modbus_ReadDiscreteInputs.
    rewrite connect_and_send by assumption.
    rewrite tid_not_negative. fold (next_tid P w). fold k.
    unfold bind. rewrite Hrecv by lia.
    unfold modbus_DisconnectDevice, epicsMutexUnlock.
    replace (uint8_t (addr_of_malloc P) =? 0x82) with false
      by (symmetry; apply Z.eqb_neq; exact Hcode).
    rewrite memcpy_at_short_source; [eexists; reflexivity|].
    rewrite size_t_minus_one, length_skipn, length_app, length_skipn,
      malloc_length.
    unfold size_t. rewrite Z.mod_small by lia. lia.
Qed.

Lemma late_reply_is_not_skipped_witness :
  0 <= g_ModbusSocket (idle [RecvFrom plc reply_foreign])
  /\ 13 <= addr_of_outLen x86
  /\ frame_tid x86 reply_foreign
     <> next_tid x86 (idle [RecvFrom plc reply_foreign])
  /\ (exists w',
         modbus_ReadHoldingRegisters x86 (Some plc_device) 0 8
           (Some (repeat 0 16%nat)) (Some 0)
           (idle [RecvFrom plc reply_foreign])
         = Undefined w')
  /\ (exists w',
         modbus_ReadInputRegisters x86 (Some plc_device) 0 8
           (Some (repeat 0 16%nat)) (Some 0)
           (idle [RecvFrom plc reply_foreign])
         = Undefined w')
  /\ (exists w',
         modbus_ReadDiscreteInputs x86 (Some plc_device) 0 8
           (Some (repeat 0 16%nat)) (Some 0)
           (idle [RecvFrom plc reply_foreign])
         = Undefined w').
Proof.
  assert (Hs : 0 <= g_ModbusSocket (idle [RecvFrom plc reply_foreign]))
    by (simpl; lia).
  assert (Hp : 13 <= addr_of_outLen x86) by (simpl; lia).
  assert (Ht : frame_tid x86 reply_foreign
               <> next_tid x86 (idle [RecvFrom plc reply_foreign]))
    by (vm_compute; discriminate).
  assert (Hl : 2 <= Z.of_nat (length reply_foreign)
               <= uint16_t (LITTLE_TO_BIG_ENDIAN 8) + 2)
    by (vm_compute; split; discriminate).
  split; [exact Hs|]. split; [exact Hp|]. split; [exact Ht|].
  destruct (late_reply_is_not_skipped x86 plc_device 0 8 (repeat 0 16%nat)
              0 0 reply_foreign [] _ Hs Hp eq_refl Ht Hl) as (H1 & H2 & H3).
  split; [apply H1; vm_compute; discriminate|].
  split; [apply H2; vm_compute; discriminate|].
  apply H3. vm_compute. discriminate.
Defined.

(** ** C5: what the two loops make of the registers *)

(** C5 (fails on the code). The registers of a reply lie in the reply
    buffer from byte 2 on, high byte first.  The loop of
    modbus_ReadHoldingRegisters runs inside the buffer and exchanges the
    bytes of every second register only: read by the host, the registers
    of odd number have their value on a little-endian host and those of
    even number, register 0 first of all, have it with the bytes
    exchanged; on a big-endian host it is the other way round.  The loop
    of modbus_ReadInputRegisters clears the high byte of every register
    instead of exchanging the two. *)
Theorem register_values_not_delivered (P : platform) (pBuf : list byte)
  (len : Z)
  (Hbytes : Forall (fun b : byte => 0 <= b < 256) pBuf)
  (Hroom : 2 * len <= Z.of_nat (length pBuf)) :
  (exists swapped,
      swap_words P (length pBuf) 2 len pBuf = Some swapped
      /\ forall q, Z.of_nat q + 1 < len ->
           let hi := nth (2 * q + 2) pBuf 0 in
           let lo := nth (2 * q + 3) pBuf 0 in
           load16 (host P) (nth (2 * q + 2) swapped 0)
                           (nth (2 * q + 3) swapped 0)
           = match host P, Z.odd (Z.of_nat q) with
             | LittleEndian, true | BigEndian, false => 256 * hi + lo
             | LittleEndian, false | BigEndian, true => 256 * lo + hi
             end)
  /\ (exists cleared,
         swap_bytes (length pBuf) 2 len pBuf = Some cleared
         /\ forall q, Z.of_nat (2 * q + 3) < len ->
              let lo := nth (2 * q + 3) pBuf 0 in
              load16 (host P) (nth (2 * q + 2) cleared 0)
                              (nth (2 * q + 3) cleared 0)
              = match host P with
                | LittleEndian => 256 * lo
                | BigEndian => lo
                end).
Proof.
  assert (Hb : forall j, (j < length pBuf)%nat -> 0 <= nth j pBuf 0 < 256).
  { intros j Hj. rewrite Forall_forall in Hbytes.
    apply Hbytes, nth_In, Hj. }
  split.
  - destruct (swap_words_spec P (length pBuf) 2 len pBuf)
      as (buf' & Hs & Hl & Hn); [lia|lia|lia|intros j Hj; apply Hb; lia|].
    exists buf'. split; [exact Hs|].
    intros q Hq hi lo. rewrite !Hn.
    replace (Z.of_nat (2 * q + 2) / 2) with (Z.of_nat q + 1)
      by (replace (Z.of_nat (2 * q + 2)) with ((Z.of_nat q + 1) * 2) by lia;
          now rewrite Z.div_mul by lia).
    replace (Z.of_nat (2 * q + 3) / 2) with (Z.of_nat q + 1)
      by (replace (Z.of_nat (2 * q + 3))
            with (1 + (Z.of_nat q + 1) * 2) by lia;
          rewrite Z.div_add by lia; reflexivity).
    replace (Z.of_nat q + 1 <? len) with true
      by (symmetry; apply Z.ltb_lt; lia).
    replace (Z.of_nat q + 1 - 2) with (Z.of_nat q - 1) by ring.
    rewrite Z.even_sub. cbn [Z.even].
    replace (Bool.eqb (Z.even (Z.of_nat q)) false)
      with (Z.odd (Z.of_nat q))
      by (rewrite <- Z.negb_even; destruct (Z.even (Z.of_nat q));
          reflexivity).
    rewrite andb_true_r.
    destruct (Z.odd (Z.of_nat q)) eqn:Eo.
    + replace (2 <=? Z.of_nat q + 1) with true
        by (symmetry; apply Z.leb_le;
            destruct q; [discriminate Eo|lia]).
      cbn [andb].
      replace (Z.to_nat (4 * (Z.of_nat q + 1) + 1 - Z.of_nat (2 * q + 2)))
        with (2 * q + 3)%nat by lia.
      replace (Z.to_nat (4 * (Z.of_nat q + 1) + 1 - Z.of_nat (2 * q + 3)))
        with (2 * q + 2)%nat by lia.
      fold hi lo. destruct (host P); cbn [load16]; lia.
    + rewrite andb_false_r. fold hi lo.
      destruct (host P); cbn [load16]; lia.
  - destruct (swap_bytes_spec (length pBuf) 2 len pBuf)
      as (buf' & Hs & Hl & Hn); [lia|lia|lia|intros j Hj; apply Hb; lia|].
    exists buf'. split; [exact Hs|].
    intros q Hq lo. rewrite !Hn.
    replace (2 <=? Z.of_nat (2 * q + 2)) with true
      by (symmetry; apply Z.leb_le; lia).
    replace (2 <=? Z.of_nat (2 * q + 3)) with true
      by (symmetry; apply Z.leb_le; lia).
    replace (Z.of_nat (2 * q + 2) <? len) with true
      by (symmetry; apply Z.ltb_lt; lia).
    replace (Z.of_nat (2 * q + 3) <? len) with true
      by (symmetry; apply Z.ltb_lt; lia).
    replace (Z.of_nat (2 * q + 2) - 2) with (2 * Z.of_nat q) by lia.
    replace (Z.of_nat (2 * q + 3) - 2) with (1 + 2 * Z.of_nat q) by lia.
    rewrite Z.even_mul, Z.even_add_mul_2. cbn [Z.even andb orb].
    fold lo. destruct (host P); cbn [load16]; lia.
Qed.

Lemma register_values_not_delivered_witness :
  Forall (fun b : byte => 0 <= b < 256)
    ([3; 4; 0x12; 0x34; 0x56; 0x78] ++ repeat 0xAA 20%nat)
  /\ 2 * 13
     <= Z.of_nat (length ([3; 4; 0x12; 0x34; 0x56; 0x78]
                          ++ repeat 0xAA 20%nat))
  /\ (exists swapped,
         swap_words x86 26 2 13
           ([3; 4; 0x12; 0x34; 0x56; 0x78] ++ repeat 0xAA 20%nat)
         = Some swapped
         /\ load16 LittleEndian (nth 2 swapped 0) (nth 3 swapped 0) = 0x3412
         /\ load16 LittleEndian (nth 4 swapped 0) (nth 5 swapped 0) = 0x5678)
  /\ (exists cleared,
         swap_bytes 26 2 13
           ([3; 4; 0x12; 0x34; 0x56; 0x78] ++ repeat 0xAA 20%nat)
         = Some cleared
         /\ load16 LittleEndian (nth 2 cleared 0) (nth 3 cleared 0) = 0x3400
         /\ load16 LittleEndian (nth 4 cleared 0) (nth 5 cleared 0) = 0x7800).
Proof.
  assert (Hb : Forall (fun b : byte => 0 <= b < 256)
                 ([3; 4; 0x12; 0x34; 0x56; 0x78] ++ repeat 0xAA 20%nat))
    by (cbn [app repeat];
        repeat (apply Forall_cons;
                [vm_compute; split; [discriminate|reflexivity]|]);
        apply Forall_nil).
  assert (Hr : 2 * 13
               <= Z.of_nat (length ([3; 4; 0x12; 0x34; 0x56; 0x78]
                                    ++ repeat 0xAA 20%nat)))
    by (vm_compute; discriminate).
  split; [exact Hb|]. split; [exact Hr|].
  destruct (register_values_not_delivered x86 _ 13 Hb Hr)
    as [(swapped & Hs & Hq) (cleared & Hc & Hq')].
  split.
  - exists swapped. split; [exact Hs|].
    split; [exact (Hq 0%nat ltac:(simpl; lia))
           |exact (Hq 1%nat ltac:(simpl; lia))].
  - exists cleared. split; [exact Hc|].
    split; [exact (Hq' 0%nat ltac:(simpl; lia))
           |exact (Hq' 1%nat ltac:(simpl; lia))].
Defined.

(** ** No read ever delivers *)

(** X22. modbus_ReadHoldingRegisters never returns 0.  modbus_RecvPacket
    never returns more than -1, the test [len < 0] is made on a [size_t],
    and so the swapping loop is entered with the bound [(size_t)-1] and
    leaves the reply buffer.  Whatever arrives, whenever the operation
    returns it returns 0x84, having found the byte 0x83 at the start of
    the reply buffer, and the caller's buffer and count are as they
    were. *)
Theorem ReadHoldingRegisters_never_delivers (P : platform)
  (d : modbus_device_t) (a nregs : Z) (out : option (list byte))
  (n : option Z) (w : world)
  (r : Z) (o : option (list byte)) (c : option Z) (w' : world)
  (Hptr : 13 <= addr_of_outLen P)
  (Hret : modbus_ReadHoldingRegisters P (Some d) a nregs out n w
          = Returns (r, o, c) w') :
  r = 0x84 /\ o = out /\ c = n.
Proof.
  revert Hret. unfold modbus_ReadHoldingRegisters.
  rewrite connect_and_send_any by assumption.
  unfold next_tid at 1. rewrite tid_not_negative.
  set (k := uint16_t (LITTLE_TO_BIG_ENDIAN nregs)).
  assert (Hk : 0 <= k < 65536) by apply uint16_nonneg.
  unfold bind.
  match goal with
  | |- context [modbus_RecvPacket P ?dv ?b ?l ?t ?w1] =>
      destruct (modbus_RecvPacket P dv b l t w1) as [[r0 buf] w2|w2] eqn:E
  end; [|discriminate].
  apply RecvPacket_cases in E; [|rewrite malloc_length; lia|lia].
  destruct E as (-> & Hl & _). rewrite malloc_length in Hl.
  unfold modbus_DisconnectDevice, epicsMutexUnlock.
  destruct (nth 0 buf 0 =? 0x83) eqn:E0.
  - apply Z.eqb_eq in E0. unfold ret. intros H. injection H as <- <- <- _.
    rewrite E0. auto.
  - rewrite swap_words_overrun; [discriminate|].
    rewrite size_t_minus_one, Hl. lia.
Qed.

Lemma ReadHoldingRegisters_never_delivers_witness :
  13 <= addr_of_outLen x86
  /\ modbus_ReadHoldingRegisters x86 (Some plc_device) 0 1 (Some [0])
       (Some 0)
       (idle [RecvFrom plc [0x83; 0x99; 0; 0; 0; 5; 255; 3; 2; 0x12; 0x34]])
     = Returns (0x84, Some [0], Some 0)
         (final_world
            (modbus_ReadHoldingRegisters x86 (Some plc_device) 0 1
               (Some [0]) (Some 0)
               (idle [RecvFrom plc
                        [0x83; 0x99; 0; 0; 0; 5; 255; 3; 2; 0x12; 0x34]])))
  /\ 0x84 = 0x84 /\ Some [0] = Some [0] /\ Some 0 = Some 0.
Proof.
  assert (Hp : 13 <= addr_of_outLen x86) by (simpl; lia).
  assert (Hrun : modbus_ReadHoldingRegisters x86 (Some plc_device) 0 1
                   (Some [0]) (Some 0)
                   (idle [RecvFrom plc
                            [0x83; 0x99; 0; 0; 0; 5; 255; 3; 2; 0x12;
                             0x34]])
                 = Returns (0x84, Some [0], Some 0)
                     (final_world
                        (modbus_ReadHoldingRegisters x86 (Some plc_device)
                           0 1 (Some [0]) (Some 0)
                           (idle [RecvFrom plc
                                    [0x83; 0x99; 0; 0; 0; 5; 255; 3; 2;
                                     0x12; 0x34]]))))
    by reflexivity.
  split; [exact Hp|]. split; [exact Hrun|].
  exact (ReadHoldingRegisters_never_delivers x86 plc_device 0 1 (Some [0])
           (Some 0) _ 0x84 (Some [0]) (Some 0) _ Hp Hrun).
Defined.

(** X21. modbus_ReadInputRegisters never hands a register to the caller.
    With the bound [(size_t)-1] its loop leaves the reply buffer before
    the copy is reached: whatever arrives, whenever the operation returns,
    it has returned from the exception branch and the caller's buffer is
    as it was. *)
Theorem ReadInputRegisters_never_delivers (P : platform)
  (d : modbus_device_t) (a nregs : Z) (out : option (list byte))
  (n : option byte) (w : world)
  (r : Z) (o : option (list byte)) (w' : world)
  (Hptr : 13 <= addr_of_outLen P)
  (Hret : modbus_ReadInputRegisters P (Some d) a nregs out n w
          = Returns (r, o) w') :
  o = out
  /\ exists pBuf w1,
      modbus_RecvPacket P (Some d)
        (malloc P (uint16_t (LITTLE_TO_BIG_ENDIAN nregs) * 2 + 2))
        (uint16_t (LITTLE_TO_BIG_ENDIAN nregs) * 2 + 2) (next_tid P w)
        (attempted P d
           (request_bytes (host P) MB_RD_INP_REG_CODE (fresh P 1)
              (uint16_t (LITTLE_TO_BIG_ENDIAN a))
              (uint16_t (LITTLE_TO_BIG_ENDIAN nregs))) w)
      = Returns (-1, pBuf) w1
      /\ nth 0 pBuf 0 = 0x84 /\ r = nth 1 pBuf 0.
Proof.
  revert Hret. unfold modbus_ReadInputRegisters.
  rewrite connect_and_send_any by assumption.
  unfold next_tid at 1. rewrite tid_not_negative.
  set (k := uint16_t (LITTLE_TO_BIG_ENDIAN nregs)).
  assert (Hk : 0 <= k < 65536) by apply uint16_nonneg.
  unfold bind.
  match goal with
  | |- context [modbus_RecvPacket P ?dv ?b ?l ?t ?w1] =>
      destruct (modbus_RecvPacket P dv b l t w1) as [[r0 buf] w2|w2] eqn:E
  end; [|discriminate].
  pose proof E as E'.
  apply RecvPacket_cases in E'; [|rewrite malloc_length; lia|lia].
  destruct E' as (-> & Hl & _). rewrite malloc_length in Hl.
  destruct (nth 0 buf 0 =? 0x84) eqn:E0.
  - apply Z.eqb_eq in E0. unfold ret. intros H. injection H as <- <- _.
    split; [reflexivity|].
    exists buf, w2. split; [reflexivity|]. split; [exact E0|reflexivity].
  - rewrite swap_bytes_overrun; [discriminate|].
    rewrite size_t_minus_one, Hl. lia.
Qed.

Lemma ReadInputRegisters_never_delivers_witness :
  13 <= addr_of_outLen x86
  /\ modbus_ReadInputRegisters x86 (Some plc_device) 0 1 (Some [0]) (Some 0)
       (idle [RecvFrom plc [0x84; 0x99; 0; 0; 0; 5; 255; 4; 2; 0x12; 0x34]])
     = Returns (0x99, Some [0])
         (final_world
            (modbus_ReadInputRegisters x86 (Some plc_device) 0 1 (Some [0])
               (Some 0)
               (idle [RecvFrom plc
                        [0x84; 0x99; 0; 0; 0; 5; 255; 4; 2; 0x12; 0x34]])))
  /\ Some [0] = Some [0].
Proof.
  assert (Hp : 13 <= addr_of_outLen x86) by (simpl; lia).
  assert (Hrun : modbus_ReadInputRegisters x86 (Some plc_device) 0 1
                   (Some [0]) (Some 0)
                   (idle [RecvFrom plc
                            [0x84; 0x99; 0; 0; 0; 5; 255; 4; 2; 0x12;
                             0x34]])
                 = Returns (0x99, Some [0])
                     (final_world
                        (modbus_ReadInputRegisters x86 (Some plc_device)
                           0 1 (Some [0]) (Some 0)
                           (idle [RecvFrom plc
                                    [0x84; 0x99; 0; 0; 0; 5; 255; 4; 2;
                                     0x12; 0x34]]))))
    by reflexivity.
  split; [exact Hp|]. split; [exact Hrun|].
  destruct (ReadInputRegisters_never_delivers x86 plc_device 0 1 (Some [0])
              (Some 0) _ 0x99 (Some [0]) _ Hp Hrun) as [H _].
  exact H.
Defined.

(** X26. modbus_ReadDiscreteInputs never hands an input to the caller:
    with the -1 of modbus_RecvPacket taken for a length, the copy to the
    caller has [(size_t)-1 - 2] bytes and leaves the reply buffer.
    Whatever arrives, the operation returns only when the address of the
    allocation ends in 0x82, and then 0x83 with the caller's buffer as it
    was; with any other address it is undefined. *)
Theorem ReadDiscreteInputs_never_delivers (P : platform)
  (d : modbus_device_t) (a ncoils : Z) (out : list byte) (n : byte)
  (w : world)
  (Hptr : 13 <= addr_of_outLen P) :
  (forall r o w',
      modbus_ReadDiscreteInputs P (Some d) a ncoils (Some out) (Some n) w
      = Returns (r, o) w' ->
      r = 0x83 /\ uint8_t (addr_of_malloc P) = 0x82 /\ o = Some out)
  /\ (uint8_t (addr_of_malloc P) <> 0x82 ->
      exists w',
        modbus_ReadDiscreteInputs P (Some d) a ncoils (Some out) (Some n) w
        = Undefined w').
Proof.
  set (k := uint16_t (LITTLE_TO_BIG_ENDIAN ncoils)).
  assert (Hk : 0 <= k < 65536) by apply uint16_nonneg.
  assert (Hdisc : forall r o w',
             modbus_ReadDiscreteInputs P (Some d) a ncoils (Some out)
               (Some n) w
             = Returns (r, o) w' ->
             r = 0x83 /\ uint8_t (addr_of_malloc P) = 0x82 /\ o = Some out).
  { intros r o w'. unfold modbus_ReadDiscreteInputs.
    rewrite connect_and_send_any by assumption.
    unfold next_tid at 1. rewrite tid_not_negative.
    fold k. unfold bind.
    match goal with
    | |- context [modbus_RecvPacket P ?dv ?b ?l ?t ?w1] =>
        destruct (modbus_RecvPacket P dv b l t w1) as [[r0 buf] w2|w2] eqn:E
    end; [|discriminate].
    apply RecvPacket_cases in E; [|rewrite malloc_length; lia|lia].
    destruct E as (-> & Hl & _). rewrite malloc_length in Hl.
    unfold modbus_DisconnectDevice, epicsMutexUnlock.
    destruct (uint8_t (addr_of_malloc P) =? 0x82) eqn:E.
    - apply Z.eqb_eq in E. unfold ret. intros H. injection H as <- <- _.
      split; [apply next_pointer_byte; exact E|]. split; [exact E|reflexivity].
    - rewrite memcpy_at_short_source; [discriminate|].
      rewrite size_t_minus_one, length_skipn, Hl.
      unfold size_t. rewrite Z.mod_small by lia. lia. }
  split; [exact Hdisc|].
  intros Hne.
  destruct (modbus_ReadDiscreteInputs P (Some d) a ncoils (Some out)
              (Some n) w) as [[r o] w'|w'] eqn:E; [|exists w'; reflexivity].
  destruct (Hdisc _ _ _ eq_refl) as (_ & H & _). contradiction.
Qed.

Lemma ReadDiscreteInputs_never_delivers_witness :
  13 <= addr_of_outLen x86
  /\ exists w',
      modbus_ReadDiscreteInputs x86 (Some plc_device) 0 8
        (Some (repeat 0 8%nat)) (Some 0)
        (idle [RecvFrom plc [0x99; 0x99; 0; 0; 0; 4; 255; 2; 1; 0xA5]])
      = Undefined w'.
Proof.
  assert (Hp : 13 <= addr_of_outLen x86) by (simpl; lia).
  split; [exact Hp|].
  destruct (ReadDiscreteInputs_never_delivers x86 plc_device 0 8
              (repeat 0 8%nat) 0
              (idle [RecvFrom plc [0x99; 0x99; 0; 0; 0; 4; 255; 2; 1; 0xA5]])
              Hp) as [_ H].
  apply H. vm_compute. discriminate.
Defined.
